(** * Attendance, geofencing, field tasks and the leave ledger of osus-server

    A shallow embedding of the request handlers of [routers.ts] (the tRPC
    routers [attendance], [employees.resetDevice], [fieldTask], [leave],
    [attendanceManagement] and [location]) and of the database helpers of
    [db.ts] they call, followed by the properties of the specification
    and by further properties of the same code.

    Conventions of the embedding.
    - A table is the list of its rows in insertion order, with the next
      auto-increment key beside it.  A [select ... limit 1] is the first
      matching row.  SQL string equality is [String.eqb].  Constraints
      declared in [schema.ts] are the database engine's and are not
      modelled; the database handle is taken to be available.
    - An [await]ed call that throws aborts the handler at that point; what
      was written before stays written.  A handler is a function from the
      store to the store after it and its outcome.
    - The statements that may fail are the inserts into the two
      notification tables, with one switch per table in the environment,
      and the insert of a leave request whose day count is NaN.
    - The clock is read once per request.
    - A JavaScript number is a binary64 float where the code computes with
      coordinates and distances, and an integer or NaN ([option Z]) where
      it computes with minutes, days, keys and counters. *)

From Stdlib Require Import ZArith List String Ascii Bool Lia.
From Stdlib Require Import PrimFloat Uint63.
Import ListNotations.
Open Scope string_scope.
Open Scope Z_scope.

Set Implicit Arguments.
Set Warnings "-inexact-float".

(** ** JavaScript primitives *)

Module JS.

(** An integer-valued number or NaN. *)
Definition num := option Z.

Definition NaN : num := None.

Definition add (a b : num) : num :=
  match a, b with
  | Some x, Some y => Some (x + y)
  | _, _ => None
  end.

Definition sub (a b : num) : num :=
  match a, b with
  | Some x, Some y => Some (x - y)
  | _, _ => None
  end.

Definition mul (a b : num) : num :=
  match a, b with
  | Some x, Some y => Some (x * y)
  | _, _ => None
  end.

(** [a > b] and [a < b]: false as soon as one side is NaN. *)
Definition gt (a b : num) : bool :=
  match a, b with
  | Some x, Some y => y <? x
  | _, _ => false
  end.

Definition lt (a b : num) : bool := gt b a.

Definition abs (a : num) : num := option_map Z.abs a.

(** [Math.ceil(a / d)] for an integer [a] and a positive integer [d]. *)
Definition ceilDiv (a : num) (d : Z) : num :=
  option_map (fun x => - ((- x) / d)) a.

(** The value of a decimal digit. *)
Definition digit (c : ascii) : option Z :=
  let n := Z.of_nat (nat_of_ascii c) in
  if (48 <=? n) && (n <=? 57) then Some (n - 48) else None.

Fixpoint digits (acc : Z) (s : string) : num :=
  match s with
  | EmptyString => Some acc
  | String c r =>
      match digit c with
      | Some d => digits (10 * acc + d) r
      | None => None
      end
  end.

(** [Number(s)] on strings of decimal digits; [Number("")] is 0.  A string
    with any other character is sent to NaN, which is what JavaScript does
    for letters and punctuation such as [:]; signs, fractions, exponents,
    radix prefixes and surrounding blanks are outside this fragment. *)
Definition Number (s : string) : num := digits 0 s.

(** [s.split(sep)] for a one-character separator. *)
Fixpoint split (sep : ascii) (s : string) : list string :=
  match s with
  | EmptyString => [EmptyString]
  | String c r =>
      if Ascii.eqb c sep then EmptyString :: split sep r
      else match split sep r with
           | h :: t => String c h :: t
           | [] => [String c EmptyString]
           end
  end.

(** Array destructuring [const [a, b] = xs]: a missing element is
    [undefined], which arithmetic turns into NaN. *)
Definition element (xs : list num) (i : nat) : num :=
  match nth_error xs i with
  | Some x => x
  | None => NaN
  end.

(** Truthiness of a string: the empty string is falsy. *)
Definition truthy (s : string) : bool :=
  match s with
  | EmptyString => false
  | String _ _ => true
  end.

(** [Date.prototype.getUTCHours] and [getUTCMinutes] of a time value in
    milliseconds since the epoch. *)
Definition getUTCHours (t : Z) : Z := (t / 3600000) mod 24.
Definition getUTCMinutes (t : Z) : Z := (t / 60000) mod 60.

(** Days from 1970-01-01 to day [d] of month [m] of year [y] in the
    proleptic Gregorian calendar (the day count is linear in [d], so a
    day past the end of the month lands in the next one). *)
Definition daysFromCivil (y m d : Z) : Z :=
  let y' := if m <=? 2 then y - 1 else y in
  let era := y' / 400 in
  let yoe := y' - era * 400 in
  let mp := (m + 9) mod 12 in
  let doy := (153 * mp + 2) / 5 + d - 1 in
  let doe := yoe * 365 + yoe / 4 - yoe / 100 + doy in
  era * 146097 + doe - 719468.

(** The shape [dddd-dd-dd] apart from the digits, which [Number] checks. *)
Definition hasDateShape (s : string) : bool :=
  Nat.eqb (String.length s) 10
  && match get 4 s, get 7 s with
     | Some a, Some b => Ascii.eqb a "-" && Ascii.eqb b "-"
     | _, _ => false
     end.

(** [new Date(s).getTime()] for a string that matched
    [/^\d{4}-\d{2}-\d{2}$/]: a date-only form is read as UTC midnight.
    As in Node (V8), the month must be 1..12 and the day 1..31, and a day
    past the end of the month runs into the next one; anything else is an
    invalid date, whose time value is NaN.  A string of another shape does
    not pass the validation of the input and is given NaN here. *)
Definition dateTime (s : string) : num :=
  if hasDateShape s then
    match Number (substring 0 4 s), Number (substring 5 2 s), Number (substring 8 2 s) with
    | Some y, Some m, Some d =>
        if (1 <=? m) && (m <=? 12) && (1 <=? d) && (d <=? 31)
        then Some (daysFromCivil y m d * 86400000)
        else NaN
    | _, _, _ => NaN
    end
  else NaN.

End JS.

(** ** Distances: [calculateDistance] and [toRad] of db.ts *)

(** [Math.sin], [Math.cos] and [Math.atan2].  ECMAScript leaves their
    results implementation-approximated, so the embedding takes them from
    the runtime; everything around them is IEEE binary64 arithmetic. *)
Record MathImpl : Set := {
  Math_sin : float -> float;
  Math_cos : float -> float;
  Math_atan2 : float -> float -> float
}.

(** [Math.PI] *)
Definition Math_PI : float := 0x1.921fb54442d18p+1%float.

(** An integer column read as a number. *)
Definition floatOfZ (z : Z) : float :=
  if z <? 0 then PrimFloat.opp (PrimFloat.of_uint63 (Uint63.of_Z (- z)))
  else PrimFloat.of_uint63 (Uint63.of_Z z).

Section Haversine.

Variable M : MathImpl.

Definition toRad (deg : float) : float := (deg * (Math_PI / 180))%float.

Definition calculateDistance (lat1 lon1 lat2 lon2 : float) : float :=
  let R := 6371000%float in
  let dLat := toRad (lat2 - lat1)%float in
  let dLon := toRad (lon2 - lon1)%float in
  let a :=
    (Math_sin M (dLat / 2) * Math_sin M (dLat / 2) +
     Math_cos M (toRad lat1) * Math_cos M (toRad lat2) *
     Math_sin M (dLon / 2) * Math_sin M (dLon / 2))%float in
  let c := (2 * Math_atan2 M (PrimFloat.sqrt a) (PrimFloat.sqrt (1 - a)))%float in
  (R * c)%float.

End Haversine.

(** A runtime to evaluate examples with: sine and cosine by their Taylor
    polynomials of degree 39 and 38, the arc tangent by two halvings of the
    argument and its series.  The theorems do not depend on it: they hold
    for every runtime. *)
Module RefMath.

Fixpoint series (n : nat) (k : float) (term x2 acc : float) : float :=
  match n with
  | O => acc
  | S n' =>
      let term' := (- term * x2 / ((k + 1) * (k + 2)))%float in
      series n' (k + 2)%float term' x2 (acc + term')%float
  end.

Definition sin (x : float) : float := series 19 1 x (x * x)%float x.

Definition cos (x : float) : float := series 19 0 1 (x * x)%float 1.

Fixpoint atanSeries (n : nat) (k : float) (pow t2 acc : float) : float :=
  match n with
  | O => acc
  | S n' =>
      let pow' := (- pow * t2)%float in
      atanSeries n' (k + 2)%float pow' t2 (acc + pow' / (k + 2))%float
  end.

Definition halve (t : float) : float := (t / (1 + PrimFloat.sqrt (1 + t * t)))%float.

(** Arc tangent on [0, 1]. *)
Definition atanUnit (t : float) : float :=
  let u := halve (halve t) in
  (4 * atanSeries 16 1 u (u * u) u)%float.

(** Arc tangent of a non-negative argument. *)
Definition atanPos (t : float) : float :=
  if PrimFloat.leb t 1 then atanUnit t else (Math_PI / 2 - atanUnit (1 / t))%float.

Definition atan (t : float) : float :=
  if PrimFloat.ltb t 0 then (- atanPos (- t))%float else atanPos t.

Definition atan2 (y x : float) : float :=
  if PrimFloat.ltb 0 x then atan (y / x)
  else if PrimFloat.ltb x 0 then
    (if PrimFloat.ltb y 0 then atan (y / x) - Math_PI else atan (y / x) + Math_PI)%float
  else if PrimFloat.ltb 0 y then (Math_PI / 2)%float
  else if PrimFloat.ltb y 0 then (- (Math_PI / 2))%float
  else (y + x)%float.

Definition impl : MathImpl :=
  {| Math_sin := sin; Math_cos := cos; Math_atan2 := atan2 |}.

End RefMath.

(** ** The data model (schema.ts) *)

Inductive Role : Set := employee | branch_manager | admin.

Inductive Method : Set := face | fingerprint | eye.

Inductive LeaveType : Set := annual | sick | emergency | unpaid.

Inductive LeaveStatus : Set := pending | approved | rejected.

Inductive FieldTaskStatus : Set := active | completed | cancelled.

Module Employee.
Record t : Set := {
  id : Z;
  userId : option Z;
  employeeCode : string;
  fullName : string;
  branchId : option Z;
  role : Role;
  faceDataId : option string;
  fingerprintEnabled : option bool;
  registeredDeviceId : option string;
  deviceRegisteredAt : option Z
}.
End Employee.

Module AttendanceRecord.
Inductive Status : Set := present | late | absent | half_day.
Record t : Set := {
  id : Z;
  employeeId : Z;
  date : string;
  checkInTime : option Z;
  checkOutTime : option Z;
  checkInLocation : option (float * float);
  checkOutLocation : option (float * float);
  checkInMethod : option Method;
  checkOutMethod : option Method;
  status : Status
}.
End AttendanceRecord.

Module WorkSettings.
Record t : Set := {
  workStartTime : string;
  workEndTime : string;
  lateThresholdMinutes : Z
}.
End WorkSettings.

(** [latitude] and [longitude] are the decimal columns as [parseFloat]
    reads them. *)
Module WorkZone.
Record t : Set := {
  id : Z;
  name : string;
  latitude : float;
  longitude : float;
  radiusMeters : Z;
  isActive : bool
}.
End WorkZone.

(** Notification rows keep their type tag and employee; titles and
    message texts are left out. *)
Module AdminNotification.
Inductive Type_ : Set :=
  late | absent | outside_zone | left_zone | early_checkout | system | device_mismatch.
Record t : Set := { id : Z; type : Type_; employeeId : option Z }.
End AdminNotification.

Module BranchNotification.
Inductive Type_ : Set :=
  | employee_added | employee_check_in | employee_check_out | employee_late
  | employee_absent | employee_early_checkout | employee_outside_zone | general.
Record t : Set := { id : Z; branchId : Z; type : Type_; employeeId : option Z }.
End BranchNotification.

Module FieldTask.
Record t : Set := {
  id : Z;
  employeeId : Z;
  date : string;
  taskDescription : option string;
  startTime : option Z;
  startLocation : option float * option float;
  startMethod : option Method;
  status : FieldTaskStatus
}.
End FieldTask.

Module AttendanceModification.
Inductive Type_ : Set := edit | add | delete | reset.
Record t : Set := {
  id : Z;
  attendanceId : Z;
  modifiedBy : Z;
  modificationType : Type_;
  newCheckIn : option Z;
  newCheckOut : option Z;
  reason : string
}.
End AttendanceModification.

Module LeaveRequest.
Record t : Set := {
  id : Z;
  employeeId : Z;
  leaveType : LeaveType;
  startDate : string;
  endDate : string;
  totalDays : Z;
  reason : string;
  status : LeaveStatus;
  reviewedBy : option Z;
  reviewedAt : option Z;
  rejectionReason : option string
}.
End LeaveRequest.

Module LeaveBalance.
Record t : Set := {
  id : Z;
  employeeId : Z;
  year : Z;
  annualBalance : Z;
  sickBalance : Z;
  emergencyBalance : Z;
  usedAnnual : Z;
  usedSick : Z;
  usedEmergency : Z
}.
End LeaveBalance.

(** A row of [location_tracking]; the coordinates and the accuracy are
    kept as the numbers the call sent. *)
Module LocationTracking.
Record t : Set := {
  id : Z;
  employeeId : Z;
  latitude : float;
  longitude : float;
  accuracy : option float;
  timestamp : Z
}.
End LocationTracking.

(** What the handlers throw.  The code throws [Error] objects told apart
    by their message only; each constructor stands for the messages of
    one cause, under the name the specification gives it. *)
Inductive Error : Set :=
  | EmployeeNotFound
  | RequestNotFound
  | DeviceUnauthorized
  | OutsideWorkZone
  | InsufficientRole
  | AlreadyCheckedIn
  | AlreadyCheckedOut
  | NoCheckInToday
  | AlreadyDecided
  | InsufficientBalance
  | BiometricNotEnrolled
  | DatabaseError.

(** The error taxonomy of the specification (section 7). *)
Inductive ErrorKind : Set := NotFound | Conflict | Forbidden | ValidationFailed | Unclassified.

Definition kind (e : Error) : ErrorKind :=
  match e with
  | EmployeeNotFound | RequestNotFound => NotFound
  | AlreadyCheckedIn | AlreadyCheckedOut | AlreadyDecided | NoCheckInToday => Conflict
  | DeviceUnauthorized | OutsideWorkZone | InsufficientRole => Forbidden
  | InsufficientBalance => ValidationFailed
  | BiometricNotEnrolled | DatabaseError => Unclassified
  end.

(** A table with an auto-increment primary key. *)
Record Table (A : Set) : Set := { rows : list A; nextId : Z }.

Record Store : Set := {
  employees : list Employee.t;
  workSettings : list WorkSettings.t;
  workZones : list WorkZone.t;
  attendanceRecords : Table AttendanceRecord.t;
  attendanceModifications : Table AttendanceModification.t;
  adminNotifications : Table AdminNotification.t;
  branchNotifications : Table BranchNotification.t;
  fieldTasks : Table FieldTask.t;
  leaveRequests : Table LeaveRequest.t;
  leaveBalances : Table LeaveBalance.t;
  (** what [.catch(console.error)] has swallowed *)
  consoleErrors : list Error
}.


(** Field updates of the store. *)
Definition withEmployees (v : list Employee.t) (st : Store) : Store :=
  {| employees := v; workSettings := workSettings st; workZones := workZones st;
     attendanceRecords := attendanceRecords st;
     attendanceModifications := attendanceModifications st;
     adminNotifications := adminNotifications st;
     branchNotifications := branchNotifications st; fieldTasks := fieldTasks st;
     leaveRequests := leaveRequests st; leaveBalances := leaveBalances st;
     consoleErrors := consoleErrors st |}.

Definition withAttendanceRecords (v : Table AttendanceRecord.t) (st : Store) : Store :=
  {| employees := employees st; workSettings := workSettings st; workZones := workZones st;
     attendanceRecords := v;
     attendanceModifications := attendanceModifications st;
     adminNotifications := adminNotifications st;
     branchNotifications := branchNotifications st; fieldTasks := fieldTasks st;
     leaveRequests := leaveRequests st; leaveBalances := leaveBalances st;
     consoleErrors := consoleErrors st |}.

Definition withAttendanceModifications (v : Table AttendanceModification.t) (st : Store) : Store :=
  {| employees := employees st; workSettings := workSettings st; workZones := workZones st;
     attendanceRecords := attendanceRecords st;
     attendanceModifications := v;
     adminNotifications := adminNotifications st;
     branchNotifications := branchNotifications st; fieldTasks := fieldTasks st;
     leaveRequests := leaveRequests st; leaveBalances := leaveBalances st;
     consoleErrors := consoleErrors st |}.

Definition withAdminNotifications (v : Table AdminNotification.t) (st : Store) : Store :=
  {| employees := employees st; workSettings := workSettings st; workZones := workZones st;
     attendanceRecords := attendanceRecords st;
     attendanceModifications := attendanceModifications st;
     adminNotifications := v;
     branchNotifications := branchNotifications st; fieldTasks := fieldTasks st;
     leaveRequests := leaveRequests st; leaveBalances := leaveBalances st;
     consoleErrors := consoleErrors st |}.

Definition withBranchNotifications (v : Table BranchNotification.t) (st : Store) : Store :=
  {| employees := employees st; workSettings := workSettings st; workZones := workZones st;
     attendanceRecords := attendanceRecords st;
     attendanceModifications := attendanceModifications st;
     adminNotifications := adminNotifications st;
     branchNotifications := v; fieldTasks := fieldTasks st;
     leaveRequests := leaveRequests st; leaveBalances := leaveBalances st;
     consoleErrors := consoleErrors st |}.

Definition withFieldTasks (v : Table FieldTask.t) (st : Store) : Store :=
  {| employees := employees st; workSettings := workSettings st; workZones := workZones st;
     attendanceRecords := attendanceRecords st;
     attendanceModifications := attendanceModifications st;
     adminNotifications := adminNotifications st;
     branchNotifications := branchNotifications st; fieldTasks := v;
     leaveRequests := leaveRequests st; leaveBalances := leaveBalances st;
     consoleErrors := consoleErrors st |}.

Definition withLeaveRequests (v : Table LeaveRequest.t) (st : Store) : Store :=
  {| employees := employees st; workSettings := workSettings st; workZones := workZones st;
     attendanceRecords := attendanceRecords st;
     attendanceModifications := attendanceModifications st;
     adminNotifications := adminNotifications st;
     branchNotifications := branchNotifications st; fieldTasks := fieldTasks st;
     leaveRequests := v; leaveBalances := leaveBalances st;
     consoleErrors := consoleErrors st |}.

Definition withLeaveBalances (v : Table LeaveBalance.t) (st : Store) : Store :=
  {| employees := employees st; workSettings := workSettings st; workZones := workZones st;
     attendanceRecords := attendanceRecords st;
     attendanceModifications := attendanceModifications st;
     adminNotifications := adminNotifications st;
     branchNotifications := branchNotifications st; fieldTasks := fieldTasks st;
     leaveRequests := leaveRequests st; leaveBalances := v;
     consoleErrors := consoleErrors st |}.

Definition withConsoleErrors (v : list Error) (st : Store) : Store :=
  {| employees := employees st; workSettings := workSettings st; workZones := workZones st;
     attendanceRecords := attendanceRecords st;
     attendanceModifications := attendanceModifications st;
     adminNotifications := adminNotifications st;
     branchNotifications := branchNotifications st; fieldTasks := fieldTasks st;
     leaveRequests := leaveRequests st; leaveBalances := leaveBalances st;
     consoleErrors := v |}.

Definition withWorkSettings (v : list WorkSettings.t) (st : Store) : Store :=
  {| employees := employees st; workSettings := v; workZones := workZones st;
     attendanceRecords := attendanceRecords st;
     attendanceModifications := attendanceModifications st;
     adminNotifications := adminNotifications st;
     branchNotifications := branchNotifications st; fieldTasks := fieldTasks st;
     leaveRequests := leaveRequests st; leaveBalances := leaveBalances st;
     consoleErrors := consoleErrors st |}.

Definition withWorkZones (v : list WorkZone.t) (st : Store) : Store :=
  {| employees := employees st; workSettings := workSettings st; workZones := v;
     attendanceRecords := attendanceRecords st;
     attendanceModifications := attendanceModifications st;
     adminNotifications := adminNotifications st;
     branchNotifications := branchNotifications st; fieldTasks := fieldTasks st;
     leaveRequests := leaveRequests st; leaveBalances := leaveBalances st;
     consoleErrors := consoleErrors st |}.


(** What a request reads from its surroundings. *)
Record Env : Set := {
  (** [new Date().getTime()] *)
  now : Z;
  (** [new Date().toISOString().split('T')[0]] *)
  today : string;
  (** [new Date().getFullYear()] *)
  currentYear : Z;
  (** the server's offset from UTC in milliseconds *)
  localOffset : Z;
  (** whether an insert into admin_notifications goes through *)
  adminSinkUp : bool;
  (** whether an insert into branch_notifications goes through *)
  branchSinkUp : bool;
  Math : MathImpl
}.

(** ** Handlers: state that survives a thrown error *)

Inductive Outcome (A : Type) : Type :=
  | Return (a : A)
  | Throw (e : Error).

Arguments Return {A} a.
Arguments Throw {A} e.

Definition Handler (A : Type) : Type := Store -> Store * Outcome A.

Definition ret {A} (a : A) : Handler A := fun st => (st, Return a).

Definition throw {A} (e : Error) : Handler A := fun st => (st, Throw e).

Definition bind {A B} (h : Handler A) (k : A -> Handler B) : Handler B :=
  fun st =>
    match h st with
    | (st', Return a) => k a st'
    | (st', Throw e) => (st', Throw e)
    end.

Definition gets {A} (f : Store -> A) : Handler A := fun st => (st, Return (f st)).

Definition modify (f : Store -> Store) : Handler unit := fun st => (f st, Return tt).

Declare Scope handler_scope.
Delimit Scope handler_scope with handler.
Notation "x <- h ;; k" := (bind h (fun x => k))
  (at level 61, h at next level, right associativity) : handler_scope.
Notation "h ;;; k" := (bind h (fun _ => k))
  (at level 61, right associativity) : handler_scope.
Notation "'when' c 'do' h" := (if c then h else ret tt)
  (at level 60, c at level 9) : handler_scope.
Open Scope handler_scope.

(** A promise with [.catch(console.error)] that nobody awaits: its failure
    is logged and goes no further. *)
Definition catchLog {A} (h : Handler A) : Handler unit :=
  fun st =>
    match h st with
    | (st', Return _) => (st', Return tt)
    | (st', Throw e) => (withConsoleErrors (e :: consoleErrors st') st', Return tt)
    end.

(** Truthiness of a nullable key, a nullable string and a nullable flag. *)
Definition truthyId (x : option Z) : bool :=
  match x with
  | Some n => negb (n =? 0)
  | None => false
  end.

Definition truthyString (x : option string) : bool :=
  match x with
  | Some s => JS.truthy s
  | None => false
  end.

Definition truthyFlag (x : option bool) : bool :=
  match x with
  | Some b => b
  | None => false
  end.

Definition isSome {A} (x : option A) : bool :=
  match x with
  | Some _ => true
  | None => false
  end.

(** [update(table).set(...).where(p)] *)
Definition updateWhere {A : Set} (p : A -> bool) (f : A -> A) (T : Table A) : Table A :=
  {| rows := map (fun r => if p r then f r else r) (rows T); nextId := nextId T |}.

(** [insert(table).values(...)]: the row gets the next key. *)
Definition insertRow {A : Set} (mk : Z -> A) (T : Table A) : Table A :=
  {| rows := (rows T ++ [mk (nextId T)])%list; nextId := nextId T + 1 |}.

(** ** The database helpers (db.ts) *)

Module db.

Definition getEmployeeByUserId (userId : Z) : Handler (option Employee.t) :=
  gets (fun st =>
    find (fun e => match Employee.userId e with
                   | Some u => u =? userId
                   | None => false
                   end) (employees st)).

Definition getEmployeeById (id : Z) : Handler (option Employee.t) :=
  gets (fun st => find (fun e => Employee.id e =? id) (employees st)).

Definition getEmployeeByCode (employeeCode : string) : Handler (option Employee.t) :=
  gets (fun st =>
    find (fun e => String.eqb (Employee.employeeCode e) employeeCode) (employees st)).

Definition setDevice (deviceId : option string) (at_ : option Z) (e : Employee.t) : Employee.t :=
  {| Employee.id := Employee.id e; Employee.userId := Employee.userId e;
     Employee.employeeCode := Employee.employeeCode e;
     Employee.fullName := Employee.fullName e; Employee.branchId := Employee.branchId e;
     Employee.role := Employee.role e; Employee.faceDataId := Employee.faceDataId e;
     Employee.fingerprintEnabled := Employee.fingerprintEnabled e;
     Employee.registeredDeviceId := deviceId; Employee.deviceRegisteredAt := at_ |}.

Definition registerEmployeeDevice (env : Env) (employeeId : Z) (deviceId : string)
  : Handler unit :=
  modify (fun st =>
    withEmployees
      (map (fun e => if Employee.id e =? employeeId
                     then setDevice (Some deviceId) (Some (now env)) e else e)
           (employees st)) st).

Record DeviceCheck : Set := {
  isRegistered : bool;
  isMatch : bool;
  registeredDeviceId : option string
}.

Definition checkEmployeeDevice (employeeId : Z) (deviceId : string) : Handler DeviceCheck :=
  gets (fun st =>
    match find (fun e => Employee.id e =? employeeId) (employees st) with
    | None => {| isRegistered := false; isMatch := false; registeredDeviceId := None |}
    | Some e =>
        match Employee.registeredDeviceId e with
        | Some r =>
            if JS.truthy r
            then {| isRegistered := true; isMatch := String.eqb r deviceId;
                    registeredDeviceId := Some r |}
            else {| isRegistered := false; isMatch := false; registeredDeviceId := None |}
        | None => {| isRegistered := false; isMatch := false; registeredDeviceId := None |}
        end
    end).

Definition clearEmployeeDevice (employeeId : Z) : Handler unit :=
  modify (fun st =>
    withEmployees
      (map (fun e => if Employee.id e =? employeeId then setDevice None None e else e)
           (employees st)) st).

Definition resetEmployeeDevice := clearEmployeeDevice.

Definition createAttendanceRecord (mk : Z -> AttendanceRecord.t) : Handler Z :=
  fun st =>
    (withAttendanceRecords (insertRow mk (attendanceRecords st)) st,
     Return (nextId (attendanceRecords st))).

Definition getTodayAttendance (env : Env) (employeeId : Z)
  : Handler (option AttendanceRecord.t) :=
  gets (fun st =>
    find (fun r => (AttendanceRecord.employeeId r =? employeeId)
                   && String.eqb (AttendanceRecord.date r) (today env))
         (rows (attendanceRecords st))).

Definition updateAttendanceRecord (id : Z) (data : AttendanceRecord.t -> AttendanceRecord.t)
  : Handler unit :=
  modify (fun st =>
    withAttendanceRecords
      (updateWhere (fun r => AttendanceRecord.id r =? id) data (attendanceRecords st)) st).

Definition getWorkSettings : Handler (option WorkSettings.t) :=
  gets (fun st => hd_error (workSettings st)).

Definition getActiveWorkZones : Handler (list WorkZone.t) :=
  gets (fun st => filter WorkZone.isActive (workZones st)).

Record ZoneCheck : Set := { inZone : bool; zoneName : option string }.

(** The loop of [isLocationInWorkZone] over the active zones. *)
Fixpoint isLocationInWorkZone_loop (M : MathImpl) (latitude longitude : float)
  (zones : list WorkZone.t) : ZoneCheck :=
  match zones with
  | [] => {| inZone := false; zoneName := None |}
  | zone :: rest =>
      let zoneLat := WorkZone.latitude zone in
      let zoneLon := WorkZone.longitude zone in
      let distance := calculateDistance M latitude longitude zoneLat zoneLon in
      if PrimFloat.leb distance (floatOfZ (WorkZone.radiusMeters zone))
      then {| inZone := true; zoneName := Some (WorkZone.name zone) |}
      else isLocationInWorkZone_loop M latitude longitude rest
  end.

Definition isLocationInWorkZone (env : Env) (latitude longitude : float) : Handler ZoneCheck :=
  zones <- getActiveWorkZones ;;
  ret (isLocationInWorkZone_loop (Math env) latitude longitude zones).

Definition createNotification (env : Env) (type : AdminNotification.Type_)
  (employeeId : option Z) : Handler Z :=
  fun st =>
    if adminSinkUp env
    then (withAdminNotifications
            (insertRow (fun id => {| AdminNotification.id := id;
                                     AdminNotification.type := type;
                                     AdminNotification.employeeId := employeeId |})
                       (adminNotifications st)) st,
          Return (nextId (adminNotifications st)))
    else (st, Throw DatabaseError).

Definition createBranchNotification (env : Env) (branchId : Z)
  (type : BranchNotification.Type_) (employeeId : option Z) : Handler Z :=
  fun st =>
    if branchSinkUp env
    then (withBranchNotifications
            (insertRow (fun id => {| BranchNotification.id := id;
                                     BranchNotification.branchId := branchId;
                                     BranchNotification.type := type;
                                     BranchNotification.employeeId := employeeId |})
                       (branchNotifications st)) st,
          Return (nextId (branchNotifications st)))
    else (st, Throw DatabaseError).

Definition notifyLateArrival (env : Env) (employeeId : Z) : Handler unit :=
  createNotification env AdminNotification.late (Some employeeId) ;;; ret tt.

Definition notifyOutsideZone (env : Env) (employeeId : Z) : Handler unit :=
  createNotification env AdminNotification.outside_zone (Some employeeId) ;;; ret tt.

Definition notifyEarlyCheckout (env : Env) (employeeId : Z) : Handler unit :=
  createNotification env AdminNotification.early_checkout (Some employeeId) ;;; ret tt.

(** Field tasks *)

(** [s.trim() !== ""] over the ASCII blanks. *)
Definition isBlankChar (c : ascii) : bool :=
  let n := nat_of_ascii c in
  (Nat.eqb n 32 || ((Nat.leb 9 n) && (Nat.leb n 13)))%bool.

Fixpoint isBlank (s : string) : bool :=
  match s with
  | EmptyString => true
  | String c r => isBlankChar c && isBlank r
  end.

Record FieldTaskData : Set := {
  ft_employeeId : Z;
  ft_date : string;
  ft_taskDescription : option string;
  ft_startLatitude : option float;
  ft_startLongitude : option float;
  ft_startMethod : option Method
}.

Definition createFieldTask (env : Env) (data : FieldTaskData) : Handler Z :=
  fun st =>
    let row id :=
      {| FieldTask.id := id;
         FieldTask.employeeId := ft_employeeId data;
         FieldTask.date := ft_date data;
         FieldTask.taskDescription :=
           match ft_taskDescription data with
           | Some d => if JS.truthy d && negb (isBlank d) then Some d else None
           | None => None
           end;
         FieldTask.startTime := Some (now env);
         FieldTask.startLocation := (ft_startLatitude data, ft_startLongitude data);
         FieldTask.startMethod := ft_startMethod data;
         FieldTask.status := active |} in
    (withFieldTasks (insertRow row (fieldTasks st)) st, Return (nextId (fieldTasks st))).

(** [a] sorts strictly before [b] under [orderBy(desc(startTime))]; NULL is
    the smallest value. *)
Definition startsAfter (a b : FieldTask.t) : bool :=
  match FieldTask.startTime a, FieldTask.startTime b with
  | Some x, Some y => y <? x
  | Some _, None => true
  | None, _ => false
  end.

(** The first row of a list ordered by descending start time; among rows
    with the same start time the one met first is kept. *)
Fixpoint latest (best : option FieldTask.t) (l : list FieldTask.t) : option FieldTask.t :=
  match l with
  | [] => best
  | t :: rest =>
      match best with
      | None => latest (Some t) rest
      | Some b => latest (if startsAfter t b then Some t else Some b) rest
      end
  end.

Definition isActiveTaskOf (employeeId : Z) (t : FieldTask.t) : bool :=
  (FieldTask.employeeId t =? employeeId)
  && match FieldTask.status t with active => true | _ => false end.

Definition getActiveFieldTask (employeeId : Z) : Handler (option FieldTask.t) :=
  gets (fun st => latest None (filter (isActiveTaskOf employeeId) (rows (fieldTasks st)))).

Definition setTaskStatus (s : FieldTaskStatus) (t : FieldTask.t) : FieldTask.t :=
  {| FieldTask.id := FieldTask.id t; FieldTask.employeeId := FieldTask.employeeId t;
     FieldTask.date := FieldTask.date t;
     FieldTask.taskDescription := FieldTask.taskDescription t;
     FieldTask.startTime := FieldTask.startTime t;
     FieldTask.startLocation := FieldTask.startLocation t;
     FieldTask.startMethod := FieldTask.startMethod t; FieldTask.status := s |}.

Definition completeFieldTask (taskId : Z) : Handler unit :=
  modify (fun st =>
    withFieldTasks
      (updateWhere (fun t => FieldTask.id t =? taskId) (setTaskStatus completed)
                   (fieldTasks st)) st).

(** Administrative corrections *)

Definition createAttendanceModification (mk : Z -> AttendanceModification.t) : Handler Z :=
  fun st =>
    (withAttendanceModifications (insertRow mk (attendanceModifications st)) st,
     Return (nextId (attendanceModifications st))).

Definition addManualAttendance (employeeId : Z) (date : string)
  (checkInTime checkOutTime : option Z) (modifiedBy : Z) (reason : string) : Handler Z :=
  attendanceId <- createAttendanceRecord (fun id =>
    {| AttendanceRecord.id := id;
       AttendanceRecord.employeeId := employeeId;
       AttendanceRecord.date := date;
       AttendanceRecord.checkInTime := checkInTime;
       AttendanceRecord.checkOutTime := checkOutTime;
       AttendanceRecord.checkInLocation := None;
       AttendanceRecord.checkOutLocation := None;
       AttendanceRecord.checkInMethod := None;
       AttendanceRecord.checkOutMethod := None;
       AttendanceRecord.status := AttendanceRecord.present |}) ;;
  createAttendanceModification (fun id =>
    {| AttendanceModification.id := id;
       AttendanceModification.attendanceId := attendanceId;
       AttendanceModification.modifiedBy := modifiedBy;
       AttendanceModification.modificationType := AttendanceModification.add;
       AttendanceModification.newCheckIn := checkInTime;
       AttendanceModification.newCheckOut := checkOutTime;
       AttendanceModification.reason := reason |}) ;;;
  ret attendanceId.

(** Leave requests *)

Record LeaveRequestData : Set := {
  lr_employeeId : Z;
  lr_leaveType : LeaveType;
  lr_startDate : string;
  lr_endDate : string;
  lr_totalDays : JS.num;
  lr_reason : string
}.

(** The row is inserted with the column defaults: status pending, no
    reviewer.  A NaN day count is not a value of the INT column: the
    insert is taken to fail. *)
Definition createLeaveRequest (data : LeaveRequestData) : Handler Z :=
  fun st =>
    match lr_totalDays data with
    | None => (st, Throw DatabaseError)
    | Some days =>
        let row id :=
          {| LeaveRequest.id := id;
             LeaveRequest.employeeId := lr_employeeId data;
             LeaveRequest.leaveType := lr_leaveType data;
             LeaveRequest.startDate := lr_startDate data;
             LeaveRequest.endDate := lr_endDate data;
             LeaveRequest.totalDays := days;
             LeaveRequest.reason := lr_reason data;
             LeaveRequest.status := pending;
             LeaveRequest.reviewedBy := None;
             LeaveRequest.reviewedAt := None;
             LeaveRequest.rejectionReason := None |} in
        (withLeaveRequests (insertRow row (leaveRequests st)) st,
         Return (nextId (leaveRequests st)))
    end.

Definition getLeaveRequestById (id : Z) : Handler (option LeaveRequest.t) :=
  gets (fun st => find (fun r => LeaveRequest.id r =? id) (rows (leaveRequests st))).

(** Leave balances *)

Definition freshBalance (env : Env) (employeeId id : Z) : LeaveBalance.t :=
  {| LeaveBalance.id := id; LeaveBalance.employeeId := employeeId;
     LeaveBalance.year := currentYear env;
     LeaveBalance.annualBalance := 21; LeaveBalance.sickBalance := 10;
     LeaveBalance.emergencyBalance := 5;
     LeaveBalance.usedAnnual := 0; LeaveBalance.usedSick := 0;
     LeaveBalance.usedEmergency := 0 |}.

Definition isBalanceOf (env : Env) (employeeId : Z) (b : LeaveBalance.t) : bool :=
  (LeaveBalance.employeeId b =? employeeId) && (LeaveBalance.year b =? currentYear env).

Definition getOrCreateLeaveBalance (env : Env) (employeeId : Z) : Handler LeaveBalance.t :=
  fun st =>
    match find (isBalanceOf env employeeId) (rows (leaveBalances st)) with
    | Some existing => (st, Return existing)
    | None =>
        let insertId := nextId (leaveBalances st) in
        let T := insertRow (freshBalance env employeeId) (leaveBalances st) in
        let newBalance := find (fun b => LeaveBalance.id b =? insertId) (rows T) in
        (withLeaveBalances T st,
         Return match newBalance with
                | Some b => b
                | None => freshBalance env employeeId insertId
                end)
    end.

(** [x || 0] on a number that is not NaN. *)
Definition orZero (x : Z) : Z := if x =? 0 then 0 else x.

Definition setUsed (k : LeaveType) (v : Z) (b : LeaveBalance.t) : LeaveBalance.t :=
  {| LeaveBalance.id := LeaveBalance.id b; LeaveBalance.employeeId := LeaveBalance.employeeId b;
     LeaveBalance.year := LeaveBalance.year b;
     LeaveBalance.annualBalance := LeaveBalance.annualBalance b;
     LeaveBalance.sickBalance := LeaveBalance.sickBalance b;
     LeaveBalance.emergencyBalance := LeaveBalance.emergencyBalance b;
     LeaveBalance.usedAnnual :=
       match k with annual => v | _ => LeaveBalance.usedAnnual b end;
     LeaveBalance.usedSick :=
       match k with sick => v | _ => LeaveBalance.usedSick b end;
     LeaveBalance.usedEmergency :=
       match k with emergency => v | _ => LeaveBalance.usedEmergency b end |}.

Definition updateLeaveBalance (env : Env) (employeeId : Z) (leaveType : LeaveType) (days : Z)
  : Handler unit :=
  match leaveType with
  | unpaid => ret tt
  | _ =>
      balance <- getOrCreateLeaveBalance env employeeId ;;
      let updateData :=
        match leaveType with
        | annual => setUsed annual (orZero (LeaveBalance.usedAnnual balance) + days)
        | sick => setUsed sick (orZero (LeaveBalance.usedSick balance) + days)
        | emergency => setUsed emergency (orZero (LeaveBalance.usedEmergency balance) + days)
        | unpaid => fun b => b
        end in
      modify (fun st =>
        withLeaveBalances
          (updateWhere (fun b => LeaveBalance.id b =? LeaveBalance.id balance) updateData
                       (leaveBalances st)) st)
  end.

Definition setReview (status : LeaveStatus) (reviewedBy : Z) (reviewedAt : Z)
  (rejectionReason : option string) (r : LeaveRequest.t) : LeaveRequest.t :=
  {| LeaveRequest.id := LeaveRequest.id r; LeaveRequest.employeeId := LeaveRequest.employeeId r;
     LeaveRequest.leaveType := LeaveRequest.leaveType r;
     LeaveRequest.startDate := LeaveRequest.startDate r;
     LeaveRequest.endDate := LeaveRequest.endDate r;
     LeaveRequest.totalDays := LeaveRequest.totalDays r;
     LeaveRequest.reason := LeaveRequest.reason r;
     LeaveRequest.status := status;
     LeaveRequest.reviewedBy := Some reviewedBy;
     LeaveRequest.reviewedAt := Some reviewedAt;
     LeaveRequest.rejectionReason :=
       match status with
       | rejected => if truthyString rejectionReason then rejectionReason
                     else LeaveRequest.rejectionReason r
       | _ => LeaveRequest.rejectionReason r
       end |}.

(** [status] is ["approved"] or ["rejected"] at every call. *)
Definition updateLeaveRequestStatus (env : Env) (id : Z) (status : LeaveStatus)
  (reviewedBy : Z) (rejectionReason : option string) : Handler unit :=
  modify (fun st =>
    withLeaveRequests
      (updateWhere (fun r => LeaveRequest.id r =? id)
                   (setReview status reviewedBy (now env) rejectionReason)
                   (leaveRequests st)) st) ;;;
  match status with
  | approved =>
      request <- getLeaveRequestById id ;;
      match request with
      | Some r =>
          updateLeaveBalance env (LeaveRequest.employeeId r) (LeaveRequest.leaveType r)
                             (LeaveRequest.totalDays r)
      | None => ret tt
      end
  | _ => ret tt
  end.

Module Balance.
Record line : Set := { total : Z; used : Z; remaining : Z }.
Record t : Set := { annual : line; sick : line; emergency : line }.
End Balance.

Definition getLeaveBalance (env : Env) (employeeId : Z) : Handler Balance.t :=
  balance <- getOrCreateLeaveBalance env employeeId ;;
  ret {| Balance.annual :=
           {| Balance.total := LeaveBalance.annualBalance balance;
              Balance.used := LeaveBalance.usedAnnual balance;
              Balance.remaining :=
                LeaveBalance.annualBalance balance - LeaveBalance.usedAnnual balance |};
         Balance.sick :=
           {| Balance.total := LeaveBalance.sickBalance balance;
              Balance.used := LeaveBalance.usedSick balance;
              Balance.remaining :=
                LeaveBalance.sickBalance balance - LeaveBalance.usedSick balance |};
         Balance.emergency :=
           {| Balance.total := LeaveBalance.emergencyBalance balance;
              Balance.used := LeaveBalance.usedEmergency balance;
              Balance.remaining :=
                LeaveBalance.emergencyBalance balance - LeaveBalance.usedEmergency balance |} |}.

(** Work settings: the defaults are inserted when the table is empty
    (the column [workDays] is not part of [WorkSettings.t]). *)
Definition initializeWorkSettings : Handler unit :=
  existing <- getWorkSettings ;;
  match existing with
  | Some _ => ret tt
  | None =>
      modify (fun st =>
        withWorkSettings
          (workSettings st ++ [{| WorkSettings.workStartTime := "08:00";
                                  WorkSettings.workEndTime := "17:00";
                                  WorkSettings.lateThresholdMinutes := 15 |}])%list st)
  end.

(** [delete from work_zones where id = ...] *)
Definition deleteWorkZone (id : Z) : Handler unit :=
  modify (fun st =>
    withWorkZones (filter (fun z => negb (WorkZone.id z =? id)) (workZones st)) st).


(** Corrections by an administrator.  [modifyAttendanceRecord] and
    [resetAttendanceCheckOut] throw an error of their own, ["Attendance
    record not found"]: it is their result [AttendanceRecordNotFound].
    The audit row keeps the new values; the columns [previousCheckIn] and
    [previousCheckOut] are not part of [AttendanceModification.t]. *)
Inductive Correction : Set := Corrected | AttendanceRecordNotFound.

Definition getAttendanceRecordById (attendanceId : Z) : Handler (option AttendanceRecord.t) :=
  gets (fun st =>
    find (fun r => AttendanceRecord.id r =? attendanceId) (rows (attendanceRecords st))).

Definition setTimes (checkInTime checkOutTime : option Z) (r : AttendanceRecord.t)
  : AttendanceRecord.t :=
  {| AttendanceRecord.id := AttendanceRecord.id r;
     AttendanceRecord.employeeId := AttendanceRecord.employeeId r;
     AttendanceRecord.date := AttendanceRecord.date r;
     AttendanceRecord.checkInTime := checkInTime;
     AttendanceRecord.checkOutTime := checkOutTime;
     AttendanceRecord.checkInLocation := AttendanceRecord.checkInLocation r;
     AttendanceRecord.checkOutLocation := AttendanceRecord.checkOutLocation r;
     AttendanceRecord.checkInMethod := AttendanceRecord.checkInMethod r;
     AttendanceRecord.checkOutMethod := AttendanceRecord.checkOutMethod r;
     AttendanceRecord.status := AttendanceRecord.status r |}.

(** [newCheckIn] and [newCheckOut] are a [Date] or [null], never
    [undefined]: both tests [!== undefined] hold and both columns are
    written, [null] included. *)
Definition modifyAttendanceRecord (attendanceId modifiedBy : Z)
  (newCheckIn newCheckOut : option Z) (reason : string) : Handler Correction :=
  current <- getAttendanceRecordById attendanceId ;;
  match current with
  | None => ret AttendanceRecordNotFound
  | Some _ =>
      createAttendanceModification (fun id =>
        {| AttendanceModification.id := id;
           AttendanceModification.attendanceId := attendanceId;
           AttendanceModification.modifiedBy := modifiedBy;
           AttendanceModification.modificationType := AttendanceModification.edit;
           AttendanceModification.newCheckIn := newCheckIn;
           AttendanceModification.newCheckOut := newCheckOut;
           AttendanceModification.reason := reason |}) ;;;
      modify (fun st =>
        withAttendanceRecords
          (updateWhere (fun r => AttendanceRecord.id r =? attendanceId)
                       (fun r => setTimes newCheckIn newCheckOut r)
                       (attendanceRecords st)) st) ;;;
      ret Corrected
  end.

Definition resetAttendanceCheckOut (attendanceId modifiedBy : Z) (reason : string)
  : Handler Correction :=
  current <- getAttendanceRecordById attendanceId ;;
  match current with
  | None => ret AttendanceRecordNotFound
  | Some current =>
      createAttendanceModification (fun id =>
        {| AttendanceModification.id := id;
           AttendanceModification.attendanceId := attendanceId;
           AttendanceModification.modifiedBy := modifiedBy;
           AttendanceModification.modificationType := AttendanceModification.reset;
           AttendanceModification.newCheckIn := AttendanceRecord.checkInTime current;
           AttendanceModification.newCheckOut := None;
           AttendanceModification.reason := reason |}) ;;;
      modify (fun st =>
        withAttendanceRecords
          (updateWhere (fun r => AttendanceRecord.id r =? attendanceId)
                       (fun r => setTimes (AttendanceRecord.checkInTime r) None r)
                       (attendanceRecords st)) st) ;;;
      ret Corrected
  end.




End db.

(** ** The routers (routers.ts) *)

(** The session user of a protected procedure. *)
Inductive UserRole : Set := user_role | branch_manager_role | admin_role.

Record User : Set := { user_id : Z; user_role_of : UserRole }.

Module attendance.

Record Result : Set := {
  status : AttendanceRecord.Status;
  recordId : Z
}.

(** Lateness, the block that [checkInByCode] (lines 430-453) and [checkIn]
    (lines 605-629) share word for word.  The local time is UTC+3. *)
Definition determineStatus (env : Env) (employeeId : Z) : Handler AttendanceRecord.Status :=
  settings <- db.getWorkSettings ;;
  match settings with
  | None => ret AttendanceRecord.present
  | Some settings =>
      let parts := map JS.Number (JS.split ":" (WorkSettings.workStartTime settings)) in
      let startHour := JS.element parts 0 in
      let startMin := JS.element parts 1 in
      let localTime := now env + 3 * 60 * 60 * 1000 in
      let currentHour := JS.getUTCHours localTime in
      let currentMin := JS.getUTCMinutes localTime in
      let currentTotalMinutes := currentHour * 60 + currentMin in
      let lateThresholdMinutes :=
        JS.add (JS.add (JS.mul startHour (Some 60)) startMin)
               (Some (WorkSettings.lateThresholdMinutes settings)) in
      if JS.gt (Some currentTotalMinutes) lateThresholdMinutes
      then db.notifyLateArrival env employeeId ;;; ret AttendanceRecord.late
      else ret AttendanceRecord.present
  end.

(** The geofence gate, also shared by the two check-ins (lines 410-428 and
    585-603); the distances it logs before throwing are left out. *)
Definition geofenceGate (env : Env) (employeeId : Z) (latitude longitude : float)
  : Handler unit :=
  locationCheck <- db.isLocationInWorkZone env latitude longitude ;;
  activeZones <- db.getActiveWorkZones ;;
  let hasActiveZones := (0 <? Z.of_nat (List.length activeZones)) in
  if hasActiveZones && negb (db.inZone locationCheck)
  then db.notifyOutsideZone env employeeId ;;; throw OutsideWorkZone
  else ret tt.

(** The fields a check-in writes on an existing row, the row a check-in
    inserts, and the fields a check-out writes. *)
Definition checkInData (env : Env) (latitude longitude : float) (method : Method)
  (status : AttendanceRecord.Status) (r : AttendanceRecord.t) : AttendanceRecord.t :=
  {| AttendanceRecord.id := AttendanceRecord.id r;
     AttendanceRecord.employeeId := AttendanceRecord.employeeId r;
     AttendanceRecord.date := AttendanceRecord.date r;
     AttendanceRecord.checkInTime := Some (now env);
     AttendanceRecord.checkOutTime := AttendanceRecord.checkOutTime r;
     AttendanceRecord.checkInLocation := Some (latitude, longitude);
     AttendanceRecord.checkOutLocation := AttendanceRecord.checkOutLocation r;
     AttendanceRecord.checkInMethod := Some method;
     AttendanceRecord.checkOutMethod := AttendanceRecord.checkOutMethod r;
     AttendanceRecord.status := status |}.

Definition newRecord (env : Env) (employeeId : Z) (latitude longitude : float)
  (method : Method) (status : AttendanceRecord.Status) (id : Z) : AttendanceRecord.t :=
  {| AttendanceRecord.id := id;
     AttendanceRecord.employeeId := employeeId;
     AttendanceRecord.date := today env;
     AttendanceRecord.checkInTime := Some (now env);
     AttendanceRecord.checkOutTime := None;
     AttendanceRecord.checkInLocation := Some (latitude, longitude);
     AttendanceRecord.checkOutLocation := None;
     AttendanceRecord.checkInMethod := Some method;
     AttendanceRecord.checkOutMethod := None;
     AttendanceRecord.status := status |}.

Definition checkOutData (env : Env) (latitude longitude : float) (method : Method)
  (r : AttendanceRecord.t) : AttendanceRecord.t :=
  {| AttendanceRecord.id := AttendanceRecord.id r;
     AttendanceRecord.employeeId := AttendanceRecord.employeeId r;
     AttendanceRecord.date := AttendanceRecord.date r;
     AttendanceRecord.checkInTime := AttendanceRecord.checkInTime r;
     AttendanceRecord.checkOutTime := Some (now env);
     AttendanceRecord.checkInLocation := AttendanceRecord.checkInLocation r;
     AttendanceRecord.checkOutLocation := Some (latitude, longitude);
     AttendanceRecord.checkInMethod := AttendanceRecord.checkInMethod r;
     AttendanceRecord.checkOutMethod := Some method;
     AttendanceRecord.status := AttendanceRecord.status r |}.

(** Persisting a check-in: the tail of both check-ins. *)
Definition persistCheckIn (env : Env) (employeeId : Z) (existing : option AttendanceRecord.t)
  (latitude longitude : float) (method : Method) (status : AttendanceRecord.Status)
  : Handler Result :=
  match existing with
  | Some existing =>
      db.updateAttendanceRecord (AttendanceRecord.id existing)
        (checkInData env latitude longitude method status) ;;;
      ret {| status := status; recordId := AttendanceRecord.id existing |}
  | None =>
      recordId <- db.createAttendanceRecord
                    (newRecord env employeeId latitude longitude method status) ;;
      ret {| status := status; recordId := recordId |}
  end.

Record ByCodeInput : Set := {
  employeeCode : string;
  latitude : float;
  longitude : float;
  method : Method;
  deviceId : option string
}.

(** [existing?.checkInTime], as a condition. *)
Definition checkedIn (existing : option AttendanceRecord.t) : bool :=
  match existing with
  | Some r => isSome (AttendanceRecord.checkInTime r)
  | None => false
  end.

(** The device binding of [checkInByCode] (lines 380-399): the first
    device presented is registered, another one than the registered is
    reported and refused.  An absent or empty [deviceId] skips the block. *)
Definition bindDevice (env : Env) (emp : Employee.t) (deviceId : option string)
  : Handler unit :=
  match deviceId with
  | Some device =>
      if JS.truthy device then
        deviceCheck <- db.checkEmployeeDevice (Employee.id emp) device ;;
        if negb (db.isRegistered deviceCheck) then
          db.registerEmployeeDevice env (Employee.id emp) device
        else if negb (db.isMatch deviceCheck) then
          db.createNotification env AdminNotification.device_mismatch
            (Some (Employee.id emp)) ;;;
          throw DeviceUnauthorized
        else ret tt
      else ret tt
  | None => ret tt
  end.

(** The device check of [checkOutByCode] (lines 494-509): it refuses
    another device than the registered one and registers nothing. *)
Definition verifyDevice (env : Env) (emp : Employee.t) (deviceId : option string)
  : Handler unit :=
  match deviceId with
  | Some device =>
      if JS.truthy device then
        deviceCheck <- db.checkEmployeeDevice (Employee.id emp) device ;;
        if db.isRegistered deviceCheck && negb (db.isMatch deviceCheck) then
          db.createNotification env AdminNotification.device_mismatch
            (Some (Employee.id emp)) ;;;
          throw DeviceUnauthorized
        else ret tt
      else ret tt
  | None => ret tt
  end.

(** [attendance.checkInByCode] (lines 365-476); it returns
    [{ success: true, status, recordId }]. *)
Definition checkInByCode (env : Env) (input : ByCodeInput) : Handler Result :=
  emp <- db.getEmployeeByCode (employeeCode input) ;;
  match emp with
  | None => throw EmployeeNotFound
  | Some emp =>
      bindDevice env emp (deviceId input) ;;;
      existing <- db.getTodayAttendance env (Employee.id emp) ;;
      if checkedIn existing then throw AlreadyCheckedIn
      else
        geofenceGate env (Employee.id emp) (latitude input) (longitude input) ;;;
        status <- determineStatus env (Employee.id emp) ;;
        persistCheckIn env (Employee.id emp) existing
          (latitude input) (longitude input) (method input) status
  end.

(** [attendance.checkOutByCode] (lines 479-553); it returns
    [{ success: true, recordId }].  The two notifications after the update
    are not awaited and carry [.catch(console.error)]. *)
Definition checkOutByCode (env : Env) (input : ByCodeInput) : Handler Z :=
  emp <- db.getEmployeeByCode (employeeCode input) ;;
  match emp with
  | None => throw EmployeeNotFound
  | Some emp =>
      verifyDevice env emp (deviceId input) ;;;
      existing <- db.getTodayAttendance env (Employee.id emp) ;;
      match existing with
      | None => throw NoCheckInToday
      | Some existing =>
          if negb (isSome (AttendanceRecord.checkInTime existing)) then throw NoCheckInToday
          else if isSome (AttendanceRecord.checkOutTime existing) then throw AlreadyCheckedOut
          else
            db.updateAttendanceRecord (AttendanceRecord.id existing)
              (checkOutData env (latitude input) (longitude input) (method input)) ;;;
            match Employee.branchId emp with
            | Some branchId =>
                when (truthyId (Some branchId)) do
                  catchLog (db.createBranchNotification env branchId
                              BranchNotification.employee_check_out
                              (Some (Employee.id emp)))
            | None => ret tt
            end ;;;
            catchLog (db.createNotification env AdminNotification.early_checkout
                        (Some (Employee.id emp))) ;;;
            ret (AttendanceRecord.id existing)
      end
  end.

Record Input : Set := {
  in_latitude : float;
  in_longitude : float;
  in_method : Method
}.

(** The biometric method must be enrolled. *)
Definition verifyBiometric (emp : Employee.t) (m : Method) : Handler unit :=
  match m with
  | fingerprint =>
      if negb (truthyFlag (Employee.fingerprintEnabled emp))
      then throw BiometricNotEnrolled else ret tt
  | face =>
      if negb (truthyString (Employee.faceDataId emp))
      then throw BiometricNotEnrolled else ret tt
  | eye => ret tt
  end.

(** [attendance.checkIn] (lines 556-654), for the session user. *)
Definition checkIn (env : Env) (ctx : User) (input : Input) : Handler Result :=
  emp <- db.getEmployeeByUserId (user_id ctx) ;;
  match emp with
  | None => throw EmployeeNotFound
  | Some emp =>
      verifyBiometric emp (in_method input) ;;;
      existing <- db.getTodayAttendance env (Employee.id emp) ;;
      if checkedIn existing then throw AlreadyCheckedIn
      else
        geofenceGate env (Employee.id emp) (in_latitude input) (in_longitude input) ;;;
        status <- determineStatus env (Employee.id emp) ;;
        persistCheckIn env (Employee.id emp) existing
          (in_latitude input) (in_longitude input) (in_method input) status
  end.

(** Midnight of the server's current local day, as a time value. *)
Definition localMidnight (env : Env) : Z :=
  (now env + localOffset env) / 86400000 * 86400000 - localOffset env.

(** [now < twoHoursBeforeEnd], where [endTime] is today at the configured
    end of work in the server's local time ([setHours(endHour, endMinute,
    0, 0)]) and [twoHoursBeforeEnd] is two local hours earlier. *)
Definition isEarlyCheckout (env : Env) (workEndTime : string) : bool :=
  let parts := map JS.Number (JS.split ":" workEndTime) in
  let endHour := JS.element parts 0 in
  let endMinute := JS.element parts 1 in
  let endTime :=
    JS.add (Some (localMidnight env))
           (JS.add (JS.mul endHour (Some 3600000)) (JS.mul endMinute (Some 60000))) in
  let twoHoursBeforeEnd := JS.sub endTime (Some (2 * 3600000)) in
  JS.lt (Some (now env)) twoHoursBeforeEnd.

(** [attendance.checkOut] (lines 657-711), for the session user. *)
Definition checkOut (env : Env) (ctx : User) (input : Input) : Handler unit :=
  emp <- db.getEmployeeByUserId (user_id ctx) ;;
  match emp with
  | None => throw EmployeeNotFound
  | Some emp =>
      verifyBiometric emp (in_method input) ;;;
      existing <- db.getTodayAttendance env (Employee.id emp) ;;
      match existing with
      | None => throw NoCheckInToday
      | Some existing =>
          if isSome (AttendanceRecord.checkOutTime existing) then throw AlreadyCheckedOut
          else
            workSettings <- db.getWorkSettings ;;
            match workSettings with
            | Some ws =>
                when (JS.truthy (WorkSettings.workEndTime ws)
                      && isEarlyCheckout env (WorkSettings.workEndTime ws)) do
                  db.notifyEarlyCheckout env (Employee.id emp)
            | None => ret tt
            end ;;;
            db.updateAttendanceRecord (AttendanceRecord.id existing)
              (checkOutData env (in_latitude input) (in_longitude input) (in_method input))
      end
  end.

(** [attendance.today] (lines 714-720) and [attendance.todayByCode]
    (lines 723-732): [null] for an unknown employee. *)
Definition today (env : Env) (ctx : User) : Handler (option AttendanceRecord.t) :=
  emp <- db.getEmployeeByUserId (user_id ctx) ;;
  match emp with
  | None => ret None
  | Some emp => db.getTodayAttendance env (Employee.id emp)
  end.

Definition todayByCode (env : Env) (employeeCode : string)
  : Handler (option AttendanceRecord.t) :=
  emp <- db.getEmployeeByCode employeeCode ;;
  match emp with
  | None => ret None
  | Some emp => db.getTodayAttendance env (Employee.id emp)
  end.

End attendance.

Module employees_router.

(** [employees.resetDevice]: no role check. *)
Definition resetDevice (id : Z) : Handler unit := db.resetEmployeeDevice id.

End employees_router.

Module fieldTask.

Record Input : Set := {
  isReturn : option bool;
  taskDescription : option string;
  latitude : option float;
  longitude : option float;
  verificationMethod : option Method
}.

(** [{ success: true, id }] *)
Record Result : Set := { id : Z }.

(** Returning from the field: the branch [if (input.isReturn)] of both
    procedures. *)
Definition returnFromField (employeeId : Z) : Handler Result :=
  activeTask <- db.getActiveFieldTask employeeId ;;
  match activeTask with
  | Some task =>
      db.completeFieldTask (FieldTask.id task) ;;;
      ret {| id := if FieldTask.id task =? 0 then 0 else FieldTask.id task |}
  | None => ret {| id := 0 |}
  end.

Definition taskData (env : Env) (employeeId : Z) (input : Input) : db.FieldTaskData :=
  {| db.ft_employeeId := employeeId;
     db.ft_date := today env;
     db.ft_taskDescription := taskDescription input;
     db.ft_startLatitude := latitude input;
     db.ft_startLongitude := longitude input;
     db.ft_startMethod := verificationMethod input |}.

Definition notifyDeparture (env : Env) (emp : Employee.t) : Handler unit :=
  db.createNotification env AdminNotification.system (Some (Employee.id emp)) ;;;
  match Employee.branchId emp with
  | Some branchId =>
      when (truthyId (Some branchId)) do
        (db.createBranchNotification env branchId BranchNotification.general
           (Some (Employee.id emp)) ;;; ret tt)
  | None => ret tt
  end.

(** [fieldTask.create] (lines 1593-1648) and [fieldTask.createByCode]
    (lines 1651-1708). *)
Definition create (env : Env) (employeeId : Z) (input : Input) : Handler Result :=
  if truthyFlag (isReturn input) then returnFromField employeeId
  else
    id <- db.createFieldTask env (taskData env employeeId input) ;;
    emp <- db.getEmployeeById employeeId ;;
    match emp with
    | Some emp => notifyDeparture env emp
    | None => ret tt
    end ;;;
    ret {| id := id |}.

Definition createByCode (env : Env) (employeeCode : string) (input : Input) : Handler Result :=
  emp <- db.getEmployeeByCode employeeCode ;;
  match emp with
  | None => throw EmployeeNotFound
  | Some emp =>
      if truthyFlag (isReturn input) then returnFromField (Employee.id emp)
      else
        id <- db.createFieldTask env (taskData env (Employee.id emp) input) ;;
        notifyDeparture env emp ;;;
        ret {| id := id |}
  end.

(** [fieldTask.active] (lines 1731-1735) and [fieldTask.activeByCode]
    (lines 1738-1746). *)
Definition active (employeeId : Z) : Handler (option FieldTask.t) :=
  db.getActiveFieldTask employeeId.


End fieldTask.

Module attendanceManagement.

Definition isManager (ctx : User) : bool :=
  match user_role_of ctx with
  | admin_role | branch_manager_role => true
  | user_role => false
  end.

(** [checkInTime] and [checkOutTime] are the optional ISO date-times of the
    input, already read as time values. *)
Definition addManual (ctx : User) (employeeId : Z) (date : string)
  (checkInTime checkOutTime : option Z) (reason : string) : Handler Z :=
  if negb (isManager ctx) then throw InsufficientRole
  else db.addManualAttendance employeeId date checkInTime checkOutTime (user_id ctx) reason.

(** [attendanceManagement.modify] (lines 1763-1784): [newCheckIn] and
    [newCheckOut] are the optional ISO date-times of the input, read as
    time values; an absent one is passed on as [null]. *)
Definition modify (ctx : User) (attendanceId : Z) (newCheckIn newCheckOut : option Z)
  (reason : string) : Handler db.Correction :=
  if negb (isManager ctx) then throw InsufficientRole
  else db.modifyAttendanceRecord attendanceId (user_id ctx) newCheckIn newCheckOut reason.

(** [attendanceManagement.resetCheckout] (lines 1813-1830). *)
Definition resetCheckout (ctx : User) (attendanceId : Z) (reason : string)
  : Handler db.Correction :=
  if negb (isManager ctx) then throw InsufficientRole
  else db.resetAttendanceCheckOut attendanceId (user_id ctx) reason.

End attendanceManagement.

Module leave.

Record Input : Set := {
  employeeCode : string;
  leaveType : LeaveType;
  startDate : string;
  endDate : string;
  reason : string
}.

(** [Math.ceil(Math.abs(end - start) / 86400000) + 1] *)
Definition totalDays (startDate endDate : string) : JS.num :=
  let start := JS.dateTime startDate in
  let end_ := JS.dateTime endDate in
  let diffTime := JS.abs (JS.sub end_ start) in
  JS.add (JS.ceilDiv diffTime (1000 * 60 * 60 * 24)) (Some 1).

Definition balanceLine (balance : db.Balance.t) (k : LeaveType) : option db.Balance.line :=
  match k with
  | annual => Some (db.Balance.annual balance)
  | sick => Some (db.Balance.sick balance)
  | emergency => Some (db.Balance.emergency balance)
  | unpaid => None
  end.

Definition checkBalance (env : Env) (emp : Employee.t) (k : LeaveType) (days : JS.num)
  : Handler unit :=
  match k with
  | unpaid => ret tt
  | _ =>
      balance <- db.getLeaveBalance env (Employee.id emp) ;;
      match balanceLine balance k with
      | Some line =>
          if JS.lt (Some (db.Balance.remaining line)) days
          then throw InsufficientBalance else ret tt
      | None => ret tt
      end
  end.

(** The two notifications are pushed without being awaited, each with its
    own [.catch]. *)
Definition notifyRequest (env : Env) (emp : Employee.t) : Handler unit :=
  match Employee.branchId emp with
  | Some branchId =>
      when (truthyId (Some branchId)) do
        catchLog (db.createBranchNotification env branchId BranchNotification.general
                    (Some (Employee.id emp)))
  | None => ret tt
  end ;;;
  catchLog (db.createNotification env AdminNotification.system (Some (Employee.id emp))).

(** [leave.create] (lines 1846-1914); it returns
    [{ success: true, requestId }]. *)
Definition create (env : Env) (input : Input) : Handler Z :=
  emp <- db.getEmployeeByCode (employeeCode input) ;;
  match emp with
  | None => throw EmployeeNotFound
  | Some emp =>
      let days := totalDays (startDate input) (endDate input) in
      checkBalance env emp (leaveType input) days ;;;
      requestId <- db.createLeaveRequest
        {| db.lr_employeeId := Employee.id emp;
           db.lr_leaveType := leaveType input;
           db.lr_startDate := startDate input;
           db.lr_endDate := endDate input;
           db.lr_totalDays := days;
           db.lr_reason := reason input |} ;;
      notifyRequest env emp ;;;
      ret requestId
  end.

Definition mayReview (reviewer : option Employee.t) : bool :=
  match reviewer with
  | Some r => match Employee.role r with
              | branch_manager | admin => true
              | employee => false
              end
  | None => false
  end.

(** The notification that follows a decision is awaited. *)
Definition notifyDecision (env : Env) (employeeId : Z) : Handler unit :=
  emp <- db.getEmployeeById employeeId ;;
  match emp with
  | Some emp =>
      match Employee.branchId emp with
      | Some branchId =>
          when (truthyId (Some branchId)) do
            (db.createBranchNotification env branchId BranchNotification.general
               (Some (Employee.id emp)) ;;; ret tt)
      | None => ret tt
      end
  | None => ret tt
  end.

Definition isPending (r : LeaveRequest.t) : bool :=
  match LeaveRequest.status r with
  | pending => true
  | _ => false
  end.

(** [leave.approve] (lines 1971-2006) and [leave.reject] (lines 2009-2045)
    are the same procedure up to the outcome they pass on and the reason
    [reject] adds. *)
Definition decide (env : Env) (requestId : Z) (reviewerCode : string)
  (outcome : LeaveStatus) (rejectionReason : option string) : Handler unit :=
  reviewer <- db.getEmployeeByCode reviewerCode ;;
  match reviewer with
  | None => throw InsufficientRole
  | Some rv =>
      if negb (mayReview (Some rv)) then throw InsufficientRole
      else
        request <- db.getLeaveRequestById requestId ;;
        match request with
        | None => throw RequestNotFound
        | Some request =>
            if negb (isPending request) then throw AlreadyDecided
            else
              db.updateLeaveRequestStatus env requestId outcome (Employee.id rv)
                rejectionReason ;;;
              notifyDecision env (LeaveRequest.employeeId request)
        end
  end.

Definition approve (env : Env) (requestId : Z) (reviewerCode : string) : Handler unit :=
  decide env requestId reviewerCode approved None.

Definition reject (env : Env) (requestId : Z) (reviewerCode reason : string) : Handler unit :=
  decide env requestId reviewerCode rejected (Some reason).

(** [leave.balance] (lines 1930-1940). *)
Definition balance (env : Env) (employeeCode : string) : Handler db.Balance.t :=
  emp <- db.getEmployeeByCode employeeCode ;;
  match emp with
  | None => throw EmployeeNotFound
  | Some emp => db.getLeaveBalance env (Employee.id emp)
  end.

End leave.

(** The router [workZone]: [active] (lines 969-971), [delete] (lines
    1018-1026), for administrators only, and [check] (lines 1029-1036). *)
Module workZone.

Definition isAdmin (ctx : User) : bool :=
  match user_role_of ctx with
  | admin_role => true
  | _ => false
  end.

Definition active : Handler (list WorkZone.t) := db.getActiveWorkZones.

Definition delete (ctx : User) (id : Z) : Handler unit :=
  if negb (isAdmin ctx) then throw InsufficientRole
  else db.deleteWorkZone id.

Definition check (env : Env) (latitude longitude : float) : Handler db.ZoneCheck :=
  db.isLocationInWorkZone env latitude longitude.

End workZone.

(** [calculateDistance] of routers.ts (lines 9-18): the haversine formula
    again, with the degrees turned into radians by [x * Math.PI / 180]
    where db.ts has [x * (Math.PI / 180)]. *)
Module routers.

Definition calculateDistance (M : MathImpl) (lat1 lon1 lat2 lon2 : float) : float :=
  let R := 6371000%float in
  let dLat := ((lat2 - lat1) * Math_PI / 180)%float in
  let dLon := ((lon2 - lon1) * Math_PI / 180)%float in
  let a :=
    (Math_sin M (dLat / 2) * Math_sin M (dLat / 2) +
     Math_cos M (lat1 * Math_PI / 180) * Math_cos M (lat2 * Math_PI / 180) *
     Math_sin M (dLon / 2) * Math_sin M (dLon / 2))%float in
  let c := (2 * Math_atan2 M (PrimFloat.sqrt a) (PrimFloat.sqrt (1 - a)))%float in
  (R * c)%float.

End routers.

Module location.

Record Input : Set := {
  latitude : float;
  longitude : float;
  accuracy : option float
}.








End location.


(** ** Vocabulary of the statements *)

Definition LeaveType_eq_dec (a b : LeaveType) : {a = b} + {a <> b}.
Proof. decide equality. Defined.

(** Minutes since midnight of the current time at UTC+3. *)
Definition localMinutes (env : Env) : Z := ((now env + 10800000) / 60000) mod 1440.

Definition digitChar (d : Z) : ascii := ascii_of_nat (Z.to_nat (48 + d)).

Definition twoDigits (n : Z) : string :=
  String (digitChar (n / 10)) (String (digitChar (n mod 10)) EmptyString).

(** The text [HH:MM]. *)
Definition hhmm (h m : Z) : string := twoDigits h ++ ":" ++ twoDigits m.

(** The point lies within the zone: its great-circle distance to the
    centre, as [calculateDistance] computes it, is at most the radius. *)
Definition insideZone (M : MathImpl) (latitude longitude : float) (z : WorkZone.t) : bool :=
  PrimFloat.leb
    (calculateDistance M latitude longitude (WorkZone.latitude z) (WorkZone.longitude z))
    (floatOfZ (WorkZone.radiusMeters z)).

(** [z] is the first zone of [zones], in order, that contains the point. *)
Definition firstInside (M : MathImpl) (latitude longitude : float)
  (zones : list WorkZone.t) (z : WorkZone.t) : Prop :=
  exists pre post,
    zones = (pre ++ z :: post)%list
    /\ (forall y, In y pre -> insideZone M latitude longitude y = false)
    /\ insideZone M latitude longitude z = true.

(** The device the store holds for an employee: [registeredDeviceId] of
    the row with that key. *)
Definition boundTo (st : Store) (employeeId : Z) : option string :=
  match find (fun e => Employee.id e =? employeeId) (employees st) with
  | Some e => Employee.registeredDeviceId e
  | None => None
  end.

(** A handler that has no part in device binding: whatever its outcome,
    it leaves the employees table as it was and does not refuse the
    device. *)
Definition deviceNeutral {A} (h : Handler A) : Prop :=
  forall st st' o,
    h st = (st', o) -> employees st' = employees st /\ o <> Throw DeviceUnauthorized.

(** What is left of a balance row for a leave type: balance minus used. *)
Definition remainingOf (b : LeaveBalance.t) (k : LeaveType) : Z :=
  match k with
  | annual => LeaveBalance.annualBalance b - LeaveBalance.usedAnnual b
  | sick => LeaveBalance.sickBalance b - LeaveBalance.usedSick b
  | emergency => LeaveBalance.emergencyBalance b - LeaveBalance.usedEmergency b
  | unpaid => 0
  end.

(** The used counter of a balance row for a leave type. *)
Definition usedOf (b : LeaveBalance.t) (k : LeaveType) : Z :=
  match k with
  | annual => LeaveBalance.usedAnnual b
  | sick => LeaveBalance.usedSick b
  | emergency => LeaveBalance.usedEmergency b
  | unpaid => 0
  end.

(** The allotment of a balance row for a leave type. *)
Definition allotmentOf (b : LeaveBalance.t) (k : LeaveType) : Z :=
  match k with
  | annual => LeaveBalance.annualBalance b
  | sick => LeaveBalance.sickBalance b
  | emergency => LeaveBalance.emergencyBalance b
  | unpaid => 0
  end.

(** The row [leave.create] inserts. *)
Definition pendingRequest (employeeId : Z) (input : leave.Input) (days id : Z)
  : LeaveRequest.t :=
  {| LeaveRequest.id := id;
     LeaveRequest.employeeId := employeeId;
     LeaveRequest.leaveType := leave.leaveType input;
     LeaveRequest.startDate := leave.startDate input;
     LeaveRequest.endDate := leave.endDate input;
     LeaveRequest.totalDays := days;
     LeaveRequest.reason := leave.reason input;
     LeaveRequest.status := pending;
     LeaveRequest.reviewedBy := None;
     LeaveRequest.reviewedAt := None;
     LeaveRequest.rejectionReason := None |}.

(** A balance row against a later state of it: same key, employee, year
    and allotments, and no counter smaller than it was. *)
Definition rowGrows (b b' : LeaveBalance.t) : Prop :=
  LeaveBalance.id b' = LeaveBalance.id b
  /\ LeaveBalance.employeeId b' = LeaveBalance.employeeId b
  /\ LeaveBalance.year b' = LeaveBalance.year b
  /\ (forall k, allotmentOf b' k = allotmentOf b k)
  /\ (forall k, usedOf b k <= usedOf b' k).

(** The balance table against a later state of it: every row is still
    there, in place, grown; new rows may follow. *)
Definition tableGrows (l l' : list LeaveBalance.t) : Prop :=
  exists l1 extra, l' = (l1 ++ extra)%list /\ Forall2 rowGrows l l1.

(** The operations of the leave ledger. *)
Inductive LedgerOp : Set :=
  | Request (env : Env) (input : leave.Input)
  | Approve (env : Env) (requestId : Z) (reviewerCode : string)
  | Reject (env : Env) (requestId : Z) (reviewerCode reason : string).

(** The store after an operation, whatever its outcome. *)
Definition ledgerStep (st : Store) (op : LedgerOp) : Store :=
  match op with
  | Request env input => fst (leave.create env input st)
  | Approve env requestId reviewerCode => fst (leave.approve env requestId reviewerCode st)
  | Reject env requestId reviewerCode reason =>
      fst (leave.reject env requestId reviewerCode reason st)
  end.

Definition ledgerRun (ops : list LedgerOp) (st : Store) : Store :=
  fold_left ledgerStep ops st.

(** Keys of the balance table are distinct and below the next key. *)
Definition keyed (T : Table LeaveBalance.t) : Prop :=
  NoDup (map LeaveBalance.id (rows T))
  /\ Forall (fun b => LeaveBalance.id b < nextId T) (rows T).

(** What the ledger keeps true from a fresh start: every request is for
    at least one day, and the balance table is keyed. *)
Definition ledgerInv (st : Store) : Prop :=
  Forall (fun r => 1 <= LeaveRequest.totalDays r) (rows (leaveRequests st))
  /\ keyed (leaveBalances st).

(** ** Sample data for the worked examples *)

Module Sample.

Definition emptyTable {A : Set} : Table A := {| rows := []; nextId := 1 |}.

(** An employee linked to session user 7, with no device bound. *)
Definition worker : Employee.t :=
  {| Employee.id := 1; Employee.userId := Some 7; Employee.employeeCode := "E1";
     Employee.fullName := "Worker"; Employee.branchId := Some 3;
     Employee.role := employee; Employee.faceDataId := None;
     Employee.fingerprintEnabled := Some true;
     Employee.registeredDeviceId := None; Employee.deviceRegisteredAt := None |}.

Definition manager : Employee.t :=
  {| Employee.id := 2; Employee.userId := Some 8; Employee.employeeCode := "M1";
     Employee.fullName := "Manager"; Employee.branchId := Some 3;
     Employee.role := branch_manager; Employee.faceDataId := None;
     Employee.fingerprintEnabled := None;
     Employee.registeredDeviceId := None; Employee.deviceRegisteredAt := None |}.

(** The settings of [initializeWorkSettings]. *)
Definition settings : WorkSettings.t :=
  {| WorkSettings.workStartTime := "08:00"; WorkSettings.workEndTime := "17:00";
     WorkSettings.lateThresholdMinutes := 15 |}.

Definition store (zones : list WorkZone.t) : Store :=
  {| employees := [worker; manager]; workSettings := [settings]; workZones := zones;
     attendanceRecords := emptyTable; attendanceModifications := emptyTable;
     adminNotifications := emptyTable; branchNotifications := emptyTable;
     fieldTasks := emptyTable; leaveRequests := emptyTable; leaveBalances := emptyTable;
     consoleErrors := [] |}.

(** 10 March 2024 at [minutes] past midnight in UTC+3. *)
Definition clock (minutes : Z) (sinksUp : bool) : Env :=
  {| now := 1710028800000 - 10800000 + minutes * 60000; today := "2024-03-10";
     currentYear := 2024; localOffset := 10800000;
     adminSinkUp := sinksUp; branchSinkUp := sinksUp; Math := RefMath.impl |}.

Definition byCode (device : option string) : attendance.ByCodeInput :=
  {| attendance.employeeCode := "E1"; attendance.latitude := 0; attendance.longitude := 0;
     attendance.method := fingerprint; attendance.deviceId := device |}.

Definition session : User := {| user_id := 7; user_role_of := user_role |}.

Definition adminSession : User := {| user_id := 8; user_role_of := admin_role |}.

Definition bySession : attendance.Input :=
  {| attendance.in_latitude := 0; attendance.in_longitude := 0;
     attendance.in_method := fingerprint |}.

(** The same store once the worker has checked in from device ["D1"]
    at 08:00. *)
Definition boundStore : Store :=
  fst (attendance.checkInByCode (clock (8 * 60) true) (byCode (Some "D1")) (store [])).

(** The store after an administrator has added today's record for the
    worker by hand, with neither a check-in nor a check-out time. *)
Definition manualStore : Store :=
  fst (attendanceManagement.addManual adminSession 1 "2024-03-10" None None "forgot"
         (store [])).

(** The day after, at [minutes] past midnight in UTC+3. *)
Definition nextDay (minutes : Z) (sinksUp : bool) : Env :=
  {| now := 1710028800000 + 86400000 - 10800000 + minutes * 60000; today := "2024-03-11";
     currentYear := 2024; localOffset := 10800000;
     adminSinkUp := sinksUp; branchSinkUp := sinksUp; Math := RefMath.impl |}.

(** A request of the worker for leave from 11 March 2024 to [endDate]. *)
Definition request (k : LeaveType) (endDate : string) : leave.Input :=
  {| leave.employeeCode := "E1"; leave.leaveType := k; leave.startDate := "2024-03-11";
     leave.endDate := endDate; leave.reason := "rest" |}.

(** The store once the worker has requested 21 days of annual leave. *)
Definition pendingStore : Store :=
  fst (leave.create (clock 600 true) (request annual "2024-03-31") (store [])).

(** The store once the worker has requested 21 days of annual leave a
    second time, the first request still pending. *)
Definition twicePendingStore : Store :=
  fst (leave.create (clock 600 true) (request annual "2024-03-31") pendingStore).

(** A check-in by code from (1, 1), some 157 km from (0, 0). *)
Definition farAway : attendance.ByCodeInput :=
  {| attendance.employeeCode := "E1"; attendance.latitude := 1; attendance.longitude := 1;
     attendance.method := fingerprint; attendance.deviceId := None |}.

(** The field-task call of a worker coming back, and of one leaving. *)
Definition comingBack : fieldTask.Input :=
  {| fieldTask.isReturn := Some true; fieldTask.taskDescription := None;
     fieldTask.latitude := None; fieldTask.longitude := None;
     fieldTask.verificationMethod := None |}.

Definition leaving : fieldTask.Input :=
  {| fieldTask.isReturn := None; fieldTask.taskDescription := Some "delivery";
     fieldTask.latitude := Some 0%float; fieldTask.longitude := Some 0%float;
     fieldTask.verificationMethod := Some face |}.

(** A request whose end date comes before its start date. *)
Definition backwards (k : LeaveType) : leave.Input :=
  {| leave.employeeCode := "E1"; leave.leaveType := k; leave.startDate := "2024-03-15";
     leave.endDate := "2024-03-11"; leave.reason := "rest" |}.

(** A zone of 100 m around (0, 0). *)
Definition office : WorkZone.t :=
  {| WorkZone.id := 1; WorkZone.name := "Office"; WorkZone.latitude := 0;
     WorkZone.longitude := 0; WorkZone.radiusMeters := 100; WorkZone.isActive := true |}.

End Sample.

(** ** Vocabulary of the further properties *)

(** A handler that leaves a part of the store as it was, whatever its
    outcome. *)
Definition preserves {X A} (proj : Store -> X) (h : Handler A) : Prop :=
  forall st st' o, h st = (st', o) -> proj st' = proj st.

(** Today's attendance row of an employee: what [getTodayAttendance]
    selects. *)
Definition todaysRecord (env : Env) (employeeId : Z) (st : Store)
  : option AttendanceRecord.t :=
  find (fun r => (AttendanceRecord.employeeId r =? employeeId)
                 && String.eqb (AttendanceRecord.date r) (today env))
       (rows (attendanceRecords st)).

(** The text holds a colon. *)
Fixpoint hasColon (s : string) : bool :=
  match s with
  | EmptyString => false
  | String c r => Ascii.eqb c ":" || hasColon r
  end.



(** The attendance rows of an employee for a day, and the rule that there
    is at most one. *)
Definition rowsOf (employeeId : Z) (date : string) (T : Table AttendanceRecord.t)
  : list AttendanceRecord.t :=
  filter (fun r => (AttendanceRecord.employeeId r =? employeeId)
                   && String.eqb (AttendanceRecord.date r) date) (rows T).

Definition onePerDay (st : Store) : Prop :=
  forall employeeId date,
    (List.length (rowsOf employeeId date (attendanceRecords st)) <= 1)%nat.

(** What a check-in or a check-out does to the attendance table: nothing,
    an update by key that keeps employee and day, or the insertion of a
    row for an employee and a day that had none. *)
Definition attendanceStep (T T' : Table AttendanceRecord.t) : Prop :=
  T' = T
  \/ (exists k f,
        (forall r, AttendanceRecord.employeeId (f r) = AttendanceRecord.employeeId r
                   /\ AttendanceRecord.date (f r) = AttendanceRecord.date r)
        /\ T' = updateWhere (fun r => AttendanceRecord.id r =? k) f T)
  \/ (exists mk employeeId date,
        (forall id, AttendanceRecord.employeeId (mk id) = employeeId
                    /\ AttendanceRecord.date (mk id) = date)
        /\ rowsOf employeeId date T = []
        /\ T' = insertRow mk T).


(** * Properties *)

Unset Implicit Arguments.

(** ** Stepping through a handler *)

Lemma bind_Return {A B} (h : Handler A) (k : A -> Handler B) st st' b :
  bind h k st = (st', Return b) ->
  exists a st1, h st = (st1, Return a) /\ k a st1 = (st', Return b).
Proof.
  unfold bind. destruct (h st) as [st1 [a | e]]; intro H.
  - exists a, st1. split; [reflexivity | exact H].
  - discriminate H.
Qed.

Lemma bind_Throw {A B} (h : Handler A) (k : A -> Handler B) st st' e :
  bind h k st = (st', Throw e) ->
  h st = (st', Throw e) \/
  exists a st1, h st = (st1, Return a) /\ k a st1 = (st', Throw e).
Proof.
  unfold bind. destruct (h st) as [st1 [a | e1]]; intro H.
  - right. exists a, st1. split; [reflexivity | exact H].
  - left. injection H as -> ->. reflexivity.
Qed.

Lemma bind_eq {A B} (h : Handler A) (k : A -> Handler B) st st1 a :
  h st = (st1, Return a) -> bind h k st = k a st1.
Proof. unfold bind. intros ->. reflexivity. Qed.

Lemma bind_throws {A B} (h : Handler A) (k : A -> Handler B) st st1 e :
  h st = (st1, Throw e) -> bind h k st = (st1, Throw e).
Proof. unfold bind. intros ->. reflexivity. Qed.

Ltac step H :=
  let a := fresh "a" in
  let st1 := fresh "st" in
  let E := fresh "E" in
  apply bind_Return in H; destruct H as (a & st1 & E & H).

(** ** C1: lateness *)

Lemma hours_minutes (t : Z) :
  JS.getUTCHours t * 60 + JS.getUTCMinutes t = (t / 60000) mod 1440.
Proof.
  unfold JS.getUTCHours, JS.getUTCMinutes.
  replace 3600000 with (60000 * 60) by reflexivity.
  rewrite <- Z.div_div by lia.
  replace 1440 with (60 * 24) by reflexivity.
  rewrite Z.rem_mul_r by lia. lia.
Qed.

Lemma digit_cases (d : Z) :
  0 <= d <= 9 ->
  d = 0 \/ d = 1 \/ d = 2 \/ d = 3 \/ d = 4 \/ d = 5 \/ d = 6 \/ d = 7 \/ d = 8 \/ d = 9.
Proof. lia. Qed.

Lemma digit_digitChar (d : Z) :
  0 <= d <= 9 ->
  JS.digit (digitChar d) = Some d /\ Ascii.eqb (digitChar d) ":" = false.
Proof.
  intro H. destruct (digit_cases d H) as [-> | [-> | [-> | [-> | [-> | [-> | [-> | [-> | [-> | ->]]]]]]]]];
    split; reflexivity.
Qed.

Lemma Number_twoDigits (n : Z) : 0 <= n < 100 -> JS.Number (twoDigits n) = Some n.
Proof.
  intro H. unfold JS.Number, twoDigits. cbn [JS.digits].
  assert (H1 : 0 <= n / 10 <= 9).
  { split; [apply Z.div_pos; lia | apply Z.lt_succ_r, Z.div_lt_upper_bound; lia]. }
  assert (H0 : 0 <= n mod 10 <= 9) by (pose proof (Z.mod_pos_bound n 10); lia).
  destruct (digit_digitChar _ H1) as [-> _], (digit_digitChar _ H0) as [-> _].
  f_equal. pose proof (Z.div_mod n 10). lia.
Qed.

Lemma split_hhmm (h m : Z) :
  0 <= h < 100 -> 0 <= m < 100 ->
  JS.split ":" (hhmm h m) = [twoDigits h; twoDigits m].
Proof.
  intros Hh Hm.
  assert (forall n, 0 <= n < 100 -> 0 <= n / 10 <= 9 /\ 0 <= n mod 10 <= 9) as B.
  { intros n Hn. split.
    - split; [apply Z.div_pos; lia | apply Z.lt_succ_r, Z.div_lt_upper_bound; lia].
    - pose proof (Z.mod_pos_bound n 10); lia. }
  destruct (B h Hh) as [h1 h0], (B m Hm) as [m1 m0].
  unfold hhmm, twoDigits. cbn [append JS.split].
  destruct (digit_digitChar _ h1) as [_ ->], (digit_digitChar _ h0) as [_ ->],
           (digit_digitChar _ m1) as [_ ->], (digit_digitChar _ m0) as [_ ->].
  reflexivity.
Qed.

(** The threshold the code computes from a well-formed start time. *)
Lemma lateThreshold_hhmm (h m thr : Z) :
  0 <= h < 100 -> 0 <= m < 100 ->
  let parts := map JS.Number (JS.split ":" (hhmm h m)) in
  JS.add (JS.add (JS.mul (JS.element parts 0) (Some 60)) (JS.element parts 1)) (Some thr)
  = Some (h * 60 + m + thr).
Proof.
  intros Hh Hm. cbv zeta. rewrite split_hhmm by assumption.
  cbn [map JS.element nth_error].
  rewrite !Number_twoDigits by assumption. reflexivity.
Qed.

(** What a handler that returned has left untouched. *)
Lemma bindDevice_Return env emp device st st' u :
  attendance.bindDevice env emp device st = (st', Return u) ->
  workSettings st' = workSettings st /\
  workZones st' = workZones st /\
  attendanceRecords st' = attendanceRecords st.
Proof.
  unfold attendance.bindDevice. destruct device as [d |].
  - destruct (JS.truthy d).
    + intro H. step H. unfold db.checkEmployeeDevice, gets in E.
      injection E as <- <-.
      match type of H with context [negb (db.isRegistered ?c)] => destruct (db.isRegistered c) end;
        cbn [negb] in H.
      * match type of H with context [negb (db.isMatch ?c)] => destruct (db.isMatch c) end;
          cbn [negb] in H.
        -- injection H as <- _. auto.
        -- step H. discriminate H.
      * injection H as <- _. auto.
    + intro H. injection H as <- _. auto.
  - intro H. injection H as <- _. auto.
Qed.

Lemma geofenceGate_Return env eid lat lon st st' u :
  attendance.geofenceGate env eid lat lon st = (st', Return u) -> st' = st.
Proof.
  unfold attendance.geofenceGate, db.isLocationInWorkZone, db.getActiveWorkZones.
  intro H. step H. step E. injection E as <- <-. injection E0 as <- <-.
  step H. injection E as <- <-.
  destruct (_ && _) in H.
  - step H. discriminate H.
  - injection H as <- _. reflexivity.
Qed.

Lemma determineStatus_Return env eid st st' s settings h m :
  hd_error (workSettings st) = Some settings ->
  WorkSettings.workStartTime settings = hhmm h m ->
  0 <= h < 24 -> 0 <= m < 60 ->
  attendance.determineStatus env eid st = (st', Return s) ->
  s = (if h * 60 + m + WorkSettings.lateThresholdMinutes settings <? localMinutes env
       then AttendanceRecord.late else AttendanceRecord.present)
  /\ attendanceRecords st' = attendanceRecords st.
Proof.
  intros Hws Hstart Hh Hm H. unfold attendance.determineStatus in H.
  step H. unfold db.getWorkSettings, gets in E. injection E as <- <-.
  rewrite Hws in H. cbv zeta in H. rewrite Hstart in H.
  rewrite (lateThreshold_hhmm h m (WorkSettings.lateThresholdMinutes settings)) in H by lia.
  rewrite hours_minutes in H. change (3 * 60 * 60 * 1000) with 10800000 in H.
  fold (localMinutes env) in H. cbn [JS.gt] in H.
  destruct (_ <? localMinutes env).
  - step H. injection H as <- <-. split; [reflexivity |].
    unfold db.notifyLateArrival in E. step E. injection E as <- _.
    unfold db.createNotification in E0. destruct (adminSinkUp env); [| discriminate E0].
    injection E0 as <- _. reflexivity.
  - injection H as <- <-. auto.
Qed.

Lemma persistCheckIn_Return env eid existing lat lon method s st st' r :
  (forall ex, existing = Some ex -> In ex (rows (attendanceRecords st))) ->
  attendance.persistCheckIn env eid existing lat lon method s st = (st', Return r) ->
  attendance.status r = s /\
  exists rec, In rec (rows (attendanceRecords st'))
              /\ AttendanceRecord.id rec = attendance.recordId r
              /\ AttendanceRecord.status rec = s
              /\ AttendanceRecord.checkInTime rec = Some (now env).
Proof.
  intros Hin H. unfold attendance.persistCheckIn in H. destruct existing as [ex |].
  - step H. injection H as <- <-. unfold db.updateAttendanceRecord, modify in E.
    injection E as <- _. split; [reflexivity |].
    exists (attendance.checkInData env lat lon method s ex). cbn.
    repeat split. apply in_map_iff. exists ex. rewrite Z.eqb_refl. auto.
  - step H. injection H as <- <-. unfold db.createAttendanceRecord in E.
    injection E as <- <-. split; [reflexivity |].
    eexists. cbn. split; [apply in_or_app; right; left; reflexivity |]. cbn. auto.
Qed.

(** The common tail of the two check-ins. *)
Lemma checkIn_tail env eid lat lon method st st' r settings h m :
  hd_error (workSettings st) = Some settings ->
  WorkSettings.workStartTime settings = hhmm h m ->
  0 <= h < 24 -> 0 <= m < 60 ->
  (existing <- db.getTodayAttendance env eid ;;
   if attendance.checkedIn existing then throw AlreadyCheckedIn
   else
     attendance.geofenceGate env eid lat lon ;;;
     status <- attendance.determineStatus env eid ;;
     attendance.persistCheckIn env eid existing lat lon method status) st = (st', Return r) ->
  attendance.status r =
    (if h * 60 + m + WorkSettings.lateThresholdMinutes settings <? localMinutes env
     then AttendanceRecord.late else AttendanceRecord.present)
  /\ exists rec, In rec (rows (attendanceRecords st'))
                 /\ AttendanceRecord.id rec = attendance.recordId r
                 /\ AttendanceRecord.status rec = attendance.status r
                 /\ AttendanceRecord.checkInTime rec = Some (now env).
Proof.
  intros Hws Hstart Hh Hm H. step H.
  unfold db.getTodayAttendance, gets in E. injection E as <- <-.
  destruct (attendance.checkedIn _); [discriminate H |].
  step H. apply geofenceGate_Return in E. subst.
  step H. destruct (determineStatus_Return _ _ _ _ _ _ _ _ Hws Hstart Hh Hm E) as [-> Hrec].
  apply persistCheckIn_Return in H.
  - destruct H as [Hs Hex]. rewrite Hs. split; [reflexivity | exact Hex].
  - intros ex Hex. rewrite Hrec. apply find_some in Hex. apply Hex.
Qed.

Lemma verifyBiometric_Return emp m st st' u :
  attendance.verifyBiometric emp m st = (st', Return u) -> st' = st.
Proof.
  unfold attendance.verifyBiometric.
  destruct m; [destruct (negb _) | destruct (negb _) |]; intro H;
    first [discriminate H | injection H as <- _; reflexivity].
Qed.

(** C1.  A check-in that goes through while work settings with a
    well-formed start time [HH:MM] exist returns and stores the status
    "late" exactly when the minutes since midnight of the current time at
    UTC+3 are strictly more than [HH * 60 + MM + lateThresholdMinutes],
    and "present" otherwise; this holds for [checkInByCode] and [checkIn]. *)
Theorem late_iff_past_threshold
  (env : Env) (st st' : Store) (settings : WorkSettings.t) (h m : Z)
  (r : attendance.Result) :
  hd_error (workSettings st) = Some settings ->
  WorkSettings.workStartTime settings = hhmm h m ->
  0 <= h < 24 -> 0 <= m < 60 ->
  (exists input, attendance.checkInByCode env input st = (st', Return r)) \/
  (exists ctx input, attendance.checkIn env ctx input st = (st', Return r)) ->
  (attendance.status r = AttendanceRecord.late <->
     localMinutes env > h * 60 + m + WorkSettings.lateThresholdMinutes settings)
  /\ (attendance.status r = AttendanceRecord.present <->
        localMinutes env <= h * 60 + m + WorkSettings.lateThresholdMinutes settings)
  /\ exists rec, In rec (rows (attendanceRecords st'))
                 /\ AttendanceRecord.id rec = attendance.recordId r
                 /\ AttendanceRecord.status rec = attendance.status r
                 /\ AttendanceRecord.checkInTime rec = Some (now env).
Proof.
  intros Hws Hstart Hh Hm Hrun.
  assert (attendance.status r =
            (if h * 60 + m + WorkSettings.lateThresholdMinutes settings <? localMinutes env
             then AttendanceRecord.late else AttendanceRecord.present)
          /\ exists rec, In rec (rows (attendanceRecords st'))
                         /\ AttendanceRecord.id rec = attendance.recordId r
                         /\ AttendanceRecord.status rec = attendance.status r
                         /\ AttendanceRecord.checkInTime rec = Some (now env)) as [Hs Hrec].
  { destruct Hrun as [[input H] | [ctx [input H]]].
    - unfold attendance.checkInByCode in H. step H.
      unfold db.getEmployeeByCode, gets in E. injection E as <- <-.
      destruct (find _ _) as [emp |]; [| discriminate H].
      step H. apply bindDevice_Return in E. destruct E as (Ews & _ & _).
      rewrite <- Ews in Hws.
      exact (checkIn_tail _ _ _ _ _ _ _ _ _ _ _ Hws Hstart Hh Hm H).
    - unfold attendance.checkIn in H. step H.
      unfold db.getEmployeeByUserId, gets in E. injection E as <- <-.
      destruct (find _ _) as [emp |]; [| discriminate H].
      step H. apply verifyBiometric_Return in E. subst.
      exact (checkIn_tail _ _ _ _ _ _ _ _ _ _ _ Hws Hstart Hh Hm H). }
  split; [| split; [| exact Hrec]]; rewrite Hs;
    destruct (Z.ltb_spec (h * 60 + m + WorkSettings.lateThresholdMinutes settings)
                         (localMinutes env));
    split; intro; first [reflexivity | lia | discriminate].
Qed.

Lemma late_iff_past_threshold_witness :
  attendance.status {| attendance.status := AttendanceRecord.late; attendance.recordId := 1 |}
    = AttendanceRecord.late
  <-> localMinutes (Sample.clock (8 * 60 + 16) true) > 8 * 60 + 0 + 15.
Proof.
  refine (proj1 (late_iff_past_threshold (Sample.clock (8 * 60 + 16) true)
            (Sample.store [])
            (fst (attendance.checkInByCode (Sample.clock (8 * 60 + 16) true)
                    (Sample.byCode None) (Sample.store [])))
            Sample.settings 8 0 _ _ _ _ _ _)).
  - reflexivity.
  - reflexivity.
  - lia.
  - lia.
  - left. exists (Sample.byCode None). vm_compute. reflexivity.
Defined.

(** With start 08:00 and threshold 15, 08:15 is present and 08:16 is late. *)
Example checkIn_at_0815 :
  snd (attendance.checkInByCode (Sample.clock (8 * 60 + 15) true) (Sample.byCode None)
         (Sample.store []))
  = Return {| attendance.status := AttendanceRecord.present; attendance.recordId := 1 |}.
Proof. vm_compute. reflexivity. Qed.

Example checkIn_at_0816 :
  snd (attendance.checkIn (Sample.clock (8 * 60 + 16) true) Sample.session Sample.bySession
         (Sample.store []))
  = Return {| attendance.status := AttendanceRecord.late; attendance.recordId := 1 |}.
Proof. vm_compute. reflexivity. Qed.

(** ** C2: the geofence evaluator *)

Lemma loop_inZone M lat lon zones :
  db.inZone (db.isLocationInWorkZone_loop M lat lon zones) = true <->
  exists z, In z zones /\ insideZone M lat lon z = true.
Proof.
  induction zones as [| z zones IH]; cbn [db.isLocationInWorkZone_loop].
  - split; [discriminate | intros (z & [] & _)].
  - fold (insideZone M lat lon z). destruct (insideZone M lat lon z) eqn:Hz.
    + split; [intros _; exists z; split; [left; reflexivity | exact Hz] | reflexivity].
    + rewrite IH. split.
      * intros (y & Hy & Hin). exists y. split; [right; exact Hy | exact Hin].
      * intros (y & [-> | Hy] & Hin); [congruence | exists y; auto].
Qed.

Lemma loop_zoneName M lat lon zones name :
  db.zoneName (db.isLocationInWorkZone_loop M lat lon zones) = Some name <->
  exists z, firstInside M lat lon zones z /\ name = WorkZone.name z.
Proof.
  induction zones as [| z zones IH]; cbn [db.isLocationInWorkZone_loop].
  - split; [discriminate |].
    intros (z & (pre & post & Heq & _) & _). destruct pre; discriminate Heq.
  - fold (insideZone M lat lon z). destruct (insideZone M lat lon z) eqn:Hz.
    + cbn [db.zoneName]. split.
      * intros [= <-]. exists z. split; [| reflexivity].
        exists [], zones. repeat split; [intros y [] | exact Hz].
      * intros (y & (pre & post & Heq & Hpre & Hy) & ->).
        destruct pre as [| p pre]; cbn in Heq; injection Heq as -> _; [reflexivity |].
        rewrite (Hpre p (or_introl eq_refl)) in Hz. discriminate Hz.
    + rewrite IH. split.
      * intros (y & (pre & post & -> & Hpre & Hy) & ->). exists y. split; [| reflexivity].
        exists (z :: pre), post. repeat split; [| exact Hy].
        intros x [<- | Hx]; [exact Hz | exact (Hpre x Hx)].
      * intros (y & (pre & post & Heq & Hpre & Hy) & ->). exists y. split; [| reflexivity].
        destruct pre as [| p pre]; cbn in Heq; injection Heq as <- ->.
        -- congruence.
        -- exists pre, post. repeat split; [| exact Hy].
           intros x Hx. apply Hpre. right. exact Hx.
Qed.

(** C2, as the code has it.  [isLocationInWorkZone] leaves the store alone
    and reports [inZone] exactly when some active zone contains the point
    (great-circle distance, Earth radius 6,371,000 m, at most
    [radiusMeters]); the name it reports is that of the first such zone in
    the order the zones are read.  On an empty set of active zones it
    reports [inZone = false] with no name, and it is the gate of the
    check-ins that then lets the request through: the gate refuses
    exactly when there is an active zone and the evaluator reports
    [false]. *)
Theorem geofence_evaluator (env : Env) (latitude longitude : float) (st : Store) :
  let zones := filter WorkZone.isActive (workZones st) in
  exists res,
    db.isLocationInWorkZone env latitude longitude st = (st, Return res)
    /\ (db.inZone res = true <->
          exists z, In z zones /\ insideZone (Math env) latitude longitude z = true)
    /\ (forall name,
          db.zoneName res = Some name <->
          exists z, firstInside (Math env) latitude longitude zones z
                    /\ name = WorkZone.name z)
    /\ (zones = [] -> res = {| db.inZone := false; db.zoneName := None |})
    /\ (forall employeeId,
          (zones = [] \/ db.inZone res = true ->
           attendance.geofenceGate env employeeId latitude longitude st = (st, Return tt))
          /\ (zones <> [] -> db.inZone res = false ->
              exists st' e,
                attendance.geofenceGate env employeeId latitude longitude st
                = (st', Throw e)
                /\ (adminSinkUp env = true -> e = OutsideWorkZone))).
Proof.
  intro zones.
  exists (db.isLocationInWorkZone_loop (Math env) latitude longitude zones).
  split; [reflexivity |]. split; [apply loop_inZone |]. split; [apply loop_zoneName |].
  split; [intros ->; reflexivity |].
  intro employeeId.
  assert (attendance.geofenceGate env employeeId latitude longitude st
          = (if (0 <? Z.of_nat (List.length zones))
                && negb (db.inZone (db.isLocationInWorkZone_loop (Math env)
                                      latitude longitude zones))
             then (db.notifyOutsideZone env employeeId ;;; throw OutsideWorkZone) st
             else (st, Return tt))) as ->.
  { unfold attendance.geofenceGate, db.isLocationInWorkZone, db.getActiveWorkZones.
    unfold bind at 1 2 3, gets, ret. fold zones.
    destruct (_ && _); reflexivity. }
  split.
  - intros [-> | ->]; [reflexivity |]. rewrite andb_false_r. reflexivity.
  - intros Hne ->. destruct zones as [| z zones']; [congruence |].
    cbn [List.length negb andb]. replace (0 <? Z.of_nat (S (List.length zones'))) with true
      by (symmetry; apply Z.ltb_lt; lia).
    unfold db.notifyOutsideZone, db.createNotification, bind, throw.
    destruct (adminSinkUp env); eexists _, _; (split; [reflexivity |]);
      [reflexivity | discriminate].
Qed.

(** The sentence of the specification fails as worded: on no active zone
    the evaluator answers "not in a zone". *)
Lemma evaluator_on_no_zone :
  db.isLocationInWorkZone (Sample.clock 0 true) 0 0 (Sample.store [])
  = (Sample.store [], Return {| db.inZone := false; db.zoneName := None |}).
Proof. reflexivity. Qed.

(** A zone of 100 m around (0, 0): its centre is inside, a point some
    200 m to the north is outside (evaluated with [RefMath]). *)
Example centre_is_inside :
  db.isLocationInWorkZone_loop RefMath.impl 0 0 [Sample.office]
  = {| db.inZone := true; db.zoneName := Some "Office" |}.
Proof. vm_compute. reflexivity. Qed.

Example north_200m_is_outside :
  PrimFloat.ltb 200 (calculateDistance RefMath.impl 0.0018 0 0 0) = true
  /\ db.isLocationInWorkZone_loop RefMath.impl 0.0018 0 [Sample.office]
     = {| db.inZone := false; db.zoneName := None |}.
Proof. split; vm_compute; reflexivity. Qed.

(** ** C3: the guards of check-out *)

Lemma verifyDevice_Return env emp device st st' u :
  attendance.verifyDevice env emp device st = (st', Return u) -> st' = st.
Proof.
  unfold attendance.verifyDevice. destruct device as [d |].
  - destruct (JS.truthy d).
    + intro H. step H. injection E as <- <-.
      destruct (_ && _) in H.
      * step H. discriminate H.
      * injection H as <- _. reflexivity.
    + intro H. injection H as <- _. reflexivity.
  - intro H. injection H as <- _. reflexivity.
Qed.

Lemma getTodayAttendance_eq env eid st :
  db.getTodayAttendance env eid st
  = (st, Return (find (fun r => (AttendanceRecord.employeeId r =? eid)
                                && String.eqb (AttendanceRecord.date r) (today env))
                      (rows (attendanceRecords st)))).
Proof. reflexivity. Qed.

(** [checkOutByCode], once the employee is found and the device accepted:
    no record today or no check-in time is NoCheckInToday, a check-out
    time already there is AlreadyCheckedOut, and the store is as it was. *)
Lemma checkOutByCode_guards env input st emp st1 :
  db.getEmployeeByCode (attendance.employeeCode input) st = (st, Return (Some emp)) ->
  attendance.verifyDevice env emp (attendance.deviceId input) st = (st1, Return tt) ->
  let existing := find (fun r => (AttendanceRecord.employeeId r =? Employee.id emp)
                                && String.eqb (AttendanceRecord.date r) (today env))
                       (rows (attendanceRecords st)) in
  (attendance.checkedIn existing = false ->
     attendance.checkOutByCode env input st = (st, Throw NoCheckInToday))
  /\ (forall r, existing = Some r ->
        isSome (AttendanceRecord.checkInTime r) = true ->
        isSome (AttendanceRecord.checkOutTime r) = true ->
        attendance.checkOutByCode env input st = (st, Throw AlreadyCheckedOut)).
Proof.
  intros Hemp Hdev existing.
  pose proof (verifyDevice_Return _ _ _ _ _ _ Hdev) as ->.
  unfold attendance.checkOutByCode.
  rewrite (bind_eq _ _ _ _ _ Hemp). rewrite (bind_eq _ _ _ _ _ Hdev).
  rewrite (bind_eq _ _ _ _ _ (getTodayAttendance_eq _ _ _)).
  subst existing. split.
  - destruct (find _ _) as [r |]; cbn [attendance.checkedIn]; [| reflexivity].
    intros ->. reflexivity.
  - intros r -> Hin Hout. rewrite Hin, Hout. reflexivity.
Qed.

(** [checkOut] has the second guard, and the first one only for a missing
    record. *)
Lemma checkOut_guards env ctx input st emp :
  db.getEmployeeByUserId (user_id ctx) st = (st, Return (Some emp)) ->
  attendance.verifyBiometric emp (attendance.in_method input) st = (st, Return tt) ->
  let existing := find (fun r => (AttendanceRecord.employeeId r =? Employee.id emp)
                                && String.eqb (AttendanceRecord.date r) (today env))
                       (rows (attendanceRecords st)) in
  (existing = None -> attendance.checkOut env ctx input st = (st, Throw NoCheckInToday))
  /\ (forall r, existing = Some r ->
        isSome (AttendanceRecord.checkOutTime r) = true ->
        attendance.checkOut env ctx input st = (st, Throw AlreadyCheckedOut)).
Proof.
  intros Hemp Hbio existing. unfold attendance.checkOut.
  rewrite (bind_eq _ _ _ _ _ Hemp). rewrite (bind_eq _ _ _ _ _ Hbio).
  rewrite (bind_eq _ _ _ _ _ (getTodayAttendance_eq _ _ _)).
  subst existing. split.
  - intros ->. reflexivity.
  - intros r -> Hout. rewrite Hout. reflexivity.
Qed.

(** C3, where the code departs from it.  Today's record of the worker was
    added by hand with no check-in time.  [checkOut] goes through and
    writes a check-out time on it; [checkOutByCode], on the same store,
    refuses with NoCheckInToday and writes nothing. *)
Theorem checkOut_without_checkIn :
  let env := Sample.clock (17 * 60) true in
  map AttendanceRecord.checkInTime (rows (attendanceRecords Sample.manualStore)) = [None]
  /\ snd (attendance.checkOut env Sample.session Sample.bySession Sample.manualStore)
     = Return tt
  /\ map AttendanceRecord.checkOutTime
         (rows (attendanceRecords
            (fst (attendance.checkOut env Sample.session Sample.bySession
                    Sample.manualStore))))
     = [Some (now env)]
  /\ attendance.checkOutByCode env (Sample.byCode None) Sample.manualStore
     = (Sample.manualStore, Throw NoCheckInToday).
Proof. vm_compute. repeat split; reflexivity. Qed.

(** ** C4: device binding *)

Lemma neutral_bind {A B} (h : Handler A) (k : A -> Handler B) :
  deviceNeutral h -> (forall a, deviceNeutral (k a)) -> deviceNeutral (bind h k).
Proof.
  intros Hh Hk st st' o. unfold bind.
  destruct (h st) as [st1 [a | e]] eqn:E; intro H.
  - destruct (Hk a _ _ _ H) as [-> Ho]. split; [exact (proj1 (Hh _ _ _ E)) | exact Ho].
  - injection H as <- <-. destruct (Hh _ _ _ E) as [He Ho].
    split; [exact He |]. intros [= ->]. apply Ho. reflexivity.
Qed.

Lemma neutral_ret {A} (a : A) : deviceNeutral (ret a).
Proof. intros st st' o [= <- <-]. split; [reflexivity | discriminate]. Qed.

Lemma neutral_throw {A} (e : Error) : e <> DeviceUnauthorized -> deviceNeutral (@throw A e).
Proof. intros He st st' o [= <- <-]. split; [reflexivity | congruence]. Qed.

Lemma neutral_gets {A} (f : Store -> A) : deviceNeutral (gets f).
Proof. intros st st' o [= <- <-]. split; [reflexivity | discriminate]. Qed.

Lemma neutral_catchLog {A} (h : Handler A) : deviceNeutral h -> deviceNeutral (catchLog h).
Proof.
  intros Hh st st' o. unfold catchLog.
  destruct (h st) as [st1 [a | e]] eqn:E; intros [= <- <-];
    (split; [exact (proj1 (Hh _ _ _ E)) | discriminate]).
Qed.

Lemma neutral_createNotification env type eid :
  deviceNeutral (db.createNotification env type eid).
Proof.
  intros st st' o. unfold db.createNotification.
  destruct (adminSinkUp env); intros [= <- <-]; (split; [reflexivity | discriminate]).
Qed.

Lemma neutral_createBranchNotification env b type eid :
  deviceNeutral (db.createBranchNotification env b type eid).
Proof.
  intros st st' o. unfold db.createBranchNotification.
  destruct (branchSinkUp env); intros [= <- <-]; (split; [reflexivity | discriminate]).
Qed.

Lemma neutral_updateAttendanceRecord id data :
  deviceNeutral (db.updateAttendanceRecord id data).
Proof. intros st st' o [= <- <-]. split; [reflexivity | discriminate]. Qed.

Lemma neutral_createAttendanceRecord mk : deviceNeutral (db.createAttendanceRecord mk).
Proof. intros st st' o [= <- <-]. split; [reflexivity | discriminate]. Qed.

Create HintDb neutral.
#[local] Hint Resolve neutral_ret neutral_throw neutral_gets neutral_catchLog
  neutral_createNotification neutral_createBranchNotification
  neutral_updateAttendanceRecord neutral_createAttendanceRecord : neutral.
#[local] Hint Extern 1 (_ <> DeviceUnauthorized) => discriminate : neutral.

Ltac neutral :=
  cbv zeta;
  repeat first
    [ solve [auto with neutral]
    | match goal with
      | |- deviceNeutral (bind _ _) => apply neutral_bind; [| intro]
      | |- deviceNeutral (match ?x with _ => _ end) => destruct x
      end ].

Lemma neutral_geofenceGate env eid lat lon :
  deviceNeutral (attendance.geofenceGate env eid lat lon).
Proof.
  unfold attendance.geofenceGate, db.isLocationInWorkZone, db.getActiveWorkZones,
    db.notifyOutsideZone.
  neutral.
Qed.

Lemma neutral_determineStatus env eid : deviceNeutral (attendance.determineStatus env eid).
Proof.
  unfold attendance.determineStatus, db.getWorkSettings, db.notifyLateArrival. neutral.
Qed.

Lemma neutral_persistCheckIn env eid existing lat lon m s :
  deviceNeutral (attendance.persistCheckIn env eid existing lat lon m s).
Proof. unfold attendance.persistCheckIn. neutral. Qed.

#[local] Hint Resolve neutral_geofenceGate neutral_determineStatus
  neutral_persistCheckIn : neutral.

(** Everything of a check-in that comes after the device block. *)
Lemma neutral_afterDevice env eid lat lon m :
  deviceNeutral
    (existing <- db.getTodayAttendance env eid ;;
     if attendance.checkedIn existing then throw AlreadyCheckedIn
     else
       attendance.geofenceGate env eid lat lon ;;;
       status <- attendance.determineStatus env eid ;;
       attendance.persistCheckIn env eid existing lat lon m status).
Proof. unfold db.getTodayAttendance. neutral. Qed.

Lemma find_map_stable {A} (p : A -> bool) (f : A -> A) (l : list A) :
  (forall x, p (f x) = p x) -> find p (map f l) = option_map f (find p l).
Proof.
  intro Hp. induction l as [| x l IH]; cbn; [reflexivity |].
  rewrite Hp. destruct (p x); [reflexivity | exact IH].
Qed.

Lemma find_is_some {A} (p : A -> bool) (l : list A) (x : A) :
  In x l -> p x = true -> exists y, find p l = Some y.
Proof.
  intros Hin Hx. destruct (find p l) as [y |] eqn:E; [exists y; reflexivity |].
  rewrite (find_none _ _ E x Hin) in Hx. discriminate Hx.
Qed.

(** What [registerEmployeeDevice] and [clearEmployeeDevice] leave in the
    store for the employee. *)
Lemma boundTo_setDevice st eid device at_ :
  (exists e, find (fun e => Employee.id e =? eid) (employees st) = Some e) ->
  boundTo
    (withEmployees
       (map (fun e => if Employee.id e =? eid then db.setDevice device at_ e else e)
            (employees st)) st) eid
  = device.
Proof.
  intros [e He]. unfold boundTo. cbn [employees withEmployees].
  rewrite find_map_stable.
  - rewrite He. cbn. apply find_some in He. destruct He as [_ ->]. reflexivity.
  - intro x. cbv beta. destruct (Employee.id x =? eid) eqn:E; cbn; exact E.
Qed.

(** A device other than the registered one: refused, nothing rebound. *)
Lemma bindDevice_mismatch env emp d r st :
  boundTo st (Employee.id emp) = Some r -> JS.truthy r = true ->
  String.eqb r d = false -> JS.truthy d = true ->
  exists st' e,
    attendance.bindDevice env emp (Some d) st = (st', Throw e)
    /\ employees st' = employees st
    /\ (adminSinkUp env = true -> e = DeviceUnauthorized).
Proof.
  intros Hb Hr Hne Hd. unfold attendance.bindDevice. rewrite Hd.
  unfold db.checkEmployeeDevice, bind at 1, gets. unfold boundTo in Hb.
  destruct (find _ (employees st)) as [e0 |]; [| discriminate Hb].
  rewrite Hb, Hr. cbn [db.isRegistered db.isMatch negb]. rewrite Hne. cbn [negb].
  unfold bind, db.createNotification, throw. destruct (adminSinkUp env).
  - eexists _, _. split; [reflexivity |]. split; [reflexivity | reflexivity].
  - eexists _, _. split; [reflexivity |]. split; [reflexivity | discriminate].
Qed.

Lemma checkEmployeeDevice_unbound eid d st :
  truthyString (boundTo st eid) = false ->
  db.checkEmployeeDevice eid d st
  = (st, Return {| db.isRegistered := false; db.isMatch := false;
                   db.registeredDeviceId := None |}).
Proof.
  unfold boundTo, db.checkEmployeeDevice, gets. intro Hb. do 2 f_equal.
  destruct (find _ _) as [e0 |]; [| reflexivity].
  destruct (Employee.registeredDeviceId e0) as [r |]; [| reflexivity].
  cbn in Hb. rewrite Hb. reflexivity.
Qed.

(** The first device presented is bound. *)
Lemma bindDevice_first_use env emp d st :
  truthyString (boundTo st (Employee.id emp)) = false ->
  (exists e, find (fun e => Employee.id e =? Employee.id emp) (employees st) = Some e) ->
  JS.truthy d = true ->
  exists st1,
    attendance.bindDevice env emp (Some d) st = (st1, Return tt)
    /\ boundTo st1 (Employee.id emp) = Some d.
Proof.
  intros Hb Hex Hd. unfold attendance.bindDevice. rewrite Hd.
  rewrite (bind_eq _ _ _ _ _ (checkEmployeeDevice_unbound _ d _ Hb)).
  cbn [db.isRegistered negb].
  eexists. split; [reflexivity |]. apply boundTo_setDevice. exact Hex.
Qed.

Lemma checkIn_first_use env input emp d st :
  find (fun e => String.eqb (Employee.employeeCode e) (attendance.employeeCode input))
       (employees st) = Some emp ->
  attendance.deviceId input = Some d -> JS.truthy d = true ->
  truthyString (boundTo st (Employee.id emp)) = false ->
  forall st' o,
    attendance.checkInByCode env input st = (st', o) ->
    boundTo st' (Employee.id emp) = Some d /\ o <> Throw DeviceUnauthorized.
Proof.
  intros Hemp Hdev Hd Hb st' o H.
  assert (exists e, find (fun e => Employee.id e =? Employee.id emp) (employees st) = Some e)
    as Hex.
  { apply find_some in Hemp. apply (find_is_some _ _ emp); [apply Hemp | apply Z.eqb_refl]. }
  destruct (bindDevice_first_use env emp d st Hb Hex Hd) as (st1 & Hrun & Hbound).
  unfold attendance.checkInByCode in H.
  unfold db.getEmployeeByCode, bind at 1, gets in H. rewrite Hemp, Hdev in H.
  rewrite (bind_eq _ _ _ _ _ Hrun) in H.
  destruct (neutral_afterDevice _ _ _ _ _ _ _ _ H) as [He Ho].
  split; [| exact Ho]. unfold boundTo in *. rewrite He. exact Hbound.
Qed.

(** C4, as the code has it.  An employee is found by the code of the
    request, which presents a non-empty [deviceId].  (1) If another
    non-empty device is registered, the check-in is refused and the
    registration stays; the error is DeviceUnauthorized (Forbidden) when
    the mismatch notification could be stored.  (2) If no device is
    registered, whatever the check-in then does, the presented device is
    bound and the request is not refused for its device.  (3)
    [resetDevice] succeeds and leaves no device bound, after which (2)
    applies to any device. *)
Theorem device_binding
  (env : Env) (st : Store) (input : attendance.ByCodeInput) (emp : Employee.t) (d : string) :
  find (fun e => String.eqb (Employee.employeeCode e) (attendance.employeeCode input))
       (employees st) = Some emp ->
  attendance.deviceId input = Some d ->
  JS.truthy d = true ->
  let eid := Employee.id emp in
  (forall r,
     boundTo st eid = Some r -> JS.truthy r = true -> String.eqb r d = false ->
     exists st' e,
       attendance.checkInByCode env input st = (st', Throw e)
       /\ boundTo st' eid = Some r
       /\ (adminSinkUp env = true -> e = DeviceUnauthorized /\ kind e = Forbidden))
  /\ (truthyString (boundTo st eid) = false ->
      forall st' o,
        attendance.checkInByCode env input st = (st', o) ->
        boundTo st' eid = Some d /\ o <> Throw DeviceUnauthorized)
  /\ (let st0 := fst (employees_router.resetDevice eid st) in
      snd (employees_router.resetDevice eid st) = Return tt
      /\ boundTo st0 eid = None
      /\ forall st' o,
           attendance.checkInByCode env input st0 = (st', o) ->
           boundTo st' eid = Some d /\ o <> Throw DeviceUnauthorized).
Proof.
  intros Hemp Hdev Hd eid.
  assert (exists e, find (fun e => Employee.id e =? eid) (employees st) = Some e) as Hex.
  { pose proof (find_some _ _ Hemp) as [Hin _].
    apply (find_is_some _ _ emp); [exact Hin | apply Z.eqb_refl]. }
  split; [| split].
  - intros r Hb Hr Hne.
    destruct (bindDevice_mismatch env emp d r st Hb Hr Hne Hd) as (st' & e & Hrun & He & Hk).
    exists st', e. split; [| split].
    + unfold attendance.checkInByCode, db.getEmployeeByCode, bind at 1, gets.
      rewrite Hemp, Hdev. apply bind_throws. exact Hrun.
    + unfold boundTo in *. rewrite He. exact Hb.
    + intro Hup. rewrite (Hk Hup). split; reflexivity.
  - intros Hb st' o. apply (checkIn_first_use env input emp d st Hemp Hdev Hd Hb).
  - cbv zeta. unfold employees_router.resetDevice, db.resetEmployeeDevice,
      db.clearEmployeeDevice, modify. cbn [fst snd].
    split; [reflexivity |].
    pose proof (boundTo_setDevice st eid None None Hex) as Hclear.
    split; [exact Hclear |].
    intros st' o H.
    refine (checkIn_first_use env input (db.setDevice None None emp) d _ _ Hdev Hd _ st' o H).
    + cbn [employees withEmployees]. rewrite find_map_stable.
      * rewrite Hemp. cbn [option_map]. unfold eid. rewrite Z.eqb_refl. reflexivity.
      * intro x. destruct (Employee.id x =? eid); reflexivity.
    + cbn [db.setDevice Employee.id]. fold eid. rewrite Hclear. reflexivity.
Qed.

(** The sentence of the specification fails as worded on the empty
    [deviceId]: it differs from the registered ["D1"], and the check-in
    goes through. *)
Lemma empty_device_is_not_checked :
  boundTo Sample.boundStore 1 = Some "D1"
  /\ snd (attendance.checkInByCode (Sample.nextDay (8 * 60) true) (Sample.byCode (Some ""))
            Sample.boundStore)
     = Return {| attendance.status := AttendanceRecord.present; attendance.recordId := 2 |}.
Proof. vm_compute. split; reflexivity. Qed.

Lemma device_binding_witness :
  exists st' e,
    attendance.checkInByCode (Sample.nextDay (8 * 60) true) (Sample.byCode (Some "D2"))
      Sample.boundStore = (st', Throw e)
    /\ boundTo st' 1 = Some "D1"
    /\ (true = true -> e = DeviceUnauthorized /\ kind e = Forbidden).
Proof.
  refine (proj1 (device_binding (Sample.nextDay (8 * 60) true) Sample.boundStore
                   (Sample.byCode (Some "D2")) (db.setDevice (Some "D1")
                      (Some (now (Sample.clock (8 * 60) true))) Sample.worker) "D2"
                   _ _ _) "D1" _ _ _).
  - vm_compute. reflexivity.
  - reflexivity.
  - reflexivity.
  - vm_compute. reflexivity.
  - reflexivity.
  - reflexivity.
Defined.

(** The scenario of the specification: "D1" is bound by the first
    check-in, "D2" is refused the day after, and accepted and bound once
    the device has been reset. *)
Example device_scenario :
  let env := Sample.nextDay (8 * 60) true in
  let reset := fst (employees_router.resetDevice 1 Sample.boundStore) in
  boundTo (Sample.store []) 1 = None
  /\ boundTo Sample.boundStore 1 = Some "D1"
  /\ snd (attendance.checkInByCode env (Sample.byCode (Some "D2")) Sample.boundStore)
     = Throw DeviceUnauthorized
  /\ boundTo (fst (attendance.checkInByCode env (Sample.byCode (Some "D2"))
                     Sample.boundStore)) 1 = Some "D1"
  /\ boundTo reset 1 = None
  /\ snd (attendance.checkInByCode env (Sample.byCode (Some "D2")) reset)
     = Return {| attendance.status := AttendanceRecord.present; attendance.recordId := 2 |}
  /\ boundTo (fst (attendance.checkInByCode env (Sample.byCode (Some "D2")) reset)) 1
     = Some "D2".
Proof. vm_compute. repeat split; reflexivity. Qed.

(** ** C5: requesting leave *)

Lemma getOrCreateLeaveBalance_returns env eid st :
  exists b st1,
    db.getOrCreateLeaveBalance env eid st = (st1, Return b)
    /\ leaveRequests st1 = leaveRequests st
    /\ employees st1 = employees st
    /\ exists extra,
         rows (leaveBalances st1) = (rows (leaveBalances st) ++ extra)%list.
Proof.
  unfold db.getOrCreateLeaveBalance.
  destruct (find (db.isBalanceOf env eid) _) as [b |].
  - exists b, st. repeat split. exists []. symmetry. apply app_nil_r.
  - eexists _, _. split; [reflexivity |]. repeat split. eexists. reflexivity.
Qed.

Lemma getLeaveBalance_line env eid st st1 b k :
  db.getOrCreateLeaveBalance env eid st = (st1, Return b) ->
  k <> unpaid ->
  exists bal line,
    db.getLeaveBalance env eid st = (st1, Return bal)
    /\ leave.balanceLine bal k = Some line
    /\ db.Balance.remaining line = remainingOf b k.
Proof.
  intros Hb Hk. unfold db.getLeaveBalance. rewrite (bind_eq _ _ _ _ _ Hb).
  destruct k; [| | | congruence];
    (eexists _, _; split; [reflexivity | split; reflexivity]).
Qed.

Lemma notifyRequest_returns env emp st :
  exists st',
    leave.notifyRequest env emp st = (st', Return tt)
    /\ leaveRequests st' = leaveRequests st
    /\ leaveBalances st' = leaveBalances st.
Proof.
  unfold leave.notifyRequest, bind, catchLog, db.createBranchNotification,
    db.createNotification, ret.
  destruct (Employee.branchId emp) as [b |]; [destruct (truthyId (Some b)) |];
    destruct (branchSinkUp env), (adminSinkUp env);
    eexists; (split; [reflexivity | split; reflexivity]).
Qed.

Lemma create_found env input st emp :
  find (fun e => String.eqb (Employee.employeeCode e) (leave.employeeCode input))
       (employees st) = Some emp ->
  leave.create env input st
  = (leave.checkBalance env emp (leave.leaveType input)
       (leave.totalDays (leave.startDate input) (leave.endDate input)) ;;;
     requestId <- db.createLeaveRequest
       {| db.lr_employeeId := Employee.id emp;
          db.lr_leaveType := leave.leaveType input;
          db.lr_startDate := leave.startDate input;
          db.lr_endDate := leave.endDate input;
          db.lr_totalDays := leave.totalDays (leave.startDate input) (leave.endDate input);
          db.lr_reason := leave.reason input |} ;;
     leave.notifyRequest env emp ;;;
     ret requestId) st.
Proof.
  intro Hemp. unfold leave.create, db.getEmployeeByCode, bind at 1, gets.
  rewrite Hemp. reflexivity.
Qed.

(** The balance check of a paid leave type, by the balance row. *)
Lemma checkBalance_paid env emp k days st st1 b :
  db.getOrCreateLeaveBalance env (Employee.id emp) st = (st1, Return b) ->
  k <> unpaid ->
  leave.checkBalance env emp k (Some days) st
  = if remainingOf b k <? days
    then (st1, Throw InsufficientBalance) else (st1, Return tt).
Proof.
  intros Hb Hk.
  destruct (getLeaveBalance_line env _ st st1 b k Hb Hk) as (bal & line & Hget & Hline & Hrem).
  unfold leave.checkBalance.
  destruct k; [| | | congruence];
    rewrite (bind_eq _ _ _ _ _ Hget), Hline; cbn [JS.lt JS.gt]; rewrite Hrem;
    destruct (_ <? days); reflexivity.
Qed.

(** What [leave.create] does once the balance check has let it through. *)
Lemma create_after_check
  (env : Env) (st st1 : Store) (input : leave.Input) (emp : Employee.t) (days : Z) :
  find (fun e => String.eqb (Employee.employeeCode e) (leave.employeeCode input))
       (employees st) = Some emp ->
  leave.totalDays (leave.startDate input) (leave.endDate input) = Some days ->
  leave.checkBalance env emp (leave.leaveType input) (Some days) st = (st1, Return tt) ->
  leaveRequests st1 = leaveRequests st ->
  exists st',
    leave.create env input st = (st', Return (nextId (leaveRequests st)))
    /\ rows (leaveRequests st')
       = (rows (leaveRequests st)
          ++ [pendingRequest (Employee.id emp) input days (nextId (leaveRequests st))])%list
    /\ leaveBalances st' = leaveBalances st1.
Proof.
  intros Hemp Hdays Hcheck Hreq.
  rewrite (create_found env input st emp Hemp), Hdays.
  rewrite (bind_eq _ _ _ _ _ Hcheck).
  unfold db.createLeaveRequest, bind at 1. cbn [db.lr_totalDays].
  destruct (notifyRequest_returns env emp
              (withLeaveRequests
                 (insertRow (pendingRequest (Employee.id emp) input days)
                            (leaveRequests st1)) st1))
    as (st' & Hn & Hreq' & Hbal').
  exists st'. split; [| split].
  - change (fun id : Z => LeaveRequest.Build_t id _ _ _ _ _ _ _ _ _ _)
      with (pendingRequest (Employee.id emp) input days).
    rewrite (bind_eq _ _ _ _ _ Hn). rewrite Hreq. reflexivity.
  - rewrite Hreq'. cbn. rewrite Hreq. reflexivity.
  - rewrite Hbal'. reflexivity.
Qed.

(** An unpaid leave is requested without a look at the balance. *)
Lemma create_unpaid
  (env : Env) (st : Store) (input : leave.Input) (emp : Employee.t) (days : Z) :
  find (fun e => String.eqb (Employee.employeeCode e) (leave.employeeCode input))
       (employees st) = Some emp ->
  leave.leaveType input = unpaid ->
  leave.totalDays (leave.startDate input) (leave.endDate input) = Some days ->
  exists st',
    leave.create env input st = (st', Return (nextId (leaveRequests st)))
    /\ rows (leaveRequests st')
       = (rows (leaveRequests st)
          ++ [pendingRequest (Employee.id emp) input days (nextId (leaveRequests st))])%list
    /\ leaveBalances st' = leaveBalances st.
Proof.
  intros Hemp Hk Hdays.
  apply (create_after_check env st st input emp days Hemp Hdays); [| reflexivity].
  rewrite Hk. reflexivity.
Qed.



(** On a fresh balance of 21 days of annual leave, 25 days are refused and
    21 days are accepted as a pending request; the balance row, created on
    the way, has nothing used. *)
Example request_25_then_21 :
  let env := Sample.clock 600 true in
  leave.totalDays "2024-03-11" "2024-04-04" = Some 25
  /\ leave.totalDays "2024-03-11" "2024-03-31" = Some 21
  /\ snd (leave.create env (Sample.request annual "2024-04-04") (Sample.store []))
     = Throw InsufficientBalance
  /\ rows (leaveRequests
             (fst (leave.create env (Sample.request annual "2024-04-04") (Sample.store []))))
     = []
  /\ snd (leave.create env (Sample.request annual "2024-03-31") (Sample.store []))
     = Return 1
  /\ map LeaveRequest.status
         (rows (leaveRequests
            (fst (leave.create env (Sample.request annual "2024-03-31") (Sample.store [])))))
     = [pending]
  /\ map (fun b => usedOf b annual)
         (rows (leaveBalances
            (fst (leave.create env (Sample.request annual "2024-03-31") (Sample.store [])))))
     = [0].
Proof. vm_compute. repeat split; reflexivity. Qed.

(** ** C6: deciding a request *)

Lemma orZero_id (x : Z) : db.orZero x = x.
Proof. unfold db.orZero. destruct (Z.eqb_spec x 0); congruence. Qed.

(** [getOrCreateLeaveBalance] reads and writes the balance table only. *)
Lemma getOrCreateLeaveBalance_congr env eid st st2 st1 b :
  leaveBalances st2 = leaveBalances st ->
  db.getOrCreateLeaveBalance env eid st = (st1, Return b) ->
  exists st3,
    db.getOrCreateLeaveBalance env eid st2 = (st3, Return b)
    /\ leaveBalances st3 = leaveBalances st1
    /\ leaveRequests st3 = leaveRequests st2
    /\ employees st3 = employees st2.
Proof.
  unfold db.getOrCreateLeaveBalance. intros Heq. rewrite Heq.
  destruct (find (db.isBalanceOf env eid) _) as [b0 |]; intros [= <- <-].
  - exists st2. repeat split. exact Heq.
  - eexists. split; [reflexivity |]. repeat split.
Qed.

Lemma updateLeaveBalance_effect env eid k days st :
  (k = unpaid -> db.updateLeaveBalance env eid k days st = (st, Return tt))
  /\ (k <> unpaid ->
      forall st0 st1 b,
        leaveBalances st = leaveBalances st0 ->
        db.getOrCreateLeaveBalance env eid st0 = (st1, Return b) ->
        exists st',
          db.updateLeaveBalance env eid k days st = (st', Return tt)
          /\ leaveRequests st' = leaveRequests st
          /\ employees st' = employees st
          /\ rows (leaveBalances st')
             = map (fun x => if LeaveBalance.id x =? LeaveBalance.id b
                             then db.setUsed k (usedOf b k + days) x else x)
                   (rows (leaveBalances st1))).
Proof.
  split.
  - intros ->. reflexivity.
  - intros Hk st0 st1 b Hbal Hget.
    destruct (getOrCreateLeaveBalance_congr env eid st0 st st1 b Hbal Hget)
      as (st3 & Hget' & Hb3 & Hr3 & He3).
    unfold db.updateLeaveBalance.
    destruct k; [| | | congruence]; rewrite (bind_eq _ _ _ _ _ Hget');
      unfold modify; rewrite orZero_id; cbn [usedOf];
      (eexists; split; [reflexivity |]); cbn; rewrite Hb3; auto.
Qed.

Lemma notifyDecision_returns env eid st :
  exists st' o,
    leave.notifyDecision env eid st = (st', o)
    /\ leaveRequests st' = leaveRequests st
    /\ leaveBalances st' = leaveBalances st
    /\ (branchSinkUp env = true -> o = Return tt).
Proof.
  unfold leave.notifyDecision, db.getEmployeeById, bind, gets, db.createBranchNotification, ret.
  destruct (find _ _) as [emp |].
  - destruct (Employee.branchId emp) as [b |]; [destruct (truthyId (Some b)) |];
      try destruct (branchSinkUp env);
      eexists _, _; (split; [reflexivity | repeat split; try reflexivity; try discriminate]).
  - eexists _, _. split; [reflexivity | repeat split].
Qed.

Lemma decide_found env requestId reviewerCode outcome reason st rv req :
  find (fun e => String.eqb (Employee.employeeCode e) reviewerCode) (employees st) = Some rv ->
  leave.mayReview (Some rv) = true ->
  find (fun r => LeaveRequest.id r =? requestId) (rows (leaveRequests st)) = Some req ->
  LeaveRequest.status req = pending ->
  leave.decide env requestId reviewerCode outcome reason st
  = (db.updateLeaveRequestStatus env requestId outcome (Employee.id rv) reason ;;;
     leave.notifyDecision env (LeaveRequest.employeeId req)) st.
Proof.
  intros Hrv Hmay Hreq Hpending.
  unfold leave.decide, db.getEmployeeByCode, bind at 1, gets. rewrite Hrv, Hmay.
  cbn [negb]. unfold db.getLeaveRequestById, bind at 1, gets. rewrite Hreq.
  unfold leave.isPending. rewrite Hpending. reflexivity.
Qed.

Lemma find_reviewed requestId status reviewer at_ reason (l : list LeaveRequest.t) req :
  find (fun r => LeaveRequest.id r =? requestId) l = Some req ->
  find (fun r => LeaveRequest.id r =? requestId)
       (map (fun r => if LeaveRequest.id r =? requestId
                      then db.setReview status reviewer at_ reason r else r) l)
  = Some (db.setReview status reviewer at_ reason req).
Proof.
  intro H. rewrite find_map_stable.
  - rewrite H. cbn. apply find_some in H. destruct H as [_ ->]. reflexivity.
  - intro x. cbv beta. destruct (LeaveRequest.id x =? requestId) eqn:E; cbn; exact E.
Qed.

Lemma updateLeaveRequestStatus_effect env requestId outcome reviewer reason st req :
  find (fun r => LeaveRequest.id r =? requestId) (rows (leaveRequests st)) = Some req ->
  outcome <> pending ->
  exists st',
    db.updateLeaveRequestStatus env requestId outcome reviewer reason st = (st', Return tt)
    /\ find (fun r => LeaveRequest.id r =? requestId) (rows (leaveRequests st'))
       = Some (db.setReview outcome reviewer (now env) reason req)
    /\ (outcome = rejected \/ LeaveRequest.leaveType req = unpaid ->
        leaveBalances st' = leaveBalances st)
    /\ (outcome = approved -> LeaveRequest.leaveType req <> unpaid ->
        exists b st1,
          db.getOrCreateLeaveBalance env (LeaveRequest.employeeId req) st = (st1, Return b)
          /\ rows (leaveBalances st')
             = map (fun x => if LeaveBalance.id x =? LeaveBalance.id b
                             then db.setUsed (LeaveRequest.leaveType req)
                                    (usedOf b (LeaveRequest.leaveType req)
                                     + LeaveRequest.totalDays req) x
                             else x)
                   (rows (leaveBalances st1))).
Proof.
  intros Hreq Hout.
  set (st2 := withLeaveRequests
                (updateWhere (fun r => LeaveRequest.id r =? requestId)
                   (db.setReview outcome reviewer (now env) reason) (leaveRequests st)) st).
  assert (find (fun r => LeaveRequest.id r =? requestId) (rows (leaveRequests st2))
          = Some (db.setReview outcome reviewer (now env) reason req)) as Hfind.
  { apply find_reviewed. exact Hreq. }
  unfold db.updateLeaveRequestStatus, modify, bind at 1. fold st2.
  destruct outcome; [congruence | |].
  - (* approved *)
    unfold db.getLeaveRequestById, bind at 1, gets. rewrite Hfind. cbn [db.setReview
      LeaveRequest.employeeId LeaveRequest.leaveType LeaveRequest.totalDays].
    destruct (updateLeaveBalance_effect env (LeaveRequest.employeeId req)
                (LeaveRequest.leaveType req) (LeaveRequest.totalDays req) st2) as [Hu Hp].
    destruct (LeaveRequest.leaveType req) eqn:Ek.
    1-3: destruct (getOrCreateLeaveBalance_returns env (LeaveRequest.employeeId req) st)
           as (b & st1 & Hget & _);
         destruct (Hp ltac:(discriminate) st st1 b eq_refl Hget) as (st' & Hrun & Hr & _ & Hb);
         exists st'; (split; [exact Hrun |]); (split; [rewrite Hr; exact Hfind |]);
         (split; [intros [H | H]; discriminate H |]);
         intros _ _; exists b, st1; (split; [exact Hget | exact Hb]).
    exists st2. split; [apply Hu; reflexivity |]. split; [exact Hfind |].
    split; [reflexivity |]. intros _ H. congruence.
  - (* rejected *)
    exists st2. split; [reflexivity |]. split; [exact Hfind |].
    split; [reflexivity |]. intro H. discriminate H.
Qed.

Lemma setUsed_fields k v x :
  k <> unpaid ->
  usedOf (db.setUsed k v x) k = v
  /\ (forall k', k' <> k -> usedOf (db.setUsed k v x) k' = usedOf x k')
  /\ (forall k', allotmentOf (db.setUsed k v x) k' = allotmentOf x k')
  /\ LeaveBalance.id (db.setUsed k v x) = LeaveBalance.id x
  /\ LeaveBalance.employeeId (db.setUsed k v x) = LeaveBalance.employeeId x
  /\ LeaveBalance.year (db.setUsed k v x) = LeaveBalance.year x.
Proof.
  intro Hk. destruct k; try congruence; repeat split;
    intros k' Hk' || intros k'; destruct k'; try reflexivity; congruence.
Qed.



(** Approving the request of 21 days brings the days used to 21 and the
    days remaining to 0. *)
Example approve_21 :
  let approved_ := leave.approve (Sample.clock 660 true) 1 "M1" Sample.pendingStore in
  snd approved_ = Return tt
  /\ map LeaveRequest.status (rows (leaveRequests (fst approved_))) = [approved]
  /\ map (fun b => usedOf b annual) (rows (leaveBalances (fst approved_))) = [21]
  /\ map (fun b => remainingOf b annual) (rows (leaveBalances (fst approved_))) = [0].
Proof. vm_compute. repeat split; reflexivity. Qed.

(** ** C7: the used counters against the allotment *)

(** C7, where the code departs from it.  The balance is checked when a
    request is made, against what has been used so far, and nothing is
    checked when a request is approved: two requests of 21 days of annual
    leave are both accepted on a fresh balance of 21, and approving both
    writes 42 days used. *)
Theorem overdrawn_by_two_approvals :
  let env := Sample.clock 660 true in
  let first := leave.approve env 1 "M1" Sample.twicePendingStore in
  let second := leave.approve env 2 "M1" (fst first) in
  map LeaveRequest.status (rows (leaveRequests Sample.twicePendingStore)) = [pending; pending]
  /\ map LeaveRequest.totalDays (rows (leaveRequests Sample.twicePendingStore)) = [21; 21]
  /\ snd first = Return tt
  /\ snd second = Return tt
  /\ map (fun b => usedOf b annual) (rows (leaveBalances (fst first))) = [21]
  /\ map (fun b => usedOf b annual) (rows (leaveBalances (fst second))) = [42]
  /\ map (fun b => allotmentOf b annual) (rows (leaveBalances (fst second))) = [21].
Proof. vm_compute. repeat split; reflexivity. Qed.

(** *** The counters never go down *)

Lemma rowGrows_refl b : rowGrows b b.
Proof. unfold rowGrows. repeat split; intros; lia. Qed.

Lemma rowGrows_trans a b c : rowGrows a b -> rowGrows b c -> rowGrows a c.
Proof.
  intros (Hi & He & Hy & Ha & Hu) (Hi' & He' & Hy' & Ha' & Hu').
  unfold rowGrows. split; [congruence |]. split; [congruence |]. split; [congruence |].
  split; intro k.
  - rewrite Ha'. apply Ha.
  - specialize (Hu k). specialize (Hu' k). lia.
Qed.

Lemma Forall2_map_self {A} (R : A -> A -> Prop) (f : A -> A) (l : list A) :
  (forall x, In x l -> R x (f x)) -> Forall2 R l (map f l).
Proof.
  induction l as [| x l IH]; intro H; cbn; constructor.
  - apply H. left. reflexivity.
  - apply IH. intros y Hy. apply H. right. exact Hy.
Qed.

Lemma Forall2_rowGrows_trans l1 l2 l3 :
  Forall2 rowGrows l1 l2 -> Forall2 rowGrows l2 l3 -> Forall2 rowGrows l1 l3.
Proof.
  intro H. revert l3. induction H as [| a b l1 l2 Hab _ IH]; intros l3 H3.
  - inversion H3. constructor.
  - inversion H3 as [| b' c l2' l3' Hbc Hrest]; subst. constructor.
    + exact (rowGrows_trans a b c Hab Hbc).
    + apply IH. exact Hrest.
Qed.

Lemma tableGrows_refl l : tableGrows l l.
Proof.
  exists l, []. split; [symmetry; apply app_nil_r |].
  rewrite <- (map_id l) at 2. apply Forall2_map_self. intros. apply rowGrows_refl.
Qed.

Lemma tableGrows_trans l1 l2 l3 : tableGrows l1 l2 -> tableGrows l2 l3 -> tableGrows l1 l3.
Proof.
  intros (m1 & e1 & -> & H1) (m2 & e2 & -> & H2).
  apply Forall2_app_inv_l in H2. destruct H2 as (m2a & m2b & Ha & Hb & ->).
  exists m2a, (m2b ++ e2)%list. split; [symmetry; apply app_assoc |].
  exact (Forall2_rowGrows_trans l1 m1 m2a H1 Ha).
Qed.

Lemma keyed_unique T x y :
  keyed T -> In x (rows T) -> In y (rows T) -> LeaveBalance.id x = LeaveBalance.id y -> x = y.
Proof.
  intros [Hnd _]. induction (rows T) as [| z l IH]; [intros [] |].
  cbn [map] in Hnd. apply NoDup_cons_iff in Hnd. destruct Hnd as [Hz Hnd].
  intros [-> | Hx] [-> | Hy] Heq.
  - reflexivity.
  - exfalso. apply Hz. rewrite Heq. apply in_map. exact Hy.
  - exfalso. apply Hz. rewrite <- Heq. apply in_map. exact Hx.
  - exact (IH Hnd Hx Hy Heq).
Qed.

Lemma getOrCreateLeaveBalance_keyed env eid st st1 b :
  keyed (leaveBalances st) ->
  db.getOrCreateLeaveBalance env eid st = (st1, Return b) ->
  In b (rows (leaveBalances st1))
  /\ keyed (leaveBalances st1)
  /\ (exists extra, rows (leaveBalances st1) = (rows (leaveBalances st) ++ extra)%list)
  /\ leaveRequests st1 = leaveRequests st.
Proof.
  intros [Hnd Hlt]. unfold db.getOrCreateLeaveBalance.
  destruct (find (db.isBalanceOf env eid) _) as [b0 |] eqn:F.
  - intros [= <- <-]. split; [apply (find_some _ _ F) |]. split; [split; assumption |].
    split; [exists []; symmetry; apply app_nil_r | reflexivity].
  - intros [= <- <-]. cbn [leaveBalances withLeaveBalances leaveRequests].
    split; [| split; [| split; [eexists; reflexivity | reflexivity]]].
    + destruct (find (fun b => LeaveBalance.id b =? _) _) as [b1 |] eqn:F1;
        [apply (find_some _ _ F1) |].
      apply in_or_app. right. left. reflexivity.
    + unfold keyed, insertRow. cbn [rows nextId]. split.
      * rewrite map_app. apply NoDup_app; [exact Hnd | repeat constructor; intros [] |].
        intros a Ha [<- | []]. apply in_map_iff in Ha. destruct Ha as (x & Hx & Hin).
        rewrite Forall_forall in Hlt. specialize (Hlt x Hin). cbn in Hx. lia.
      * apply Forall_app. split.
        -- eapply Forall_impl; [| exact Hlt]. cbv beta. intros. lia.
        -- repeat constructor. cbn. lia.
Qed.

Lemma grows_after_balance env eid st st1 :
  keyed (leaveBalances st) ->
  (leaveBalances st1 = leaveBalances st
   \/ exists b, db.getOrCreateLeaveBalance env eid st = (st1, Return b)) ->
  tableGrows (rows (leaveBalances st)) (rows (leaveBalances st1))
  /\ keyed (leaveBalances st1).
Proof.
  intros Hk [-> | (b & Hget)].
  - split; [apply tableGrows_refl | exact Hk].
  - destruct (getOrCreateLeaveBalance_keyed env eid st st1 b Hk Hget)
      as (_ & Hk1 & (extra & ->) & _).
    split; [| exact Hk1]. exists (rows (leaveBalances st)), extra.
    split; [reflexivity |]. destruct (tableGrows_refl (rows (leaveBalances st)))
      as (l1 & e & Heq & HF).
    pose proof (Forall2_length HF) as Hlen.
    assert (e = []) as ->.
    { apply (f_equal (@List.length _)) in Heq. rewrite length_app in Heq.
      destruct e; [reflexivity | cbn in Heq; lia]. }
    rewrite app_nil_r in Heq. subst l1. exact HF.
Qed.

Lemma totalDays_positive s e d : leave.totalDays s e = Some d -> 1 <= d.
Proof.
  unfold leave.totalDays.
  destruct (JS.dateTime e) as [te |], (JS.dateTime s) as [ts |]; try discriminate.
  cbn [JS.sub JS.abs JS.ceilDiv JS.add option_map]. intros [= <-].
  change (1000 * 60 * 60 * 24) with 86400000.
  assert (- Z.abs (te - ts) / 86400000 <= 0 / 86400000) by (apply Z.div_le_mono; lia).
  rewrite Z.div_0_l in H by lia. lia.
Qed.

Lemma checkBalance_components env emp k days st :
  exists st1 o,
    leave.checkBalance env emp k days st = (st1, o)
    /\ leaveRequests st1 = leaveRequests st
    /\ (leaveBalances st1 = leaveBalances st
        \/ exists b, db.getOrCreateLeaveBalance env (Employee.id emp) st = (st1, Return b)).
Proof.
  destruct (LeaveType_eq_dec k unpaid) as [-> | Hk].
  - exists st, (Return tt). auto.
  - destruct (getOrCreateLeaveBalance_returns env (Employee.id emp) st)
      as (b & st1 & Hget & Hreq & _).
    destruct (getLeaveBalance_line env _ st st1 b k Hget Hk) as (bal & line & Hbal & Hline & _).
    assert (leave.checkBalance env emp k days st
            = if JS.lt (Some (db.Balance.remaining line)) days
              then (st1, Throw InsufficientBalance) else (st1, Return tt)) as ->.
    { unfold leave.checkBalance. destruct k; [| | | congruence];
        rewrite (bind_eq _ _ _ _ _ Hbal), Hline; destruct (JS.lt _ _); reflexivity. }
    destruct (JS.lt _ _); eexists _, _; (split; [reflexivity |]); split; eauto.
Qed.

Lemma create_components env input st :
  exists st' o st1 eid,
    leave.create env input st = (st', o)
    /\ (leaveBalances st1 = leaveBalances st
        \/ exists b, db.getOrCreateLeaveBalance env eid st = (st1, Return b))
    /\ leaveBalances st' = leaveBalances st1
    /\ (leaveRequests st' = leaveRequests st
        \/ exists days,
             1 <= days
             /\ rows (leaveRequests st')
                = (rows (leaveRequests st)
                   ++ [pendingRequest eid input days (nextId (leaveRequests st))])%list).
Proof.
  destruct (find (fun e => String.eqb (Employee.employeeCode e) (leave.employeeCode input))
                 (employees st)) as [emp |] eqn:Hemp.
  - rewrite (create_found env input st emp Hemp).
    destruct (checkBalance_components env emp (leave.leaveType input)
                (leave.totalDays (leave.startDate input) (leave.endDate input)) st)
      as (st1 & o & Hcb & Hr1 & Hb1).
    destruct o as [[] | e].
    + rewrite (bind_eq _ _ _ _ _ Hcb).
      destruct (leave.totalDays (leave.startDate input) (leave.endDate input))
        as [days |] eqn:Hdays.
      * unfold db.createLeaveRequest, bind at 1. cbn [db.lr_totalDays].
        destruct (notifyRequest_returns env emp
                    (withLeaveRequests
                       (insertRow (pendingRequest (Employee.id emp) input days)
                                  (leaveRequests st1)) st1))
          as (st' & Hn & Hr' & Hb').
        change (fun id : Z => LeaveRequest.Build_t id _ _ _ _ _ _ _ _ _ _)
          with (pendingRequest (Employee.id emp) input days).
        rewrite (bind_eq _ _ _ _ _ Hn).
        eexists st', _, st1, (Employee.id emp). split; [reflexivity |].
        split; [exact Hb1 |]. split; [exact Hb' |]. right. exists days.
        split; [exact (totalDays_positive _ _ _ Hdays) |].
        rewrite Hr'. cbn. rewrite Hr1. reflexivity.
      * unfold db.createLeaveRequest, bind at 1. cbn [db.lr_totalDays].
        eexists st1, _, st1, (Employee.id emp). split; [reflexivity |].
        split; [exact Hb1 |]. split; [reflexivity |]. left. exact Hr1.
    + rewrite (bind_throws _ _ _ _ _ Hcb).
      eexists st1, _, st1, (Employee.id emp). split; [reflexivity |].
      split; [exact Hb1 |]. split; [reflexivity |]. left. exact Hr1.
  - unfold leave.create, db.getEmployeeByCode, bind, gets. rewrite Hemp.
    eexists st, _, st, 0. split; [reflexivity |]. auto.
Qed.

Lemma create_grows env input st :
  ledgerInv st ->
  tableGrows (rows (leaveBalances st)) (rows (leaveBalances (fst (leave.create env input st))))
  /\ ledgerInv (fst (leave.create env input st)).
Proof.
  intros [Hreq Hkey].
  destruct (create_components env input st) as (st' & o & st1 & eid & Hrun & Hb1 & Hb' & Hr').
  rewrite Hrun. cbn [fst].
  destruct (grows_after_balance env eid st st1 Hkey Hb1) as [Hg Hk1].
  unfold ledgerInv. rewrite Hb'. split; [exact Hg |]. split; [| exact Hk1].
  destruct Hr' as [-> | (days & Hdays & ->)]; [exact Hreq |].
  apply Forall_app. split; [exact Hreq |]. repeat constructor. exact Hdays.
Qed.

Lemma updateLeaveBalance_grows env eid k days st :
  keyed (leaveBalances st) -> 0 <= days ->
  exists st',
    db.updateLeaveBalance env eid k days st = (st', Return tt)
    /\ leaveRequests st' = leaveRequests st
    /\ tableGrows (rows (leaveBalances st)) (rows (leaveBalances st'))
    /\ keyed (leaveBalances st').
Proof.
  intros Hkey Hdays. destruct (updateLeaveBalance_effect env eid k days st) as [Hu Hp].
  destruct (LeaveType_eq_dec k unpaid) as [Hk | Hk].
  - exists st. split; [apply Hu; exact Hk |]. split; [reflexivity |].
    split; [apply tableGrows_refl | exact Hkey].
  - destruct (getOrCreateLeaveBalance_returns env eid st) as (b & st1 & Hget & _).
    destruct (getOrCreateLeaveBalance_keyed env eid st st1 b Hkey Hget)
      as (Hin & Hk1 & (extra & Hrows) & _).
    destruct (Hp Hk st st1 b eq_refl Hget) as (st' & Hrun & Hr & _ & Hb).
    exists st'. split; [exact Hrun |]. split; [exact Hr |].
    set (f := fun x => if LeaveBalance.id x =? LeaveBalance.id b
                       then db.setUsed k (usedOf b k + days) x else x) in Hb.
    assert (forall x, In x (rows (leaveBalances st1)) -> rowGrows x (f x)) as Hf.
    { intros x Hx. unfold f. destruct (Z.eqb_spec (LeaveBalance.id x) (LeaveBalance.id b)) as [E |].
      - rewrite (keyed_unique _ x b Hk1 Hx Hin E).
        destruct (setUsed_fields k (usedOf b k + days) b Hk) as (Hv & Ho & Ha & Hi & He & Hy).
        unfold rowGrows. repeat split; try assumption. intro k'.
        destruct (LeaveType_eq_dec k' k) as [-> | Hne]; [rewrite Hv; lia |].
        rewrite (Ho k' Hne). lia.
      - apply rowGrows_refl. }
    assert (forall x, LeaveBalance.id (f x) = LeaveBalance.id x) as Hid.
    { intro x. unfold f. destruct (_ =? _); [| reflexivity].
      destruct k; reflexivity. }
    split.
    + rewrite Hb, Hrows, map_app. eexists _, _. split; [reflexivity |].
      apply Forall2_map_self. intros x Hx. apply Hf. rewrite Hrows.
      apply in_or_app. left. exact Hx.
    + destruct Hk1 as [Hnd Hlt].
      assert (nextId (leaveBalances st') = nextId (leaveBalances st1)) as Hnext.
      { unfold db.updateLeaveBalance in Hrun.
        destruct k; [| | | congruence]; rewrite (bind_eq _ _ _ _ _ Hget) in Hrun;
          injection Hrun as <-; reflexivity. }
      split.
      * rewrite Hb, map_map. rewrite (map_ext _ LeaveBalance.id Hid). exact Hnd.
      * rewrite Hb, Hnext. apply Forall_map. eapply Forall_impl; [| exact Hlt].
        cbv beta. intros x Hx. rewrite Hid. exact Hx.
Qed.

Lemma decide_cases env requestId reviewerCode outcome reason st :
  fst (leave.decide env requestId reviewerCode outcome reason st) = st
  \/ exists rv req,
       find (fun e => String.eqb (Employee.employeeCode e) reviewerCode) (employees st)
         = Some rv
       /\ leave.mayReview (Some rv) = true
       /\ find (fun r => LeaveRequest.id r =? requestId) (rows (leaveRequests st)) = Some req
       /\ LeaveRequest.status req = pending.
Proof.
  destruct (find (fun e => String.eqb (Employee.employeeCode e) reviewerCode) (employees st))
    as [rv |] eqn:Hrv;
    [| left; unfold leave.decide, db.getEmployeeByCode, bind, gets; rewrite Hrv; reflexivity].
  destruct (leave.mayReview (Some rv)) eqn:Hmay;
    [| left; unfold leave.decide, db.getEmployeeByCode, bind at 1, gets; rewrite Hrv, Hmay;
       reflexivity].
  destruct (find (fun r => LeaveRequest.id r =? requestId) (rows (leaveRequests st)))
    as [req |] eqn:Hfind;
    [| left; unfold leave.decide, db.getEmployeeByCode, bind at 1, gets; rewrite Hrv, Hmay;
       cbn [negb]; unfold db.getLeaveRequestById, bind, gets; rewrite Hfind; reflexivity].
  destruct (LeaveRequest.status req) eqn:Hst;
    [right; exists rv, req; auto
    | left; unfold leave.decide, db.getEmployeeByCode, bind at 1, gets; rewrite Hrv, Hmay;
      cbn [negb]; unfold db.getLeaveRequestById, bind at 1, gets; rewrite Hfind;
      unfold leave.isPending; rewrite Hst; reflexivity ..].
Qed.

Lemma decide_grows env requestId reviewerCode outcome reason st :
  outcome <> pending ->
  ledgerInv st ->
  tableGrows (rows (leaveBalances st))
    (rows (leaveBalances (fst (leave.decide env requestId reviewerCode outcome reason st))))
  /\ ledgerInv (fst (leave.decide env requestId reviewerCode outcome reason st)).
Proof.
  intros Hout [Hreq Hkey].
  destruct (decide_cases env requestId reviewerCode outcome reason st)
    as [-> | (rv & req & Hrv & Hmay & Hfind & Hst)];
    [split; [apply tableGrows_refl | split; assumption] |].
  rewrite (decide_found env requestId reviewerCode outcome reason st rv req
             Hrv Hmay Hfind Hst).
  set (st2 := withLeaveRequests
                (updateWhere (fun r => LeaveRequest.id r =? requestId)
                   (db.setReview outcome (Employee.id rv) (now env) reason)
                   (leaveRequests st)) st).
  assert (Forall (fun r => 1 <= LeaveRequest.totalDays r) (rows (leaveRequests st2))) as Hreq2.
  { cbn [st2 leaveRequests withLeaveRequests rows updateWhere]. apply Forall_map.
    eapply Forall_impl; [| exact Hreq]. cbv beta. intros r Hr.
    destruct (_ =? _); [exact Hr | exact Hr]. }
  assert (exists st3,
            db.updateLeaveRequestStatus env requestId outcome (Employee.id rv) reason st
            = (st3, Return tt)
            /\ leaveRequests st3 = leaveRequests st2
            /\ tableGrows (rows (leaveBalances st)) (rows (leaveBalances st3))
            /\ keyed (leaveBalances st3)) as (st3 & Hrun & Hr3 & Hg3 & Hk3).
  { unfold db.updateLeaveRequestStatus, modify, bind at 1. fold st2.
    destruct outcome; [congruence | |].
    - unfold db.getLeaveRequestById, bind at 1, gets.
      cbn [st2 leaveRequests withLeaveRequests rows updateWhere].
      rewrite (find_reviewed requestId approved _ _ _ _ req Hfind).
      cbn [db.setReview LeaveRequest.employeeId LeaveRequest.leaveType LeaveRequest.totalDays].
      assert (0 <= LeaveRequest.totalDays req) as Hd.
      { rewrite Forall_forall in Hreq. specialize (Hreq req (proj1 (find_some _ _ Hfind))).
        lia. }
      exact (updateLeaveBalance_grows env _ _ _ st2 Hkey Hd).
    - exists st2. split; [reflexivity |]. split; [reflexivity |].
      split; [apply tableGrows_refl | exact Hkey]. }
  rewrite (bind_eq _ _ _ _ _ Hrun).
  destruct (notifyDecision_returns env (LeaveRequest.employeeId req) st3)
    as (st' & o & Hn & Hr' & Hb' & _).
  rewrite Hn. cbn [fst]. unfold ledgerInv. rewrite Hr', Hb', Hr3.
  split; [exact Hg3 | split; [exact Hreq2 | exact Hk3]].
Qed.

Lemma ledgerStep_grows st op :
  ledgerInv st ->
  tableGrows (rows (leaveBalances st)) (rows (leaveBalances (ledgerStep st op)))
  /\ ledgerInv (ledgerStep st op).
Proof.
  intro Hinv. destruct op as [env input | env id code | env id code reason]; cbn [ledgerStep].
  - exact (create_grows env input st Hinv).
  - exact (decide_grows env id code approved None st ltac:(discriminate) Hinv).
  - exact (decide_grows env id code rejected (Some reason) st ltac:(discriminate) Hinv).
Qed.

(** Along any run of requests, approvals and rejections from a store that
    satisfies the ledger invariant, hence from a store with no request
    and no balance row yet, every balance row stays in place with its key,
    employee, year and allotments, and none of its used counters ever
    decreases. *)
Theorem used_never_decreases (ops : list LedgerOp) (st : Store) :
  ledgerInv st ->
  tableGrows (rows (leaveBalances st)) (rows (leaveBalances (ledgerRun ops st)))
  /\ ledgerInv (ledgerRun ops st).
Proof.
  revert st. induction ops as [| op ops IH]; intros st Hinv; cbn [ledgerRun fold_left].
  - split; [apply tableGrows_refl | exact Hinv].
  - destruct (ledgerStep_grows st op Hinv) as [Hg Hinv'].
    destruct (IH (ledgerStep st op) Hinv') as [Hg' Hinv''].
    split; [exact (tableGrows_trans _ _ _ Hg Hg') | exact Hinv''].
Qed.

Lemma fresh_ledger zones : ledgerInv (Sample.store zones).
Proof. repeat constructor. Qed.

(** ** C8: when a notification cannot be stored *)

(** C8, where the code departs from it.  With the admin notification
    table refusing inserts: a check-in from another device than the
    registered one, a check-in from outside every zone and a late check-in
    all end with the database error of the notification, in place of
    DeviceUnauthorized, of OutsideWorkZone and of the check-in itself (no
    attendance row is written); with the table accepting inserts the
    first two are refused for their own reason.  [checkOutByCode]
    catches the same failures: it returns and logs them. *)
Theorem notification_failure_reaches_caller :
  let up := Sample.nextDay (8 * 60) true in
  let down := Sample.nextDay (8 * 60) false in
  snd (attendance.checkInByCode up (Sample.byCode (Some "D2")) Sample.boundStore)
    = Throw DeviceUnauthorized
  /\ snd (attendance.checkInByCode down (Sample.byCode (Some "D2")) Sample.boundStore)
     = Throw DatabaseError
  /\ snd (attendance.checkInByCode up Sample.farAway (Sample.store [Sample.office]))
     = Throw OutsideWorkZone
  /\ snd (attendance.checkInByCode down Sample.farAway (Sample.store [Sample.office]))
     = Throw DatabaseError
  /\ attendance.checkInByCode (Sample.clock (9 * 60) false) (Sample.byCode None)
       (Sample.store [])
     = (Sample.store [], Throw DatabaseError)
  /\ snd (attendance.checkOutByCode (Sample.clock (17 * 60) false) (Sample.byCode (Some "D1"))
            Sample.boundStore)
     = Return 1
  /\ consoleErrors
       (fst (attendance.checkOutByCode (Sample.clock (17 * 60) false)
               (Sample.byCode (Some "D1")) Sample.boundStore))
     = [DatabaseError; DatabaseError].
Proof. vm_compute. repeat split; reflexivity. Qed.

(** The same for every store: when the admin notification cannot be
    stored, a device mismatch reaches the caller as the database error. *)
Lemma mismatch_masked env st input emp d r :
  find (fun e => String.eqb (Employee.employeeCode e) (attendance.employeeCode input))
       (employees st) = Some emp ->
  attendance.deviceId input = Some d -> JS.truthy d = true ->
  boundTo st (Employee.id emp) = Some r -> JS.truthy r = true -> String.eqb r d = false ->
  adminSinkUp env = false ->
  attendance.checkInByCode env input st = (st, Throw DatabaseError).
Proof.
  intros Hemp Hdev Hd Hb Hr Hne Hdown.
  unfold attendance.checkInByCode, db.getEmployeeByCode, bind at 1, gets.
  rewrite Hemp, Hdev. apply bind_throws.
  unfold attendance.bindDevice. rewrite Hd.
  unfold db.checkEmployeeDevice, bind at 1, gets. unfold boundTo in Hb.
  destruct (find (fun e => Employee.id e =? Employee.id emp) (employees st)) as [e0 |];
    [| discriminate Hb].
  rewrite Hb, Hr. cbn [db.isRegistered db.isMatch negb]. rewrite Hne. cbn [negb].
  unfold bind, db.createNotification. rewrite Hdown. reflexivity.
Qed.

(** ** C9: returning from the field *)









(** The worker leaves for a task, then comes back: the task is completed
    and its key returned; coming back once more is the no-op with id 0. *)
Example leave_and_come_back :
  let env := Sample.clock 600 true in
  let out := fieldTask.createByCode env "E1" Sample.leaving (Sample.store []) in
  let back := fieldTask.createByCode env "E1" Sample.comingBack (fst out) in
  let again := fieldTask.createByCode env "E1" Sample.comingBack (fst back) in
  snd out = Return {| fieldTask.id := 1 |}
  /\ map FieldTask.status (rows (fieldTasks (fst out))) = [active]
  /\ snd back = Return {| fieldTask.id := 1 |}
  /\ map FieldTask.status (rows (fieldTasks (fst back))) = [completed]
  /\ again = (fst back, Return {| fieldTask.id := 0 |}).
Proof. vm_compute. repeat split; reflexivity. Qed.

(** ** C10: a request whose dates are the wrong way round *)

Lemma dateTime_day s t : JS.dateTime s = Some t -> exists d, t = d * 86400000.
Proof.
  unfold JS.dateTime. destruct (JS.hasDateShape s); [| discriminate].
  destruct (JS.Number (substring 0 4 s)) as [y |]; [| discriminate].
  destruct (JS.Number (substring 5 2 s)) as [m |]; [| discriminate].
  destruct (JS.Number (substring 8 2 s)) as [d |]; [| discriminate].
  destruct (_ && _); [| discriminate].
  intros [= <-]. eexists. reflexivity.
Qed.

(** The day count does not depend on the order of the two dates. *)
Lemma totalDays_days s e ds de :
  JS.dateTime s = Some (ds * 86400000) -> JS.dateTime e = Some (de * 86400000) ->
  leave.totalDays s e = Some (Z.abs (de - ds) + 1).
Proof.
  intros Hs He. unfold leave.totalDays. rewrite Hs, He.
  cbn [JS.sub JS.abs JS.ceilDiv JS.add option_map]. do 2 f_equal.
  change (1000 * 60 * 60 * 24) with 86400000.
  replace (de * 86400000 - ds * 86400000) with ((de - ds) * 86400000) by lia.
  rewrite Z.abs_mul. change (Z.abs 86400000) with 86400000.
  rewrite <- Z.mul_opp_l, Z.div_mul by lia. lia.
Qed.

(** C10.  The employee exists and both dates are dates, the end date
    strictly before the start date.  Then [totalDays] is the number of days
    from the end date to the start date plus one, at least 2, and the
    request is treated like any other: unpaid leave, or paid leave within
    what remains of the balance, is stored as a pending request with the
    dates as given. *)
Theorem reversed_dates_accepted
  (env : Env) (st : Store) (input : leave.Input) (emp : Employee.t) (tStart tEnd : Z) :
  find (fun e => String.eqb (Employee.employeeCode e) (leave.employeeCode input))
       (employees st) = Some emp ->
  JS.dateTime (leave.startDate input) = Some tStart ->
  JS.dateTime (leave.endDate input) = Some tEnd ->
  tEnd < tStart ->
  exists days,
    leave.totalDays (leave.startDate input) (leave.endDate input) = Some days
    /\ days = Z.abs (tEnd - tStart) / 86400000 + 1
    /\ 2 <= days
    /\ ((leave.leaveType input = unpaid
         \/ exists b st1,
              db.getOrCreateLeaveBalance env (Employee.id emp) st = (st1, Return b)
              /\ days <= remainingOf b (leave.leaveType input)) ->
        exists st',
          leave.create env input st = (st', Return (nextId (leaveRequests st)))
          /\ rows (leaveRequests st')
             = (rows (leaveRequests st)
                ++ [pendingRequest (Employee.id emp) input days (nextId (leaveRequests st))])%list).
Proof.
  intros Hemp Hs He Hlt.
  destruct (dateTime_day _ _ Hs) as [ds ->], (dateTime_day _ _ He) as [de ->].
  pose proof (totalDays_days _ _ ds de Hs He) as Hdays.
  exists (Z.abs (de - ds) + 1). split; [exact Hdays |]. split; [| split].
  - replace (de * 86400000 - ds * 86400000) with ((de - ds) * 86400000) by lia.
    rewrite Z.abs_mul. change (Z.abs 86400000) with 86400000.
    rewrite Z.div_mul by lia. reflexivity.
  - lia.
  - intros [Hk | (b & st1 & Hget & Hrem)].
    + destruct (create_unpaid env st input emp _ Hemp Hk Hdays) as (st' & Hrun & Hrows & _).
      exists st'. split; assumption.
    + destruct (LeaveType_eq_dec (leave.leaveType input) unpaid) as [Hk | Hk].
      * destruct (create_unpaid env st input emp _ Hemp Hk Hdays) as (st' & Hrun & Hrows & _).
        exists st'. split; assumption.
      * pose proof (checkBalance_paid env emp (leave.leaveType input)
                      (Z.abs (de - ds) + 1) st st1 b Hget Hk) as Hcheck.
        apply Z.ltb_ge in Hrem. rewrite Hrem in Hcheck.
        destruct (getOrCreateLeaveBalance_returns env (Employee.id emp) st)
          as (b' & st1' & Hget' & Hreq & _).
        rewrite Hget in Hget'. injection Hget' as <- <-.
        destruct (create_after_check env st st1 input emp _ Hemp Hdays Hcheck Hreq)
          as (st' & Hrun & Hrows & _).
        exists st'. split; assumption.
Qed.

Lemma reversed_dates_accepted_witness :
  exists days,
    leave.totalDays "2024-03-15" "2024-03-11" = Some days
    /\ days = Z.abs (1710115200000 - 1710460800000) / 86400000 + 1
    /\ 2 <= days
    /\ ((annual = unpaid
         \/ exists b st1,
              db.getOrCreateLeaveBalance (Sample.clock 600 true) 1 (Sample.store [])
              = (st1, Return b)
              /\ days <= remainingOf b annual) ->
        exists st',
          leave.create (Sample.clock 600 true) (Sample.backwards annual) (Sample.store [])
          = (st', Return 1)
          /\ rows (leaveRequests st')
             = ([] ++ [pendingRequest 1 (Sample.backwards annual) days 1])%list).
Proof.
  refine (reversed_dates_accepted (Sample.clock 600 true) (Sample.store [])
            (Sample.backwards annual) Sample.worker 1710460800000 1710115200000 _ _ _ _).
  - reflexivity.
  - vm_compute. reflexivity.
  - vm_compute. reflexivity.
  - lia.
Defined.

(** From 15 March back to 11 March: five days, stored as a pending
    request with the dates as given. *)
Example backwards_request :
  let made := leave.create (Sample.clock 600 true) (Sample.backwards annual)
                (Sample.store []) in
  leave.totalDays "2024-03-15" "2024-03-11" = Some 5
  /\ snd made = Return 1
  /\ rows (leaveRequests (fst made)) = [pendingRequest 1 (Sample.backwards annual) 5 1].
Proof. vm_compute. repeat split; reflexivity. Qed.

(** * Further properties *)

(** ** Parts of the store a handler leaves alone *)

Lemma preserves_bind {X A B} (proj : Store -> X) (h : Handler A) (k : A -> Handler B) :
  preserves proj h -> (forall a, preserves proj (k a)) -> preserves proj (bind h k).
Proof.
  intros Hh Hk st st' o H. unfold bind in H.
  destruct (h st) as [st1 [a | e]] eqn:E.
  - rewrite (Hk a _ _ _ H). exact (Hh _ _ _ E).
  - injection H as <- <-. exact (Hh _ _ _ E).
Qed.

Lemma preserves_ret {X A} (proj : Store -> X) (a : A) : preserves proj (ret a).
Proof. intros st st' o [= <- <-]. reflexivity. Qed.

Lemma preserves_throw {X A} (proj : Store -> X) (e : Error) : preserves proj (@throw A e).
Proof. intros st st' o [= <- <-]. reflexivity. Qed.

Lemma preserves_gets {X A} (proj : Store -> X) (f : Store -> A) : preserves proj (gets f).
Proof. intros st st' o [= <- <-]. reflexivity. Qed.

Lemma preserves_modify {X} (proj : Store -> X) (f : Store -> Store) :
  (forall st, proj (f st) = proj st) -> preserves proj (modify f).
Proof. intros Hf st st' o [= <- <-]. apply Hf. Qed.

Lemma preserves_catchLog {X A} (proj : Store -> X) (h : Handler A) :
  (forall v st, proj (withConsoleErrors v st) = proj st) ->
  preserves proj h -> preserves proj (catchLog h).
Proof.
  intros Hc Hh st st' o H. unfold catchLog in H.
  destruct (h st) as [st1 [a | e]] eqn:E; injection H as <- <-.
  - exact (Hh _ _ _ E).
  - rewrite Hc. exact (Hh _ _ _ E).
Qed.

Lemma preserves_createNotification {X} (proj : Store -> X) env type eid :
  (forall v st, proj (withAdminNotifications v st) = proj st) ->
  preserves proj (db.createNotification env type eid).
Proof.
  intros Hc st st' o H. unfold db.createNotification in H.
  destruct (adminSinkUp env); injection H as <- <-; [apply Hc | reflexivity].
Qed.

Lemma preserves_createBranchNotification {X} (proj : Store -> X) env b type eid :
  (forall v st, proj (withBranchNotifications v st) = proj st) ->
  preserves proj (db.createBranchNotification env b type eid).
Proof.
  intros Hc st st' o H. unfold db.createBranchNotification in H.
  destruct (branchSinkUp env); injection H as <- <-; [apply Hc | reflexivity].
Qed.

Lemma preserves_createAttendanceRecord {X} (proj : Store -> X) mk :
  (forall v st, proj (withAttendanceRecords v st) = proj st) ->
  preserves proj (db.createAttendanceRecord mk).
Proof. intros Hc st st' o [= <- <-]. apply Hc. Qed.

Lemma preserves_createAttendanceModification {X} (proj : Store -> X) mk :
  (forall v st, proj (withAttendanceModifications v st) = proj st) ->
  preserves proj (db.createAttendanceModification mk).
Proof. intros Hc st st' o [= <- <-]. apply Hc. Qed.

Lemma preserves_createFieldTask {X} (proj : Store -> X) env data :
  (forall v st, proj (withFieldTasks v st) = proj st) ->
  preserves proj (db.createFieldTask env data).
Proof. intros Hc st st' o [= <- <-]. apply Hc. Qed.

Lemma preserves_createLeaveRequest {X} (proj : Store -> X) data :
  (forall v st, proj (withLeaveRequests v st) = proj st) ->
  preserves proj (db.createLeaveRequest data).
Proof.
  intros Hc st st' o H. unfold db.createLeaveRequest in H.
  destruct (db.lr_totalDays data); injection H as <- <-; [apply Hc | reflexivity].
Qed.

Lemma preserves_getOrCreateLeaveBalance {X} (proj : Store -> X) env eid :
  (forall v st, proj (withLeaveBalances v st) = proj st) ->
  preserves proj (db.getOrCreateLeaveBalance env eid).
Proof.
  intros Hc st st' o H. unfold db.getOrCreateLeaveBalance in H.
  destruct (find _ _); injection H as <- <-; [reflexivity | apply Hc].
Qed.

Ltac frame :=
  cbv zeta;
  repeat first
    [ apply preserves_ret
    | apply preserves_throw
    | apply preserves_gets
    | apply preserves_bind; [| intro]
    | apply preserves_modify; intro; reflexivity
    | apply preserves_catchLog; [intros; reflexivity |]
    | apply preserves_createNotification; intros; reflexivity
    | apply preserves_createBranchNotification; intros; reflexivity
    | apply preserves_createAttendanceRecord; intros; reflexivity
    | apply preserves_createAttendanceModification; intros; reflexivity
    | apply preserves_createFieldTask; intros; reflexivity
    | apply preserves_createLeaveRequest; intros; reflexivity
    | apply preserves_getOrCreateLeaveBalance; intros; reflexivity
    | match goal with
      | |- preserves _ (match ?x with _ => _ end) => destruct x
      end ].

Ltac unfold_db :=
  unfold db.getEmployeeByCode, db.getEmployeeByUserId, db.getEmployeeById,
    db.getTodayAttendance, db.getWorkSettings, db.getActiveWorkZones,
    db.isLocationInWorkZone, db.checkEmployeeDevice, db.registerEmployeeDevice,
    db.resetEmployeeDevice, db.clearEmployeeDevice,
    db.updateAttendanceRecord, db.notifyLateArrival, db.notifyOutsideZone,
    db.notifyEarlyCheckout, db.getActiveFieldTask, db.completeFieldTask,
    db.getLeaveRequestById, db.getLeaveBalance, db.updateLeaveRequestStatus,
    db.updateLeaveBalance, db.addManualAttendance.

Lemma att_bindDevice env emp d : preserves attendanceRecords (attendance.bindDevice env emp d).
Proof. unfold attendance.bindDevice. unfold_db. frame. Qed.

Lemma att_verifyDevice env emp d : preserves attendanceRecords (attendance.verifyDevice env emp d).
Proof. unfold attendance.verifyDevice. unfold_db. frame. Qed.

Lemma att_verifyBiometric emp m : preserves attendanceRecords (attendance.verifyBiometric emp m).
Proof. unfold attendance.verifyBiometric. frame. Qed.

Lemma att_geofenceGate env eid lat lon :
  preserves attendanceRecords (attendance.geofenceGate env eid lat lon).
Proof. unfold attendance.geofenceGate. unfold_db. frame. Qed.

Lemma att_determineStatus env eid :
  preserves attendanceRecords (attendance.determineStatus env eid).
Proof. unfold attendance.determineStatus. unfold_db. frame. Qed.

Lemma preserves_fst {X A} (proj : Store -> X) (h : Handler A) :
  preserves proj h -> forall st, proj (fst (h st)) = proj st.
Proof. intros H st. destruct (h st) as [st' o] eqn:E. exact (H _ _ _ E). Qed.

Ltac unfold_routers :=
  unfold attendance.checkInByCode, attendance.checkOutByCode, attendance.checkIn,
    attendance.checkOut, attendance.bindDevice, attendance.verifyDevice,
    attendance.verifyBiometric, attendance.geofenceGate, attendance.determineStatus,
    attendance.persistCheckIn, employees_router.resetDevice,
    fieldTask.create, fieldTask.createByCode, fieldTask.returnFromField,
    fieldTask.notifyDeparture, attendanceManagement.addManual, leave.create,
    leave.checkBalance, leave.notifyRequest, leave.approve, leave.reject,
    leave.decide, leave.notifyDecision.

Ltac framed := intros; apply preserves_fst; unfold_routers; unfold_db; frame.

(** ** A check-in and the day's record *)

Lemma find_app {A} (p : A -> bool) (l l' : list A) :
  find p (l ++ l') = match find p l with Some x => Some x | None => find p l' end.
Proof. induction l as [| x l IH]; cbn; [reflexivity |]. destruct (p x); [reflexivity | exact IH]. Qed.

Lemma persistCheckIn_today env env' eid lat lon m s st st' r :
  today env' = today env ->
  attendance.persistCheckIn env eid (todaysRecord env eid st) lat lon m s st = (st', Return r) ->
  exists rec,
    todaysRecord env' eid st' = Some rec
    /\ AttendanceRecord.id rec = attendance.recordId r
    /\ AttendanceRecord.checkInTime rec = Some (now env)
    /\ AttendanceRecord.status rec = attendance.status r
    /\ employees st' = employees st.
Proof.
  intros Hday H. unfold attendance.persistCheckIn in H.
  destruct (todaysRecord env eid st) as [ex |] eqn:Eex.
  - unfold db.updateAttendanceRecord, bind, modify, ret in H. injection H as <- <-.
    exists (attendance.checkInData env lat lon m s ex).
    unfold todaysRecord in *. rewrite Hday. cbn [attendanceRecords withAttendanceRecords rows updateWhere].
    rewrite find_map_stable.
    + rewrite Eex. cbn. rewrite Z.eqb_refl. repeat split; reflexivity.
    + intro x. cbv beta. destruct (AttendanceRecord.id x =? AttendanceRecord.id ex); reflexivity.
  - unfold db.createAttendanceRecord, bind, ret in H. injection H as <- <-.
    exists (attendance.newRecord env eid lat lon m s (nextId (attendanceRecords st))).
    unfold todaysRecord in *. rewrite Hday.
    cbn [attendanceRecords withAttendanceRecords rows insertRow].
    rewrite find_app, Eex. cbn. rewrite Z.eqb_refl, String.eqb_refl. cbn.
    repeat split; reflexivity.
Qed.

Lemma emp_geofenceGate env eid lat lon :
  preserves employees (attendance.geofenceGate env eid lat lon).
Proof. unfold attendance.geofenceGate. unfold_db. frame. Qed.

Lemma emp_determineStatus env eid :
  preserves employees (attendance.determineStatus env eid).
Proof. unfold attendance.determineStatus. unfold_db. frame. Qed.

Lemma checkIn_tail_today env env' eid lat lon m st st' r :
  today env' = today env ->
  (existing <- db.getTodayAttendance env eid ;;
   if attendance.checkedIn existing then throw AlreadyCheckedIn
   else
     attendance.geofenceGate env eid lat lon ;;;
     status <- attendance.determineStatus env eid ;;
     attendance.persistCheckIn env eid existing lat lon m status) st = (st', Return r) ->
  exists rec,
    todaysRecord env' eid st' = Some rec
    /\ AttendanceRecord.id rec = attendance.recordId r
    /\ AttendanceRecord.checkInTime rec = Some (now env)
    /\ AttendanceRecord.status rec = attendance.status r
    /\ employees st' = employees st.
Proof.
  intros Hday H.
  rewrite (bind_eq _ _ _ _ _ (getTodayAttendance_eq env eid st)) in H.
  fold (todaysRecord env eid st) in H.
  destruct (attendance.checkedIn (todaysRecord env eid st)); [discriminate H |].
  apply bind_Return in H. destruct H as (u & s1 & E & H).
  apply geofenceGate_Return in E. subst s1.
  apply bind_Return in H. destruct H as (status & s2 & E & H).
  assert (Ha := att_determineStatus env eid _ _ _ E).
  assert (He := emp_determineStatus env eid _ _ _ E).
  assert (Ht : todaysRecord env eid st = todaysRecord env eid s2).
  { unfold todaysRecord. rewrite Ha. reflexivity. }
  rewrite Ht in H.
  destruct (persistCheckIn_today env env' eid lat lon m status s2 st' r Hday H)
    as (rec & H1 & H2 & H3 & H4 & H5).
  exists rec. repeat split; try assumption. congruence.
Qed.

Lemma find_code_setDevice code eid device at_ (l : list Employee.t) emp :
  find (fun e => String.eqb (Employee.employeeCode e) code) l = Some emp ->
  exists emp',
    find (fun e => String.eqb (Employee.employeeCode e) code)
         (map (fun e => if Employee.id e =? eid then db.setDevice device at_ e else e) l)
    = Some emp'
    /\ Employee.id emp' = Employee.id emp.
Proof.
  intro H. rewrite find_map_stable.
  - rewrite H. cbn. eexists. split; [reflexivity |].
    destruct (Employee.id emp =? eid); reflexivity.
  - intro x. cbv beta. destruct (Employee.id x =? eid); reflexivity.
Qed.

Lemma bindDevice_keeps_code env emp0 device code emp st st' u :
  attendance.bindDevice env emp0 device st = (st', Return u) ->
  find (fun e => String.eqb (Employee.employeeCode e) code) (employees st) = Some emp ->
  exists emp',
    find (fun e => String.eqb (Employee.employeeCode e) code) (employees st') = Some emp'
    /\ Employee.id emp' = Employee.id emp.
Proof.
  intros H Hf. unfold attendance.bindDevice in H.
  destruct device as [d |]; [| injection H as <- _; eauto].
  destruct (JS.truthy d); [| injection H as <- _; eauto].
  unfold bind in H. cbn [db.checkEmployeeDevice gets] in H.
  match type of H with
  | context [negb (db.isRegistered ?c)] => destruct (db.isRegistered c), (db.isMatch c)
  end; cbn in H.
  - injection H as <- _; eauto.
  - destruct (db.createNotification env _ _ st) as [s1 [a | e]]; discriminate H.
  - injection H as <- _. cbn [employees withEmployees]. apply find_code_setDevice. exact Hf.
  - injection H as <- _. cbn [employees withEmployees]. apply find_code_setDevice. exact Hf.
Qed.

(** X1.  After a check-in that goes through, the query for today's
    attendance made on the same day returns the row the check-in reported:
    its key is the returned [recordId], its check-in time the time of the
    call and its status the returned status.  This holds for
    [checkInByCode] with [todayByCode] and for [checkIn] with [today]. *)
Theorem checkIn_then_today
  (env env' : Env) (st st' : Store) (r : attendance.Result) :
  today env' = today env ->
  (forall input,
     attendance.checkInByCode env input st = (st', Return r) ->
     exists rec,
       attendance.todayByCode env' (attendance.employeeCode input) st'
       = (st', Return (Some rec))
       /\ AttendanceRecord.id rec = attendance.recordId r
       /\ AttendanceRecord.checkInTime rec = Some (now env)
       /\ AttendanceRecord.status rec = attendance.status r)
  /\ (forall ctx input,
        attendance.checkIn env ctx input st = (st', Return r) ->
        exists rec,
          attendance.today env' ctx st' = (st', Return (Some rec))
          /\ AttendanceRecord.id rec = attendance.recordId r
          /\ AttendanceRecord.checkInTime rec = Some (now env)
          /\ AttendanceRecord.status rec = attendance.status r).
Proof.
  intro Hday. split.
  - intros input H. unfold attendance.checkInByCode in H.
    unfold bind at 1 in H. cbn [db.getEmployeeByCode gets] in H.
    destruct (find _ (employees st)) as [emp |] eqn:Ef; [| discriminate H].
    apply bind_Return in H. destruct H as (u & s1 & Eb & H).
    destruct (bindDevice_keeps_code _ _ _ _ _ _ _ _ Eb Ef) as (emp' & Ef' & Hid).
    destruct (checkIn_tail_today _ env' _ _ _ _ _ _ _ Hday H)
      as (rec & H1 & H2 & H3 & H4 & H5).
    exists rec. repeat split; try assumption.
    unfold attendance.todayByCode, bind. cbn [db.getEmployeeByCode gets].
    rewrite H5, Ef', Hid. rewrite getTodayAttendance_eq. fold (todaysRecord env' (Employee.id emp) st').
    rewrite H1. reflexivity.
  - intros ctx input H. unfold attendance.checkIn in H.
    unfold bind at 1 in H. cbn [db.getEmployeeByUserId gets] in H.
    destruct (find _ (employees st)) as [emp |] eqn:Ef; [| discriminate H].
    apply bind_Return in H. destruct H as (u & s1 & Eb & H).
    apply verifyBiometric_Return in Eb. subst s1.
    destruct (checkIn_tail_today _ env' _ _ _ _ _ _ _ Hday H)
      as (rec & H1 & H2 & H3 & H4 & H5).
    exists rec. repeat split; try assumption.
    unfold attendance.today, bind. cbn [db.getEmployeeByUserId gets].
    rewrite H5, Ef. rewrite getTodayAttendance_eq. fold (todaysRecord env' (Employee.id emp) st').
    rewrite H1. reflexivity.
Qed.

Lemma checkIn_then_today_witness :
  exists rec,
    attendance.todayByCode (Sample.clock 600 true) "E1" Sample.boundStore
    = (Sample.boundStore, Return (Some rec))
    /\ AttendanceRecord.id rec = 1
    /\ AttendanceRecord.checkInTime rec = Some (now (Sample.clock 480 true))
    /\ AttendanceRecord.status rec = AttendanceRecord.present.
Proof.
  refine (proj1 (checkIn_then_today (Sample.clock 480 true) (Sample.clock 600 true)
                   (Sample.store []) Sample.boundStore
                   {| attendance.status := AttendanceRecord.present;
                      attendance.recordId := 1 |} eq_refl)
                (Sample.byCode (Some "D1")) _).
  vm_compute. reflexivity.
Defined.

Lemma boundTo_again env emp d st :
  boundTo st (Employee.id emp) = Some d -> JS.truthy d = true ->
  attendance.bindDevice env emp (Some d) st = (st, Return tt).
Proof.
  intros Hb Ht. unfold attendance.bindDevice. rewrite Ht.
  unfold bind. cbn [db.checkEmployeeDevice gets]. unfold boundTo in Hb.
  destruct (find (fun e => Employee.id e =? Employee.id emp) (employees st)) as [e0 |];
    [| discriminate Hb].
  rewrite Hb, Ht. cbn. rewrite String.eqb_refl. reflexivity.
Qed.

Lemma bindDevice_binds env emp d st st' u :
  (exists e, find (fun e => Employee.id e =? Employee.id emp) (employees st) = Some e) ->
  JS.truthy d = true ->
  attendance.bindDevice env emp (Some d) st = (st', Return u) ->
  boundTo st' (Employee.id emp) = Some d.
Proof.
  intros Hex Ht H. unfold attendance.bindDevice in H. rewrite Ht in H.
  unfold bind in H. cbn [db.checkEmployeeDevice gets] in H.
  destruct Hex as [e0 He0]. unfold boundTo at 1.
  rewrite He0 in H.
  destruct (Employee.registeredDeviceId e0) as [r |] eqn:Er.
  - destruct (JS.truthy r) eqn:Etr; cbn in H.
    + destruct (String.eqb r d) eqn:Erd; cbn in H.
      * injection H as <- _. rewrite He0, Er. apply String.eqb_eq in Erd. congruence.
      * destruct (db.createNotification env _ _ st) as [s1 [a | e]]; discriminate H.
    + injection H as <- _. apply boundTo_setDevice. eauto.
  - cbn in H. injection H as <- _. apply boundTo_setDevice. eauto.
Qed.

Lemma find_code_id code (l : list Employee.t) emp :
  find (fun e => String.eqb (Employee.employeeCode e) code) l = Some emp ->
  exists e, find (fun e => Employee.id e =? Employee.id emp) l = Some e.
Proof.
  intro H. apply find_some in H. destruct H as [Hin _].
  apply (find_is_some _ _ emp Hin). apply Z.eqb_refl.
Qed.

(** X2.  After a check-in that goes through, no further check-in of the
    same employee is accepted that day.  [checkIn] ends with
    AlreadyCheckedIn, or with the refusal of a biometric method that is not
    enrolled, and leaves the store as it is.  [checkInByCode] ends with an
    error and leaves the attendance table as it is; when the same device
    is presented the error is AlreadyCheckedIn and the store is as it
    was. *)
Theorem second_checkIn_refused
  (env env' : Env) (st st' : Store) (r : attendance.Result) :
  today env' = today env ->
  (forall ctx input input',
     attendance.checkIn env ctx input st = (st', Return r) ->
     exists e,
       attendance.checkIn env' ctx input' st' = (st', Throw e)
       /\ (e = AlreadyCheckedIn \/ e = BiometricNotEnrolled))
  /\ (forall input input',
        attendance.employeeCode input' = attendance.employeeCode input ->
        attendance.checkInByCode env input st = (st', Return r) ->
        exists st'' e,
          attendance.checkInByCode env' input' st' = (st'', Throw e)
          /\ attendanceRecords st'' = attendanceRecords st'
          /\ (attendance.deviceId input' = attendance.deviceId input ->
              st'' = st' /\ e = AlreadyCheckedIn)).
Proof.
  intro Hday. split.
  - intros ctx input input' H. unfold attendance.checkIn in H.
    unfold bind at 1 in H. cbn [db.getEmployeeByUserId gets] in H.
    destruct (find _ (employees st)) as [emp |] eqn:Ef; [| discriminate H].
    apply bind_Return in H. destruct H as (u & s1 & Eb & H).
    apply verifyBiometric_Return in Eb. subst s1.
    destruct (checkIn_tail_today _ env' _ _ _ _ _ _ _ Hday H)
      as (rec & H1 & H2 & H3 & H4 & H5).
    unfold attendance.checkIn. unfold bind at 1. cbn [db.getEmployeeByUserId gets].
    rewrite H5, Ef.
    destruct (attendance.verifyBiometric emp (attendance.in_method input') st')
      as [s1 [[] | e]] eqn:Ev.
    + assert (s1 = st') by (exact (verifyBiometric_Return _ _ _ _ _ Ev)). subst s1.
      exists AlreadyCheckedIn. split; [| left; reflexivity].
      rewrite (bind_eq _ _ _ _ _ Ev).
      rewrite (bind_eq _ _ _ _ _ (getTodayAttendance_eq env' _ st')).
      fold (todaysRecord env' (Employee.id emp) st'). rewrite H1.
      cbn [attendance.checkedIn]. rewrite H3. reflexivity.
    + exists e. rewrite (bind_throws _ _ _ _ _ Ev).
      unfold attendance.verifyBiometric in Ev.
      destruct (attendance.in_method input');
        repeat match type of Ev with
               | context [if ?c then _ else _] => destruct c
               end; try discriminate Ev; injection Ev as <- <-; auto.
  - intros input input' Hcode H. unfold attendance.checkInByCode in H.
    unfold bind at 1 in H. cbn [db.getEmployeeByCode gets] in H.
    destruct (find _ (employees st)) as [emp |] eqn:Ef; [| discriminate H].
    apply bind_Return in H. destruct H as (u & s1 & Eb & H).
    destruct (bindDevice_keeps_code _ _ _ _ _ _ _ _ Eb Ef) as (emp' & Ef' & Hid).
    destruct (checkIn_tail_today _ env' _ _ _ _ _ _ _ Hday H)
      as (rec & H1 & H2 & H3 & H4 & H5).
    unfold attendance.checkInByCode. unfold bind at 1. cbn [db.getEmployeeByCode gets].
    rewrite Hcode, H5, Ef'.
    assert (Htail : forall s,
              attendanceRecords s = attendanceRecords st' ->
              (existing <- db.getTodayAttendance env' (Employee.id emp') ;;
               if attendance.checkedIn existing then throw AlreadyCheckedIn
               else
                 attendance.geofenceGate env' (Employee.id emp')
                   (attendance.latitude input') (attendance.longitude input') ;;;
                 status <- attendance.determineStatus env' (Employee.id emp') ;;
                 attendance.persistCheckIn env' (Employee.id emp') existing
                   (attendance.latitude input') (attendance.longitude input')
                   (attendance.method input') status) s
              = (s, Throw AlreadyCheckedIn)).
    { intros s Hs.
      rewrite (bind_eq _ _ _ _ _ (getTodayAttendance_eq env' _ s)).
      rewrite Hs, Hid. fold (todaysRecord env' (Employee.id emp) st'). rewrite H1.
      cbn [attendance.checkedIn]. rewrite H3. reflexivity. }
    destruct (attendance.bindDevice env' emp' (attendance.deviceId input') st')
      as [s2 [[] | e]] eqn:Ev.
    + assert (Ha := att_bindDevice _ _ _ _ _ _ Ev).
      exists s2, AlreadyCheckedIn. rewrite (bind_eq _ _ _ _ _ Ev).
      split; [apply Htail; exact Ha |]. split; [exact Ha |].
      intro Hdev. split; [| reflexivity].
      rewrite Hdev in Ev.
      destruct (attendance.deviceId input) as [d |] eqn:Ed;
        [| unfold attendance.bindDevice, ret in Ev; congruence].
      destruct (JS.truthy d) eqn:Etd;
        [| unfold attendance.bindDevice, ret in Ev; rewrite Etd in Ev; congruence].
      assert (Hb : boundTo st' (Employee.id emp') = Some d).
      { unfold boundTo. rewrite H5, Hid. fold (boundTo s1 (Employee.id emp)).
        apply (bindDevice_binds env emp d st s1 u); [| exact Etd | exact Eb].
        apply (find_code_id _ _ _ Ef). }
      rewrite (boundTo_again env' emp' d st' Hb Etd) in Ev. congruence.
    + exists s2, e. rewrite (bind_throws _ _ _ _ _ Ev).
      assert (Ha := att_bindDevice _ _ _ _ _ _ Ev).
      split; [reflexivity |]. split; [exact Ha |].
      intro Hdev. exfalso. rewrite Hdev in Ev.
      destruct (attendance.deviceId input) as [d |] eqn:Ed;
        [| unfold attendance.bindDevice, ret in Ev; discriminate Ev].
      destruct (JS.truthy d) eqn:Etd;
        [| unfold attendance.bindDevice, ret in Ev; rewrite Etd in Ev; discriminate Ev].
      assert (Hb : boundTo st' (Employee.id emp') = Some d).
      { unfold boundTo. rewrite H5, Hid. fold (boundTo s1 (Employee.id emp)).
        apply (bindDevice_binds env emp d st s1 u); [| exact Etd | exact Eb].
        apply (find_code_id _ _ _ Ef). }
      rewrite (boundTo_again env' emp' d st' Hb Etd) in Ev. discriminate Ev.
Qed.

Lemma second_checkIn_refused_witness :
  exists st'' e,
    attendance.checkInByCode (Sample.clock 600 true) (Sample.byCode (Some "D1"))
      Sample.boundStore = (st'', Throw e)
    /\ attendanceRecords st'' = attendanceRecords Sample.boundStore
    /\ (attendance.deviceId (Sample.byCode (Some "D1"))
        = attendance.deviceId (Sample.byCode (Some "D1")) ->
        st'' = Sample.boundStore /\ e = AlreadyCheckedIn).
Proof.
  refine (proj2 (second_checkIn_refused (Sample.clock 480 true) (Sample.clock 600 true)
                   (Sample.store []) Sample.boundStore
                   {| attendance.status := AttendanceRecord.present;
                      attendance.recordId := 1 |} eq_refl)
                (Sample.byCode (Some "D1")) (Sample.byCode (Some "D1")) eq_refl _).
  vm_compute. reflexivity.
Defined.

(** ** Calls that are refused *)

Lemma throw_after {X A B} (proj : Store -> X) (h : Handler A) (k : A -> Handler B) :
  preserves proj h ->
  (forall a st st' e, k a st = (st', Throw e) -> proj st' = proj st) ->
  forall st st' e, bind h k st = (st', Throw e) -> proj st' = proj st.
Proof.
  intros Hh Hk st st' e H. apply bind_Throw in H. destruct H as [H | (a & s1 & E & H)].
  - exact (Hh _ _ _ H).
  - rewrite (Hk _ _ _ _ H). exact (Hh _ _ _ E).
Qed.

Lemma persistCheckIn_returns env eid existing lat lon m s st :
  exists st' r, attendance.persistCheckIn env eid existing lat lon m s st = (st', Return r).
Proof. unfold attendance.persistCheckIn. destruct existing; eexists; eexists; reflexivity. Qed.

Lemma checkIn_tail_refused env eid lat lon m st st' e :
  (existing <- db.getTodayAttendance env eid ;;
   if attendance.checkedIn existing then throw AlreadyCheckedIn
   else
     attendance.geofenceGate env eid lat lon ;;;
     status <- attendance.determineStatus env eid ;;
     attendance.persistCheckIn env eid existing lat lon m status) st = (st', Throw e) ->
  attendanceRecords st' = attendanceRecords st.
Proof.
  revert st st' e. apply throw_after; [unfold_db; frame |].
  intros existing st st' e H.
  destruct (attendance.checkedIn existing); [injection H as <- _; reflexivity |].
  revert st st' e H. apply throw_after; [apply att_geofenceGate |].
  intros _. apply throw_after; [apply att_determineStatus |].
  intros s st st' e H.
  destruct (persistCheckIn_returns env eid existing lat lon m s st) as (s1 & r & E).
  congruence.
Qed.

Lemma catchLog_returns {A} (h : Handler A) st :
  exists st', catchLog h st = (st', Return tt).
Proof. unfold catchLog. destruct (h st) as [s1 [a | e]]; eexists; reflexivity. Qed.

Lemma checkOutByCode_notices env emp (id : Z) st :
  exists st',
    (match Employee.branchId emp with
     | Some branchId =>
         when (truthyId (Some branchId)) do
           catchLog (db.createBranchNotification env branchId
                       BranchNotification.employee_check_out
                       (Some (Employee.id emp)))
     | None => ret tt
     end ;;;
     catchLog (db.createNotification env AdminNotification.early_checkout
                 (Some (Employee.id emp))) ;;;
     ret id) st = (st', Return id)
    /\ attendanceRecords st' = attendanceRecords st
    /\ employees st' = employees st.
Proof.
  match goal with
  | |- exists st', ?h st = _ /\ _ =>
      assert (Ha : preserves attendanceRecords h) by frame;
      assert (He : preserves employees h) by frame;
      destruct (h st) as [s1 o] eqn:E
  end.
  exists s1. split; [| split; [exact (Ha _ _ _ E) | exact (He _ _ _ E)]].
  f_equal.
  assert (H1 : exists s, (match Employee.branchId emp with
     | Some branchId =>
         when (truthyId (Some branchId)) do
           catchLog (db.createBranchNotification env branchId
                       BranchNotification.employee_check_out
                       (Some (Employee.id emp)))
     | None => ret tt
     end) st = (s, Return tt)).
  { destruct (Employee.branchId emp) as [b |]; [| eexists; reflexivity].
    destruct (truthyId (Some b)); [apply catchLog_returns | eexists; reflexivity]. }
  destruct H1 as [s H1]. rewrite (bind_eq _ _ _ _ _ H1) in E.
  destruct (catchLog_returns
              (db.createNotification env AdminNotification.early_checkout
                 (Some (Employee.id emp))) s) as [s' H2].
  rewrite (bind_eq _ _ _ _ _ H2) in E. injection E as _ <-. reflexivity.
Qed.

(** X3.  A check-in or a check-out that ends with an error, whatever the
    error, has written nothing to the attendance table. *)
Theorem refused_call_writes_no_attendance (env : Env) (st st' : Store) (e : Error) :
  (forall input,
     attendance.checkInByCode env input st = (st', Throw e) ->
     attendanceRecords st' = attendanceRecords st)
  /\ (forall ctx input,
        attendance.checkIn env ctx input st = (st', Throw e) ->
        attendanceRecords st' = attendanceRecords st)
  /\ (forall input,
        attendance.checkOutByCode env input st = (st', Throw e) ->
        attendanceRecords st' = attendanceRecords st)
  /\ (forall ctx input,
        attendance.checkOut env ctx input st = (st', Throw e) ->
        attendanceRecords st' = attendanceRecords st).
Proof.
  repeat split.
  - intro input. revert st st' e. unfold attendance.checkInByCode.
    apply throw_after; [unfold_db; frame |].
    intros [emp |] st st' e H; [| injection H as <- _; reflexivity].
    revert st st' e H. apply throw_after; [apply att_bindDevice |].
    intros _ st st' e. apply checkIn_tail_refused.
  - intros ctx input. revert st st' e. unfold attendance.checkIn.
    apply throw_after; [unfold_db; frame |].
    intros [emp |] st st' e H; [| injection H as <- _; reflexivity].
    revert st st' e H. apply throw_after; [apply att_verifyBiometric |].
    intros _ st st' e. apply checkIn_tail_refused.
  - intro input. revert st st' e. unfold attendance.checkOutByCode.
    apply throw_after; [unfold_db; frame |].
    intros [emp |] st st' e H; [| injection H as <- _; reflexivity].
    revert st st' e H. apply throw_after; [apply att_verifyDevice |].
    intros _. apply throw_after; [unfold_db; frame |].
    intros [ex |] st st' e H; [| injection H as <- _; reflexivity].
    destruct (negb (isSome (AttendanceRecord.checkInTime ex)));
      [injection H as <- _; reflexivity |].
    destruct (isSome (AttendanceRecord.checkOutTime ex));
      [injection H as <- _; reflexivity |].
    exfalso. unfold bind at 1 in H. cbn [db.updateAttendanceRecord modify] in H.
    match type of H with
    | _ ?s = _ => destruct (checkOutByCode_notices env emp (AttendanceRecord.id ex) s)
                    as (s' & E & _)
    end.
    rewrite E in H. discriminate H.
  - intros ctx input. revert st st' e. unfold attendance.checkOut.
    apply throw_after; [unfold_db; frame |].
    intros [emp |] st st' e H; [| injection H as <- _; reflexivity].
    revert st st' e H. apply throw_after; [apply att_verifyBiometric |].
    intros _. apply throw_after; [unfold_db; frame |].
    intros [ex |] st st' e H; [| injection H as <- _; reflexivity].
    destruct (isSome (AttendanceRecord.checkOutTime ex));
      [injection H as <- _; reflexivity |].
    revert st st' e H. apply throw_after; [unfold_db; frame |].
    intros ws. apply throw_after; [unfold_db; frame |].
    intros _ st st' e H. discriminate H.
Qed.

Lemma refused_call_writes_no_attendance_witness :
  attendanceRecords
    (fst (attendance.checkInByCode (Sample.nextDay 480 false) (Sample.byCode (Some "D2"))
            Sample.boundStore))
  = attendanceRecords Sample.boundStore.
Proof.
  refine (proj1 (refused_call_writes_no_attendance (Sample.nextDay 480 false)
                   Sample.boundStore _ DatabaseError) (Sample.byCode (Some "D2")) _).
  vm_compute. reflexivity.
Defined.

(** ** Checking out by code *)

Lemma checkOutByCode_accepts
  (env env' : Env) (st : Store) (input : attendance.ByCodeInput)
  (emp : Employee.t) (ex : AttendanceRecord.t) :
  find (fun e => String.eqb (Employee.employeeCode e) (attendance.employeeCode input))
       (employees st) = Some emp ->
  attendance.verifyDevice env emp (attendance.deviceId input) st = (st, Return tt) ->
  todaysRecord env (Employee.id emp) st = Some ex ->
  isSome (AttendanceRecord.checkInTime ex) = true ->
  isSome (AttendanceRecord.checkOutTime ex) = false ->
  today env' = today env ->
  exists st',
    attendance.checkOutByCode env input st = (st', Return (AttendanceRecord.id ex))
    /\ todaysRecord env' (Employee.id emp) st'
       = Some (attendance.checkOutData env (attendance.latitude input)
                 (attendance.longitude input) (attendance.method input) ex)
    /\ employees st' = employees st.
Proof.
  intros Hf Hv Hex Hin Hout Hday.
  unfold attendance.checkOutByCode at 1.
  unfold bind at 1. cbn [db.getEmployeeByCode gets]. rewrite Hf.
  rewrite (bind_eq _ _ _ _ _ Hv).
  rewrite (bind_eq _ _ _ _ _ (getTodayAttendance_eq env _ st)).
  fold (todaysRecord env (Employee.id emp) st). rewrite Hex, Hin, Hout. cbn [negb].
  unfold bind at 1. cbn [db.updateAttendanceRecord modify].
  match goal with
  | |- exists st', _ ?s = _ /\ _ =>
      destruct (checkOutByCode_notices env emp (AttendanceRecord.id ex) s)
        as (s' & E & Ha & He)
  end.
  cbn [employees withAttendanceRecords] in He.
  exists s'. split; [exact E |]. split; [| exact He].
  unfold todaysRecord in *. rewrite Ha, Hday.
  cbn [attendanceRecords withAttendanceRecords rows updateWhere].
  rewrite find_map_stable.
  - rewrite Hex. cbn. rewrite Z.eqb_refl. reflexivity.
  - intro x. cbv beta. destruct (AttendanceRecord.id x =? AttendanceRecord.id ex); reflexivity.
Qed.



(** ** Checking out early *)

Lemma endTime_hhmm (h m : Z) :
  0 <= h < 100 -> 0 <= m < 100 ->
  map JS.Number (JS.split ":" (hhmm h m)) = [Some h; Some m].
Proof.
  intros Hh Hm. rewrite (split_hhmm h m Hh Hm). cbn [map].
  rewrite (Number_twoDigits h Hh), (Number_twoDigits m Hm). reflexivity.
Qed.

Lemma isEarlyCheckout_hhmm env h m :
  0 <= h < 24 -> 0 <= m < 60 ->
  attendance.isEarlyCheckout env (hhmm h m)
  = ((now env + localOffset env) mod 86400000 <? (h * 60 + m - 120) * 60000).
Proof.
  intros Hh Hm. unfold attendance.isEarlyCheckout.
  rewrite endTime_hhmm by lia. cbn [JS.element nth_error JS.mul JS.add JS.sub].
  unfold JS.lt, JS.gt, attendance.localMidnight.
  destruct (Z.ltb_spec ((now env + localOffset env) mod 86400000) ((h * 60 + m - 120) * 60000))
    as [H | H]; [apply Z.ltb_lt | apply Z.ltb_ge];
    rewrite Z.mod_eq in H by lia; lia.
Qed.

(** X5.  [checkOut] for the session user, with an end of work [HH:MM]:
    the check-out is early exactly when the time of day at the server's
    offset is more than two hours before [HH:MM].  A check-out that is not
    early writes the row and no notification.  An early one stores an
    [early_checkout] notification and then writes the row; when that
    notification cannot be stored the call fails with its error and the
    check-out is not recorded. *)
Theorem early_checkout_notice
  (env : Env) (ctx : User) (input : attendance.Input) (st : Store)
  (emp : Employee.t) (ex : AttendanceRecord.t) (settings : WorkSettings.t) (h m : Z) :
  find (fun e => match Employee.userId e with
                 | Some u => u =? user_id ctx
                 | None => false
                 end) (employees st) = Some emp ->
  attendance.verifyBiometric emp (attendance.in_method input) st = (st, Return tt) ->
  todaysRecord env (Employee.id emp) st = Some ex ->
  isSome (AttendanceRecord.checkOutTime ex) = false ->
  hd_error (workSettings st) = Some settings ->
  WorkSettings.workEndTime settings = hhmm h m ->
  0 <= h < 24 -> 0 <= m < 60 ->
  let early := (now env + localOffset env) mod 86400000 <? (h * 60 + m - 120) * 60000 in
  let written (s : Store) :=
    withAttendanceRecords
      (updateWhere (fun r => AttendanceRecord.id r =? AttendanceRecord.id ex)
         (attendance.checkOutData env (attendance.in_latitude input)
            (attendance.in_longitude input) (attendance.in_method input))
         (attendanceRecords s)) s in
  (early = false -> attendance.checkOut env ctx input st = (written st, Return tt))
  /\ (early = true -> adminSinkUp env = true ->
      attendance.checkOut env ctx input st
      = (written
           (withAdminNotifications
              (insertRow (fun id => {| AdminNotification.id := id;
                                       AdminNotification.type := AdminNotification.early_checkout;
                                       AdminNotification.employeeId := Some (Employee.id emp) |})
                         (adminNotifications st)) st),
         Return tt))
  /\ (early = true -> adminSinkUp env = false ->
      attendance.checkOut env ctx input st = (st, Throw DatabaseError)).
Proof.
  intros Hf Hv Hex Hout Hs Hend Hh Hm. cbv zeta.
  rewrite <- (isEarlyCheckout_hhmm env h m Hh Hm).
  assert (Htruthy : JS.truthy (hhmm h m) = true) by reflexivity.
  assert (E : attendance.checkOut env ctx input st
              = (when (attendance.isEarlyCheckout env (hhmm h m)) do
                   db.notifyEarlyCheckout env (Employee.id emp) ;;;
                 db.updateAttendanceRecord (AttendanceRecord.id ex)
                   (attendance.checkOutData env (attendance.in_latitude input)
                      (attendance.in_longitude input) (attendance.in_method input))) st).
  { unfold attendance.checkOut. unfold bind at 1. cbn [db.getEmployeeByUserId gets].
    rewrite Hf. rewrite (bind_eq _ _ _ _ _ Hv).
    rewrite (bind_eq _ _ _ _ _ (getTodayAttendance_eq env _ st)).
    fold (todaysRecord env (Employee.id emp) st). rewrite Hex, Hout.
    unfold bind at 1. cbn [db.getWorkSettings gets]. rewrite Hs, Hend, Htruthy.
    reflexivity. }
  rewrite E. clear E.
  unfold bind, db.notifyEarlyCheckout, db.createNotification, db.updateAttendanceRecord,
    modify, ret.
  destruct (attendance.isEarlyCheckout env (hhmm h m)).
  - split; [discriminate |]. split; intros _ ->; reflexivity.
  - split; [reflexivity |]. split; discriminate.
Qed.

Lemma early_checkout_notice_witness :
  attendance.checkOut (Sample.clock 600 false) Sample.session Sample.bySession
    Sample.boundStore
  = (Sample.boundStore, Throw DatabaseError).
Proof.
  refine (proj2 (proj2
            (early_checkout_notice (Sample.clock 600 false) Sample.session Sample.bySession
               Sample.boundStore
               (db.setDevice (Some "D1") (Some (now (Sample.clock 480 true))) Sample.worker)
               (attendance.newRecord (Sample.clock 480 true) 1 0 0 fingerprint
                  AttendanceRecord.present 1)
               Sample.settings 17 0 _ _ _ _ _ _ _ _)) _ _);
    try (vm_compute; reflexivity); lia.
Defined.

(** ** Lateness without a usable start time; the default settings *)

Lemma split_without_colon s : hasColon s = false -> JS.split ":" s = [s].
Proof.
  induction s as [| c r IH]; cbn; [reflexivity |].
  intro H. apply orb_false_iff in H. destruct H as [Hc Hr].
  rewrite Hc, (IH Hr). reflexivity.
Qed.

(** X6.  With no work settings row, or with a start time that holds no
    colon (such as [0800]), nobody is late: [determineStatus] answers
    "present" at any time of day and leaves the store as it is. *)
Theorem never_late_without_start_time (env : Env) (employeeId : Z) (st : Store) :
  (workSettings st = []
   \/ exists settings,
        hd_error (workSettings st) = Some settings
        /\ hasColon (WorkSettings.workStartTime settings) = false) ->
  attendance.determineStatus env employeeId st = (st, Return AttendanceRecord.present).
Proof.
  intros [H | (settings & H & Hc)]; unfold attendance.determineStatus, bind;
    cbn [db.getWorkSettings gets]; rewrite H; [reflexivity |].
  rewrite (split_without_colon _ Hc). cbn [map JS.element nth_error].
  unfold JS.NaN.
  destruct (JS.mul (JS.Number (WorkSettings.workStartTime settings)) (Some 60));
    reflexivity.
Qed.

Lemma never_late_without_start_time_witness :
  attendance.determineStatus (Sample.clock 1200 true) 1
    (withWorkSettings [{| WorkSettings.workStartTime := "0800";
                          WorkSettings.workEndTime := "17:00";
                          WorkSettings.lateThresholdMinutes := 15 |}] (Sample.store []))
  = (withWorkSettings [{| WorkSettings.workStartTime := "0800";
                          WorkSettings.workEndTime := "17:00";
                          WorkSettings.lateThresholdMinutes := 15 |}] (Sample.store []),
     Return AttendanceRecord.present).
Proof.
  apply never_late_without_start_time. right. eexists. split; reflexivity.
Defined.

(** X7.  [initializeWorkSettings] always succeeds and is idempotent.  It
    leaves a store with settings as it is.  On a store with none it makes
    [08:00]-[17:00] with a threshold of 15 minutes the settings in force,
    so that a check-in is late from 08:16 on, local time at UTC+3 (and
    fails when the late notification cannot be stored). *)
Theorem initializeWorkSettings_fills_only_an_empty_table (st : Store) :
  exists st',
    db.initializeWorkSettings st = (st', Return tt)
    /\ db.initializeWorkSettings st' = (st', Return tt)
    /\ (forall settings, hd_error (workSettings st) = Some settings -> st' = st)
    /\ (workSettings st = [] ->
        db.getWorkSettings st'
        = (st', Return (Some {| WorkSettings.workStartTime := "08:00";
                                WorkSettings.workEndTime := "17:00";
                                WorkSettings.lateThresholdMinutes := 15 |})))
    /\ (forall env employeeId,
          workSettings st = [] ->
          snd (attendance.determineStatus env employeeId st') =
          if adminSinkUp env || (localMinutes env <=? 8 * 60 + 15)
          then Return (if 8 * 60 + 15 <? localMinutes env
                       then AttendanceRecord.late else AttendanceRecord.present)
          else Throw DatabaseError).
Proof.
  assert (Hinit : forall s,
            db.initializeWorkSettings s
            = match workSettings s with
              | [] => (withWorkSettings
                         [{| WorkSettings.workStartTime := "08:00";
                             WorkSettings.workEndTime := "17:00";
                             WorkSettings.lateThresholdMinutes := 15 |}] s, Return tt)
              | _ :: _ => (s, Return tt)
              end).
  { intro s. unfold db.initializeWorkSettings, bind, db.getWorkSettings, gets, modify, ret.
    destruct (workSettings s) eqn:Es; cbn [hd_error]; [rewrite Es |]; reflexivity. }
  destruct (workSettings st) as [| s0 l] eqn:E.
  - exists (withWorkSettings
              [{| WorkSettings.workStartTime := "08:00";
                  WorkSettings.workEndTime := "17:00";
                  WorkSettings.lateThresholdMinutes := 15 |}] st).
    rewrite !Hinit, E. cbn [workSettings withWorkSettings].
    split; [reflexivity |]. split; [reflexivity |]. split; [discriminate |].
    split; [reflexivity |].
    intros env employeeId _.
    unfold attendance.determineStatus, bind, db.getWorkSettings, gets.
    cbn [workSettings withWorkSettings hd_error WorkSettings.workStartTime
         WorkSettings.lateThresholdMinutes].
    change (map JS.Number (JS.split ":" "08:00")) with [Some 8; Some 0].
    cbn [JS.element nth_error JS.mul JS.add JS.gt].
    rewrite hours_minutes.
    change (3 * 60 * 60 * 1000) with 10800000. fold (localMinutes env).
    change (8 * 60 + 0 + 15) with (8 * 60 + 15).
    destruct (Z.ltb_spec (8 * 60 + 15) (localMinutes env)) as [H | H].
    + replace (localMinutes env <=? 8 * 60 + 15) with false
        by (symmetry; apply Z.leb_gt; exact H).
      rewrite orb_false_r.
      unfold db.notifyLateArrival, bind, db.createNotification, ret.
      destruct (adminSinkUp env); reflexivity.
    + replace (localMinutes env <=? 8 * 60 + 15) with true
        by (symmetry; apply Z.leb_le; exact H).
      rewrite orb_true_r. reflexivity.
  - exists st. rewrite !Hinit, E. cbn [hd_error].
    split; [reflexivity |]. split; [reflexivity |].
    split; [reflexivity |]. split; discriminate.
Qed.

(** ** The verdict and the set of zones *)

Lemma isLocationInWorkZone_eq env lat lon st :
  db.isLocationInWorkZone env lat lon st
  = (st, Return (db.isLocationInWorkZone_loop (Math env) lat lon
                   (filter WorkZone.isActive (workZones st)))).
Proof. reflexivity. Qed.

(** X8.  The verdict of [isLocationInWorkZone] depends on the set of
    zones only: a point found inside stays inside when zones are added,
    and two stores with the same zones, in whatever order, give the same
    verdict. *)
Theorem geofence_verdict_of_zone_set (env : Env) (latitude longitude : float) (st st' : Store) :
  exists r r',
    db.isLocationInWorkZone env latitude longitude st = (st, Return r)
    /\ db.isLocationInWorkZone env latitude longitude st' = (st', Return r')
    /\ ((forall z, In z (workZones st) -> In z (workZones st')) ->
        db.inZone r = true -> db.inZone r' = true)
    /\ ((forall z, In z (workZones st) <-> In z (workZones st')) ->
        db.inZone r = db.inZone r').
Proof.
  eexists. eexists. split; [apply isLocationInWorkZone_eq |].
  split; [apply isLocationInWorkZone_eq |].
  assert (Hmono : forall l l' : list WorkZone.t,
            (forall z, In z l -> In z l') ->
            db.inZone (db.isLocationInWorkZone_loop (Math env) latitude longitude
                         (filter WorkZone.isActive l)) = true ->
            db.inZone (db.isLocationInWorkZone_loop (Math env) latitude longitude
                         (filter WorkZone.isActive l')) = true).
  { intros l l' Hincl H. apply loop_inZone in H. destruct H as (z & Hz & Hi).
    apply loop_inZone. exists z. split; [| exact Hi].
    apply filter_In in Hz. apply filter_In. destruct Hz as [Hz Ha].
    split; [apply Hincl; exact Hz | exact Ha]. }
  split; [apply Hmono |].
  intro Hsame.
  destruct (db.inZone (db.isLocationInWorkZone_loop (Math env) latitude longitude
                         (filter WorkZone.isActive (workZones st)))) eqn:E1.
  - symmetry. apply (Hmono _ _ (fun z => proj1 (Hsame z)) E1).
  - destruct (db.inZone (db.isLocationInWorkZone_loop (Math env) latitude longitude
                           (filter WorkZone.isActive (workZones st')))) eqn:E2;
      [| reflexivity].
    rewrite (Hmono _ _ (fun z => proj2 (Hsame z)) E2) in E1. discriminate E1.
Qed.

(** ** One row per employee and day *)

Lemma find_none_filter {A} (p : A -> bool) (l : list A) :
  find p l = None -> filter p l = [].
Proof.
  induction l as [| x l IH]; cbn; [reflexivity |].
  destruct (p x); [discriminate | exact IH].
Qed.

Lemma filter_map_stable {A} (p : A -> bool) (g : A -> A) (l : list A) :
  (forall x, p (g x) = p x) -> filter p (map g l) = map g (filter p l).
Proof.
  intro H. induction l as [| x l IH]; cbn; [reflexivity |].
  rewrite H. destruct (p x); cbn; rewrite IH; reflexivity.
Qed.

Lemma attendanceStep_keeps_rule st st' :
  attendanceStep (attendanceRecords st) (attendanceRecords st') ->
  onePerDay st -> onePerDay st'.
Proof.
  intros [H | [(k & f & Hf & H) | (mk & eid & date & Hmk & Hnone & H)]] Hone eid' date';
    rewrite H.
  - apply Hone.
  - unfold rowsOf. cbn [rows updateWhere]. rewrite filter_map_stable.
    + rewrite length_map. apply Hone.
    + intro x. cbv beta. destruct (AttendanceRecord.id x =? k); [| reflexivity].
      destruct (Hf x) as [-> ->]. reflexivity.
  - unfold rowsOf. cbn [rows insertRow]. rewrite filter_app, length_app. cbn [filter].
    destruct (Hmk (nextId (attendanceRecords st))) as [-> ->].
    destruct ((eid =? eid') && String.eqb date date') eqn:E; cbn [List.length].
    + apply andb_true_iff in E. destruct E as [E1 E2].
      apply Z.eqb_eq in E1. apply String.eqb_eq in E2. subst eid' date'.
      unfold rowsOf in Hnone. rewrite Hnone. cbn. lia.
    + specialize (Hone eid' date'). unfold rowsOf in Hone. lia.
Qed.

Lemma persistCheckIn_step env eid lat lon m s st :
  attendanceStep (attendanceRecords st)
    (attendanceRecords
       (fst (attendance.persistCheckIn env eid (todaysRecord env eid st) lat lon m s st))).
Proof.
  unfold attendance.persistCheckIn.
  destruct (todaysRecord env eid st) as [ex |] eqn:E.
  - right. left. exists (AttendanceRecord.id ex), (attendance.checkInData env lat lon m s).
    split; [intro r; split; reflexivity | reflexivity].
  - right. right. exists (attendance.newRecord env eid lat lon m s), eid, (today env).
    split; [intro id; split; reflexivity |].
    split; [apply find_none_filter; exact E | reflexivity].
Qed.

Lemma checkIn_tail_step env eid lat lon m st :
  attendanceStep (attendanceRecords st)
    (attendanceRecords
       (fst ((existing <- db.getTodayAttendance env eid ;;
              if attendance.checkedIn existing then throw AlreadyCheckedIn
              else
                attendance.geofenceGate env eid lat lon ;;;
                status <- attendance.determineStatus env eid ;;
                attendance.persistCheckIn env eid existing lat lon m status) st))).
Proof.
  rewrite (bind_eq _ _ _ _ _ (getTodayAttendance_eq env eid st)).
  fold (todaysRecord env eid st).
  destruct (attendance.checkedIn (todaysRecord env eid st)); [left; reflexivity |].
  unfold bind at 1.
  destruct (attendance.geofenceGate env eid lat lon st) as [s1 [[] | e]] eqn:Eg.
  2:{ left. exact (att_geofenceGate _ _ _ _ _ _ _ Eg). }
  apply geofenceGate_Return in Eg. subst s1.
  unfold bind at 1.
  destruct (attendance.determineStatus env eid st) as [s2 [status | e]] eqn:Ed.
  2:{ left. exact (att_determineStatus _ _ _ _ _ Ed). }
  assert (Ha := att_determineStatus _ _ _ _ _ Ed).
  assert (Ht : todaysRecord env eid st = todaysRecord env eid s2).
  { unfold todaysRecord. rewrite Ha. reflexivity. }
  rewrite Ht, <- Ha. apply persistCheckIn_step.
Qed.

Lemma step_after {A B} (h : Handler A) (k : A -> Handler B) :
  preserves attendanceRecords h ->
  (forall a st, attendanceStep (attendanceRecords st) (attendanceRecords (fst (k a st)))) ->
  forall st, attendanceStep (attendanceRecords st) (attendanceRecords (fst (bind h k st))).
Proof.
  intros Hh Hk st. unfold bind. destruct (h st) as [s1 [a | e]] eqn:E.
  - rewrite <- (Hh _ _ _ E). apply Hk.
  - left. exact (Hh _ _ _ E).
Qed.

Lemma step_same {A} (h : Handler A) :
  preserves attendanceRecords h ->
  forall st, attendanceStep (attendanceRecords st) (attendanceRecords (fst (h st))).
Proof. intros Hh st. left. apply preserves_fst. exact Hh. Qed.

Lemma checkOut_update_step {A} env lat lon m (k : Handler A) ex :
  preserves attendanceRecords k ->
  forall st,
    attendanceStep (attendanceRecords st)
      (attendanceRecords
         (fst ((db.updateAttendanceRecord (AttendanceRecord.id ex)
                  (attendance.checkOutData env lat lon m) ;;; k) st))).
Proof.
  intros Hk st. unfold bind at 1. cbn [db.updateAttendanceRecord modify].
  rewrite (preserves_fst attendanceRecords k Hk).
  right. left. exists (AttendanceRecord.id ex), (attendance.checkOutData env lat lon m).
  split; [intro r; split; reflexivity | reflexivity].
Qed.

(** X9.  The check-ins and the check-outs keep the attendance table at
    one row at most per employee and day.  [addManual] does not look: for
    a manager it always adds a row for the employee and the day, whether
    or not there is one. *)
Theorem one_row_per_employee_and_day (env : Env) (st : Store) :
  onePerDay st ->
  (forall input, onePerDay (fst (attendance.checkInByCode env input st)))
  /\ (forall ctx input, onePerDay (fst (attendance.checkIn env ctx input st)))
  /\ (forall input, onePerDay (fst (attendance.checkOutByCode env input st)))
  /\ (forall ctx input, onePerDay (fst (attendance.checkOut env ctx input st)))
  /\ (forall ctx employeeId date checkInTime checkOutTime reason,
        attendanceManagement.isManager ctx = true ->
        List.length
          (rowsOf employeeId date
             (attendanceRecords
                (fst (attendanceManagement.addManual ctx employeeId date checkInTime
                        checkOutTime reason st))))
        = S (List.length (rowsOf employeeId date (attendanceRecords st)))).
Proof.
  intro Hone. repeat split.
  - intro input. refine (attendanceStep_keeps_rule st _ _ Hone).
    unfold attendance.checkInByCode.
    apply step_after; [unfold_db; frame |].
    intros [emp |]; [| apply step_same; frame].
    apply step_after; [apply att_bindDevice |].
    intros _. apply checkIn_tail_step.
  - intros ctx input. refine (attendanceStep_keeps_rule st _ _ Hone).
    unfold attendance.checkIn.
    apply step_after; [unfold_db; frame |].
    intros [emp |]; [| apply step_same; frame].
    apply step_after; [apply att_verifyBiometric |].
    intros _. apply checkIn_tail_step.
  - intro input. refine (attendanceStep_keeps_rule st _ _ Hone).
    unfold attendance.checkOutByCode.
    apply step_after; [unfold_db; frame |].
    intros [emp |]; [| apply step_same; frame].
    apply step_after; [apply att_verifyDevice |].
    intros _. apply step_after; [unfold_db; frame |].
    intros [ex |]; [| apply step_same; frame].
    destruct (negb (isSome (AttendanceRecord.checkInTime ex))); [apply step_same; frame |].
    destruct (isSome (AttendanceRecord.checkOutTime ex)); [apply step_same; frame |].
    apply checkOut_update_step. frame.
  - intros ctx input. refine (attendanceStep_keeps_rule st _ _ Hone).
    unfold attendance.checkOut.
    apply step_after; [unfold_db; frame |].
    intros [emp |]; [| apply step_same; frame].
    apply step_after; [apply att_verifyBiometric |].
    intros _. apply step_after; [unfold_db; frame |].
    intros [ex |]; [| apply step_same; frame].
    destruct (isSome (AttendanceRecord.checkOutTime ex)); [apply step_same; frame |].
    apply step_after; [unfold_db; frame |].
    intros ws. apply step_after; [unfold_db; frame |].
    intros _ s. right. left.
    exists (AttendanceRecord.id ex),
      (attendance.checkOutData env (attendance.in_latitude input)
         (attendance.in_longitude input) (attendance.in_method input)).
    split; [intro r; split; reflexivity | reflexivity].
  - intros ctx employeeId date checkInTime checkOutTime reason Hm.
    unfold attendanceManagement.addManual. rewrite Hm. cbn [negb].
    unfold db.addManualAttendance, bind, db.createAttendanceRecord,
      db.createAttendanceModification, ret.
    cbn [fst attendanceRecords withAttendanceModifications withAttendanceRecords].
    unfold rowsOf. cbn [rows insertRow]. rewrite filter_app, length_app.
    cbn [filter AttendanceRecord.employeeId AttendanceRecord.date].
    rewrite Z.eqb_refl, String.eqb_refl. cbn. lia.
Qed.

Lemma one_row_per_employee_and_day_witness :
  (List.length
     (rowsOf 1 "2024-03-10"
        (attendanceRecords
           (fst (attendance.checkInByCode (Sample.clock 480 true) (Sample.byCode None)
                   (Sample.store []))))) <= 1)%nat.
Proof.
  refine (proj1 (one_row_per_employee_and_day (Sample.clock 480 true) (Sample.store []) _)
                (Sample.byCode None) 1 "2024-03-10").
  intros employeeId date. cbn. lia.
Defined.

(** ** Who writes what *)

(** X10.  The employees table, and with it every device binding, is left
    as it was by [checkOutByCode], [checkIn], [checkOut], the field-task
    procedures, the leave procedures and the administrative corrections,
    whatever their outcome: devices are bound by [checkInByCode] and
    cleared by [resetDevice] only. *)
Theorem device_bindings_untouched_elsewhere (env : Env) (st : Store) :
  (forall input, employees (fst (attendance.checkOutByCode env input st)) = employees st)
  /\ (forall ctx input, employees (fst (attendance.checkIn env ctx input st)) = employees st)
  /\ (forall ctx input, employees (fst (attendance.checkOut env ctx input st)) = employees st)
  /\ (forall employeeId input,
        employees (fst (fieldTask.create env employeeId input st)) = employees st)
  /\ (forall employeeCode input,
        employees (fst (fieldTask.createByCode env employeeCode input st)) = employees st)
  /\ (forall input, employees (fst (leave.create env input st)) = employees st)
  /\ (forall requestId reviewerCode outcome reason,
        employees (fst (leave.decide env requestId reviewerCode outcome reason st))
        = employees st)
  /\ (forall ctx employeeId date checkInTime checkOutTime reason,
        employees (fst (attendanceManagement.addManual ctx employeeId date checkInTime
                          checkOutTime reason st)) = employees st)
  /\ (forall ctx attendanceId newCheckIn newCheckOut reason,
        employees (fst (attendanceManagement.modify ctx attendanceId newCheckIn newCheckOut
                          reason st)) = employees st)
  /\ (forall ctx attendanceId reason,
        employees (fst (attendanceManagement.resetCheckout ctx attendanceId reason st))
        = employees st).
Proof.
  repeat split; intros; apply preserves_fst;
    unfold attendanceManagement.modify, attendanceManagement.resetCheckout,
      db.modifyAttendanceRecord, db.resetAttendanceCheckOut, db.getAttendanceRecordById;
    unfold_routers; unfold_db; frame.
Qed.

(** X11.  The attendance procedures never write to the leave requests,
    the leave balances or the field tasks; the leave procedures never
    write to the attendance table or the field tasks; the field-task
    procedures never write to the attendance table or the leave tables.
    This holds whatever the outcome of the call. *)
Theorem attendance_and_leave_are_separate (env : Env) (st : Store) :
  (forall input,
     let st' := fst (attendance.checkInByCode env input st) in
     leaveRequests st' = leaveRequests st /\ leaveBalances st' = leaveBalances st
     /\ fieldTasks st' = fieldTasks st)
  /\ (forall ctx input,
        let st' := fst (attendance.checkIn env ctx input st) in
        leaveRequests st' = leaveRequests st /\ leaveBalances st' = leaveBalances st
        /\ fieldTasks st' = fieldTasks st)
  /\ (forall input,
        let st' := fst (attendance.checkOutByCode env input st) in
        leaveRequests st' = leaveRequests st /\ leaveBalances st' = leaveBalances st
        /\ fieldTasks st' = fieldTasks st)
  /\ (forall ctx input,
        let st' := fst (attendance.checkOut env ctx input st) in
        leaveRequests st' = leaveRequests st /\ leaveBalances st' = leaveBalances st
        /\ fieldTasks st' = fieldTasks st)
  /\ (forall input,
        let st' := fst (leave.create env input st) in
        attendanceRecords st' = attendanceRecords st /\ fieldTasks st' = fieldTasks st)
  /\ (forall requestId reviewerCode outcome reason,
        let st' := fst (leave.decide env requestId reviewerCode outcome reason st) in
        attendanceRecords st' = attendanceRecords st /\ fieldTasks st' = fieldTasks st)
  /\ (forall employeeId input,
        let st' := fst (fieldTask.create env employeeId input st) in
        attendanceRecords st' = attendanceRecords st
        /\ leaveRequests st' = leaveRequests st /\ leaveBalances st' = leaveBalances st)
  /\ (forall employeeCode input,
        let st' := fst (fieldTask.createByCode env employeeCode input st) in
        attendanceRecords st' = attendanceRecords st
        /\ leaveRequests st' = leaveRequests st /\ leaveBalances st' = leaveBalances st).
Proof. repeat split; framed. Qed.

(** ** Corrections by an administrator *)




Lemma todaysRecord_updated env eid attendanceId
  (f : AttendanceRecord.t -> AttendanceRecord.t) (T : Table AttendanceRecord.t) st ex :
  (forall r, AttendanceRecord.employeeId (f r) = AttendanceRecord.employeeId r
             /\ AttendanceRecord.date (f r) = AttendanceRecord.date r) ->
  todaysRecord env eid st = Some ex ->
  rows T = map (fun r => if AttendanceRecord.id r =? attendanceId then f r else r)
               (rows (attendanceRecords st)) ->
  todaysRecord env eid (withAttendanceRecords T st)
  = Some (if AttendanceRecord.id ex =? attendanceId then f ex else ex).
Proof.
  intros Hf Hex HT. unfold todaysRecord in *.
  cbn [attendanceRecords withAttendanceRecords]. rewrite HT, find_map_stable.
  - rewrite Hex. reflexivity.
  - intro x. cbv beta. destruct (AttendanceRecord.id x =? attendanceId); [| reflexivity].
    destruct (Hf x) as [-> ->]. reflexivity.
Qed.

(** X13.  [attendanceManagement.resetCheckout] called by a manager on
    today's row of an employee who has checked in: the check-out time is
    cleared, the check-in time stays, and one audit row is appended.
    After it a check-in by code is still refused with AlreadyCheckedIn,
    and a check-out by code is accepted again. *)
Theorem resetCheckout_reopens_checkOut_only
  (env : Env) (ctx : User) (st : Store) (reason : string)
  (input : attendance.ByCodeInput) (emp : Employee.t) (ex : AttendanceRecord.t) :
  attendanceManagement.isManager ctx = true ->
  find (fun e => String.eqb (Employee.employeeCode e) (attendance.employeeCode input))
       (employees st) = Some emp ->
  todaysRecord env (Employee.id emp) st = Some ex ->
  isSome (AttendanceRecord.checkInTime ex) = true ->
  attendance.deviceId input = None ->
  exists st' st'',
    attendanceManagement.resetCheckout ctx (AttendanceRecord.id ex) reason st
    = (st', Return db.Corrected)
    /\ todaysRecord env (Employee.id emp) st'
       = Some (db.setTimes (AttendanceRecord.checkInTime ex) None ex)
    /\ List.length (rows (attendanceModifications st'))
       = S (List.length (rows (attendanceModifications st)))
    /\ attendance.checkInByCode env input st' = (st', Throw AlreadyCheckedIn)
    /\ attendance.checkOutByCode env input st'
       = (st'', Return (AttendanceRecord.id ex)).
Proof.
  intros Hm Hf Hex Hin Hdev.
  assert (Hcur : exists current,
            find (fun r => AttendanceRecord.id r =? AttendanceRecord.id ex)
                 (rows (attendanceRecords st)) = Some current).
  { unfold todaysRecord in Hex. apply find_some in Hex. destruct Hex as [Hi _].
    apply (find_is_some _ _ ex Hi). apply Z.eqb_refl. }
  destruct Hcur as [current Hcur].
  set (st1 := withAttendanceModifications
                (insertRow (fun id =>
                   {| AttendanceModification.id := id;
                      AttendanceModification.attendanceId := AttendanceRecord.id ex;
                      AttendanceModification.modifiedBy := user_id ctx;
                      AttendanceModification.modificationType := AttendanceModification.reset;
                      AttendanceModification.newCheckIn := AttendanceRecord.checkInTime current;
                      AttendanceModification.newCheckOut := None;
                      AttendanceModification.reason := reason |})
                   (attendanceModifications st)) st).
  set (st' := withAttendanceRecords
                (updateWhere (fun r => AttendanceRecord.id r =? AttendanceRecord.id ex)
                   (fun r => db.setTimes (AttendanceRecord.checkInTime r) None r)
                   (attendanceRecords st1)) st1).
  assert (Hreset : attendanceManagement.resetCheckout ctx (AttendanceRecord.id ex) reason st
                   = (st', Return db.Corrected)).
  { unfold attendanceManagement.resetCheckout. rewrite Hm. cbn [negb].
    unfold db.resetAttendanceCheckOut, db.getAttendanceRecordById, bind, gets.
    rewrite Hcur. reflexivity. }
  assert (Htoday : todaysRecord env (Employee.id emp) st'
                   = Some (db.setTimes (AttendanceRecord.checkInTime ex) None ex)).
  { unfold st'.
    rewrite (todaysRecord_updated env (Employee.id emp) (AttendanceRecord.id ex)
               (fun r => db.setTimes (AttendanceRecord.checkInTime r) None r) _ st1 ex).
    - rewrite Z.eqb_refl. reflexivity.
    - intro r. split; reflexivity.
    - exact Hex.
    - reflexivity. }
  assert (Hemp : employees st' = employees st) by reflexivity.
  destruct (checkOutByCode_accepts env env st' input emp
              (db.setTimes (AttendanceRecord.checkInTime ex) None ex))
    as (st'' & Eout & _).
  { rewrite Hemp. exact Hf. }
  { rewrite Hdev. reflexivity. }
  { exact Htoday. }
  { exact Hin. }
  { reflexivity. }
  { reflexivity. }
  exists st', st''. split; [exact Hreset |]. split; [exact Htoday |].
  split.
  { unfold st', st1. cbn [attendanceModifications withAttendanceRecords
      withAttendanceModifications rows insertRow].
    rewrite length_app. cbn. lia. }
  split; [| exact Eout].
  unfold attendance.checkInByCode. unfold bind at 1. cbn [db.getEmployeeByCode gets].
  rewrite Hemp, Hf, Hdev. unfold attendance.bindDevice. unfold bind at 1. cbn [ret].
  rewrite (bind_eq _ _ _ _ _ (getTodayAttendance_eq env _ st')).
  fold (todaysRecord env (Employee.id emp) st'). rewrite Htoday.
  cbn [attendance.checkedIn db.setTimes AttendanceRecord.checkInTime]. rewrite Hin.
  reflexivity.
Qed.

Lemma resetCheckout_reopens_checkOut_only_witness :
  let st0 :=
    fst (attendance.checkOutByCode (Sample.clock 1020 true) (Sample.byCode None)
           Sample.boundStore) in
  let ex :=
    attendance.checkOutData (Sample.clock 1020 true) 0 0 fingerprint
      (attendance.newRecord (Sample.clock 480 true) 1 0 0 fingerprint
         AttendanceRecord.present 1) in
  exists st' st'',
    attendanceManagement.resetCheckout Sample.adminSession (AttendanceRecord.id ex)
      "left by mistake" st0 = (st', Return db.Corrected)
    /\ todaysRecord (Sample.clock 1080 true) 1 st'
       = Some (db.setTimes (AttendanceRecord.checkInTime ex) None ex)
    /\ List.length (rows (attendanceModifications st'))
       = S (List.length (rows (attendanceModifications st0)))
    /\ attendance.checkInByCode (Sample.clock 1080 true) (Sample.byCode None) st'
       = (st', Throw AlreadyCheckedIn)
    /\ attendance.checkOutByCode (Sample.clock 1080 true) (Sample.byCode None) st'
       = (st'', Return (AttendanceRecord.id ex)).
Proof.
  refine (resetCheckout_reopens_checkOut_only (Sample.clock 1080 true) Sample.adminSession
            _ "left by mistake" (Sample.byCode None)
            (db.setDevice (Some "D1") (Some (now (Sample.clock 480 true))) Sample.worker)
            _ _ _ _ _ _);
    vm_compute; reflexivity.
Defined.

(** ** Field tasks: leaving and coming back *)








(** ** The location router *)







(** ** Decisions on leave *)

Lemma setReview_status outcome reviewer at_ reason req :
  LeaveRequest.status (db.setReview outcome reviewer at_ reason req) = outcome.
Proof. reflexivity. Qed.

Lemma decide_commits env requestId reviewerCode outcome reason st rv req :
  find (fun e => String.eqb (Employee.employeeCode e) reviewerCode) (employees st) = Some rv ->
  leave.mayReview (Some rv) = true ->
  find (fun r => LeaveRequest.id r =? requestId) (rows (leaveRequests st)) = Some req ->
  LeaveRequest.status req = pending ->
  outcome <> pending ->
  exists st1,
    db.updateLeaveRequestStatus env requestId outcome (Employee.id rv) reason st
    = (st1, Return tt)
    /\ leave.decide env requestId reviewerCode outcome reason st
       = leave.notifyDecision env (LeaveRequest.employeeId req) st1
    /\ employees st1 = employees st
    /\ find (fun r => LeaveRequest.id r =? requestId)
            (rows (leaveRequests (fst (leave.decide env requestId reviewerCode outcome
                                         reason st))))
       = Some (db.setReview outcome (Employee.id rv) (now env) reason req).
Proof.
  intros Hrv Hmay Hreq Hpend Hout.
  destruct (updateLeaveRequestStatus_effect env requestId outcome (Employee.id rv) reason
              st req Hreq Hout) as (st1 & E1 & Hfind & _).
  exists st1. split; [exact E1 |].
  rewrite (decide_found env requestId reviewerCode outcome reason st rv req Hrv Hmay Hreq Hpend).
  rewrite (bind_eq _ _ _ _ _ E1). split; [reflexivity |].
  split.
  - assert (P : preserves employees
                  (db.updateLeaveRequestStatus env requestId outcome (Employee.id rv) reason))
      by (unfold_db; frame).
    exact (P _ _ _ E1).
  - destruct (notifyDecision_returns env (LeaveRequest.employeeId req) st1)
      as (st2 & o & E2 & Hr & _).
    rewrite E2. cbn [fst]. rewrite Hr. exact Hfind.
Qed.

(** X18.  A decision is final.  Once [approve] or [reject] has got past
    its checks for a pending request, every later decision on that
    request, by anyone and in any sense, ends with an error and leaves
    the store as it is: AlreadyDecided (a Conflict) for a reviewer who is
    entitled, InsufficientRole otherwise. *)
Theorem decision_is_final
  (env env' : Env) (st : Store) (requestId : Z) (reviewerCode : string)
  (outcome : LeaveStatus) (reason : option string) (rv : Employee.t) (req : LeaveRequest.t) :
  find (fun e => String.eqb (Employee.employeeCode e) reviewerCode) (employees st) = Some rv ->
  leave.mayReview (Some rv) = true ->
  find (fun r => LeaveRequest.id r =? requestId) (rows (leaveRequests st)) = Some req ->
  LeaveRequest.status req = pending ->
  outcome <> pending ->
  let st' := fst (leave.decide env requestId reviewerCode outcome reason st) in
  forall reviewerCode' outcome' reason',
    exists e,
      leave.decide env' requestId reviewerCode' outcome' reason' st' = (st', Throw e)
      /\ (e = AlreadyDecided \/ e = InsufficientRole)
      /\ (reviewerCode' = reviewerCode -> e = AlreadyDecided /\ kind e = Conflict).
Proof.
  intros Hrv Hmay Hreq Hpend Hout st' reviewerCode' outcome' reason'.
  destruct (decide_commits env requestId reviewerCode outcome reason st rv req
              Hrv Hmay Hreq Hpend Hout) as (st1 & E1 & Hd & He & Hfind).
  fold st' in Hfind.
  assert (Hemp : employees st' = employees st).
  { unfold st'. apply preserves_fst. unfold_routers; unfold_db; frame. }
  unfold leave.decide. unfold bind at 1. cbn [db.getEmployeeByCode gets].
  destruct (find (fun e => String.eqb (Employee.employeeCode e) reviewerCode') (employees st'))
    as [rv' |] eqn:Erv'.
  - destruct (leave.mayReview (Some rv')) eqn:Emay'; cbn [negb].
    + exists AlreadyDecided. unfold bind. cbn [db.getLeaveRequestById gets].
      rewrite Hfind. unfold leave.isPending. rewrite setReview_status.
      destruct outcome; [congruence | | ]; cbn; auto.
    + exists InsufficientRole. split; [reflexivity |]. split; [right; reflexivity |].
      intros ->. rewrite Hemp, Hrv in Erv'. injection Erv' as <-. congruence.
  - exists InsufficientRole. split; [reflexivity |]. split; [right; reflexivity |].
    intros ->. rewrite Hemp, Hrv in Erv'. discriminate Erv'.
Qed.

Lemma decision_is_final_witness :
  exists e,
    leave.decide (Sample.clock 720 true) 1 "M1" rejected (Some "late")
      (fst (leave.decide (Sample.clock 660 true) 1 "M1" approved None Sample.pendingStore))
    = (fst (leave.decide (Sample.clock 660 true) 1 "M1" approved None Sample.pendingStore),
       Throw e)
    /\ (e = AlreadyDecided \/ e = InsufficientRole)
    /\ ("M1" = "M1" -> e = AlreadyDecided /\ kind e = Conflict).
Proof.
  refine (decision_is_final (Sample.clock 660 true) (Sample.clock 720 true)
            Sample.pendingStore 1 "M1" approved None Sample.manager
            (pendingRequest 1 (Sample.request annual "2024-03-31") 21 1)
            _ _ _ _ _ "M1" rejected (Some "late"));
    try (vm_compute; reflexivity).
  discriminate.
Defined.



(** ** The ledger from a fresh start; the balance query; the day count *)

Lemma ledgerRun_app ops1 ops2 st :
  ledgerRun (ops1 ++ ops2) st = ledgerRun ops2 (ledgerRun ops1 st).
Proof. unfold ledgerRun. apply fold_left_app. Qed.

(** X20.  From a store with no leave request and no balance row, along
    any sequence of requests, approvals and rejections, and between any
    two points of it: every balance row stays in place with its key,
    employee, year and allotments, and none of its used counters
    decreases. *)
Theorem counters_never_decrease_from_a_fresh_ledger
  (st : Store) (before after : list LedgerOp) :
  rows (leaveRequests st) = [] ->
  rows (leaveBalances st) = [] ->
  tableGrows (rows (leaveBalances (ledgerRun before st)))
             (rows (leaveBalances (ledgerRun (before ++ after) st))).
Proof.
  intros Hr Hb.
  assert (Hinv : ledgerInv st).
  { unfold ledgerInv, keyed. rewrite Hr, Hb. repeat constructor. }
  rewrite ledgerRun_app.
  apply used_never_decreases. apply (used_never_decreases before st Hinv).
Qed.

Lemma counters_never_decrease_from_a_fresh_ledger_witness :
  tableGrows
    (rows (leaveBalances
       (ledgerRun [Request (Sample.clock 600 true) (Sample.request annual "2024-03-31")]
          (Sample.store []))))
    (rows (leaveBalances
       (ledgerRun ([Request (Sample.clock 600 true) (Sample.request annual "2024-03-31")]
                   ++ [Approve (Sample.clock 660 true) 1 "M1"])
          (Sample.store [])))).
Proof.
  apply counters_never_decrease_from_a_fresh_ledger; reflexivity.
Defined.





(** X22.  The day count of a leave request, for two dates that parse:
    the number of days between them plus one, the same whichever of the
    two comes first, and one for a single day. *)
Theorem totalDays_counts_both_ends (startDate endDate : string) (tStart tEnd : Z) :
  JS.dateTime startDate = Some tStart ->
  JS.dateTime endDate = Some tEnd ->
  leave.totalDays startDate endDate = Some (Z.abs (tEnd - tStart) / 86400000 + 1)
  /\ leave.totalDays endDate startDate = leave.totalDays startDate endDate
  /\ leave.totalDays startDate startDate = Some 1.
Proof.
  intros Hs He.
  destruct (dateTime_day _ _ Hs) as [ds ->]. destruct (dateTime_day _ _ He) as [de ->].
  rewrite (totalDays_days _ _ _ _ Hs He), (totalDays_days _ _ _ _ He Hs),
    (totalDays_days _ _ _ _ Hs Hs).
  replace (de * 86400000 - ds * 86400000) with ((de - ds) * 86400000) by lia.
  rewrite Z.abs_mul. change (Z.abs 86400000) with 86400000.
  rewrite Z.div_mul by lia.
  repeat split; f_equal; lia.
Qed.

Lemma totalDays_counts_both_ends_witness :
  leave.totalDays "2024-03-11" "2024-03-31"
  = Some (Z.abs (1711843200000 - 1710115200000) / 86400000 + 1)
  /\ leave.totalDays "2024-03-31" "2024-03-11" = leave.totalDays "2024-03-11" "2024-03-31"
  /\ leave.totalDays "2024-03-11" "2024-03-11" = Some 1.
Proof.
  apply totalDays_counts_both_ends; vm_compute; reflexivity.
Defined.

(** ** Deleting zones *)

(** X23.  [workZone.delete] is for administrators: anyone else is refused
    and nothing changes.  For an administrator it removes the zones with
    that key and nothing else; no point comes to lie inside a zone by it;
    and once no active zone is left the geofence gate of the check-ins
    lets every position through. *)
Theorem deleting_zones_lifts_the_geofence (env : Env) (ctx : User) (id : Z) (st : Store) :
  (workZone.isAdmin ctx = false ->
   workZone.delete ctx id st = (st, Throw InsufficientRole))
  /\ (workZone.isAdmin ctx = true ->
      exists st',
        workZone.delete ctx id st = (st', Return tt)
        /\ workZones st' = filter (fun z => negb (WorkZone.id z =? id)) (workZones st)
        /\ attendanceRecords st' = attendanceRecords st
        /\ employees st' = employees st
        /\ (forall latitude longitude r r',
              workZone.check env latitude longitude st = (st, Return r) ->
              workZone.check env latitude longitude st' = (st', Return r') ->
              db.inZone r' = true -> db.inZone r = true)
        /\ ((forall z, In z (workZones st) -> WorkZone.isActive z = true ->
                       WorkZone.id z = id) ->
            forall employeeId latitude longitude,
              attendance.geofenceGate env employeeId latitude longitude st'
              = (st', Return tt))).
Proof.
  unfold workZone.delete. split; intros ->; cbn [negb]; [reflexivity |].
  eexists. split; [reflexivity |].
  cbn [workZones withWorkZones attendanceRecords employees].
  do 3 (split; [reflexivity |]). split.
  - intros latitude longitude r r' H1 H2 Hin.
    unfold workZone.check in H1, H2. rewrite isLocationInWorkZone_eq in H1, H2.
    injection H1 as <-. injection H2 as <-.
    cbn [workZones withWorkZones] in Hin.
    apply loop_inZone in Hin. destruct Hin as (z & Hz & Hi).
    apply loop_inZone. exists z. split; [| exact Hi].
    apply filter_In in Hz. destruct Hz as [Hz Ha].
    apply filter_In in Hz. destruct Hz as [Hz _].
    apply filter_In. split; assumption.
  - intros Hall employeeId latitude longitude.
    unfold attendance.geofenceGate, db.isLocationInWorkZone, db.getActiveWorkZones,
      bind, gets, ret.
    cbn [workZones withWorkZones].
    replace (filter WorkZone.isActive
               (filter (fun z => negb (WorkZone.id z =? id)) (workZones st))) with
      (@nil WorkZone.t); [reflexivity |].
    symmetry. induction (workZones st) as [| z l IH]; [reflexivity |].
    cbn [filter].
    destruct (Z.eqb_spec (WorkZone.id z) id) as [E | E]; cbn [negb].
    + apply IH. intros y Hy. apply Hall. right. exact Hy.
    + cbn [filter]. destruct (WorkZone.isActive z) eqn:Ea.
      * exfalso. apply E. apply Hall; [left; reflexivity | exact Ea].
      * apply IH. intros y Hy. apply Hall. right. exact Hy.
Qed.

(** ** From a request to the balance *)







